(** * Multi-provider generation registry and document-intelligence workflow

    A shallow embedding of
    - [src/utils/model_manager.py]      ([UnifiedModelManager]),
    - [src/agents/document_intelligence_agent.py] ([DocumentIntelligenceAgent]),
    - [src/workflows/document_intelligence_workflow.py]
      ([DocumentIntelligenceWorkflow]),
    together with the properties the specification states about them.

    Python code that mutates objects and raises exceptions is written in a
    state-and-exception monad over one system state [Sys]: the outside world,
    the module-level [model_manager], the agent's loaded components and a
    call log.  State changes made before an exception is raised persist, as
    they do in Python.

    What lies outside the repository (the model backends, the file system,
    [extract_thinker]) is a parameter [Env] of arbitrary behaviour.  The
    compiled LangGraph graph is run along the edges [_create_workflow]
    declares, and [pathlib] is the POSIX flavour. *)

From Stdlib Require Import ZArith Ascii.
From stdpp Require Import base option list strings pretty.


(** ** Exceptions and outcomes *)

(** A Python exception: its class name and [str(e)]. *)
Record exn := Exception { exn_class : string; exn_msg : string }.

Definition RuntimeError (msg : string) : exn := Exception "RuntimeError" msg.
Definition ValueError (msg : string) : exn := Exception "ValueError" msg.

Inductive outcome (A : Type) : Type :=
| Return (a : A)
| Raise (e : exn).
Arguments Return {A} a.
Arguments Raise {A} e.

(** ** Insertion-ordered dictionaries with string keys

    A Python [dict] keeps its keys in insertion order; assigning to an
    existing key keeps the key's position. *)

Definition dict (V : Type) : Type := list (string * V).

Fixpoint dict_get {V} (k : string) (d : dict V) : option V :=
  match d with
  | [] => None
  | (k', v) :: rest => if decide (k' = k) then Some v else dict_get k rest
  end.

Fixpoint dict_set {V} (k : string) (v : V) (d : dict V) : dict V :=
  match d with
  | [] => [(k, v)]
  | (k', v') :: rest =>
      if decide (k' = k) then (k, v) :: rest else (k', v') :: dict_set k v rest
  end.

Definition dict_keys {V} (d : dict V) : list string := d.*1.

(** ** Configuration ([src/config/settings.py]) *)

Record Settings := {
  MODEL_PROVIDER : string;
  FALLBACK_PROVIDER : string;
  MAX_CONTEXT_TOKENS : Z;
  OLLAMA_MODEL : string;
  OLLAMA_VISION_MODEL : string;
  DOCUMENT_UPLOAD_PATH : string;
  EXTRACTED_DATA_PATH : string
}.

(** The values [Settings] takes when no environment variable is set. *)
Definition default_settings : Settings := {|
  MODEL_PROVIDER := "ollama";
  FALLBACK_PROVIDER := "huggingface";
  MAX_CONTEXT_TOKENS := 8192;
  OLLAMA_MODEL := "phi4:latest";
  OLLAMA_VISION_MODEL := "moondream:latest";
  DOCUMENT_UPLOAD_PATH := "./documents";
  EXTRACTED_DATA_PATH := "./extracted"
|}.

(** ** Data of the agent and of the workflow *)

(** Keyword arguments handed through to a provider's [generate]. *)
Definition Kwargs : Type := list (string * string).

(** The two splitter classes of [extract_thinker], with their [model]. *)
Inductive Splitter :=
| TextSplitter (model : string)
| ImageSplitter (model : string).

Global Instance Splitter_eq_dec : EqDecision Splitter.
Proof. solve_decision. Defined.


(** An object returned by the extraction: either it has a [dict()] method
    (a contract) or it has not. *)
Inductive Item :=
| ContractItem (fields : dict string)
| OtherItem (repr : string).

(** What [item.dict() if hasattr(item, 'dict') else str(item)] yields. *)
Inductive ItemData :=
| DictData (fields : dict string)
| StrData (repr : string).

Definition item_data (i : Item) : ItemData :=
  match i with
  | ContractItem f => DictData f
  | OtherItem r => StrData r
  end.

(** What the agent has loaded into its [Extractor] and [Process]. *)
Record Agent := {
  extractor_llm : option string;
  process_splitter : option Splitter
}.

Inductive Message :=
| HumanMessage (content : string)
| AIMessage (content : string).

Definition content (m : Message) : string :=
  match m with HumanMessage c => c | AIMessage c => c end.

(** [DocumentProcessingState] is a [TypedDict]: the keys [document_type],
    [extracted_data] and [error_message] are absent until a node writes
    them, and are read with [state.get(key, default)]. *)
Record DocumentProcessingState := {
  messages : list Message;
  document_path : string;
  document_type : option string;
  extracted_data : option (list ItemData);
  processing_status : string;
  error_message : option string;
  use_vision : bool;
  enable_pii_masking : bool
}.

(** The dictionary [process_document] returns. *)
Record Result := {
  r_status : string;
  r_document_path : string;
  r_document_type : string;
  r_extracted_data : list ItemData;
  r_error_message : string;
  r_messages : list string
}.

Section Model.
(** [W] is the outside world (backends, file system); [P] the provider
    objects, compared by identity. *)
Context {W P : Type} `{EqDecision P}.

(** ** The registry state *)
Record UnifiedModelManager := {
  providers : dict P;
  active_provider : option P;
  fallback_provider : option P
}.

(** Calls that leave the repository's code, recorded in order. *)
Inductive event :=
| CallGenerate (p : P) (prompt : string) (kwargs : Kwargs)
| CallClassify (path : string)
| CallExtract (path : string) (vision : bool).

Record Sys := {
  world : W;
  model_manager : UnifiedModelManager;
  agent : Agent;
  calls : list event
}.

(** The behaviour of everything outside the repository.  A call takes the
    world and gives back an outcome and the world after it.
    [is_available] is an observation: both implementations catch every
    exception and change nothing.  [extract] stands for
    [process.load_file(path).split(classifications, strategy).extract(vision,
    completion_strategy)] of [extract_thinker]; it sees what the agent has
    loaded. *)
Record Env := {
  new_OllamaProvider : W → outcome P * W;
  new_HuggingFaceProvider : W → outcome P * W;
  is_available : P → W → bool;
  provider_generate : P → string → Kwargs → W → outcome string * W;
  os_path_exists : string → W → bool;
  os_makedirs : string → W → outcome unit * W;
  open_read : string → W → outcome unit * W;
  load_llm : string → W → outcome unit * W;
  new_TextSplitter : string → W → outcome unit * W;
  new_ImageSplitter : string → W → outcome unit * W;
  load_splitter : Splitter → W → outcome unit * W;
  extract : Agent → string → bool → string → string → W → outcome (list Item) * W
}.

(** ** The monad *)
Definition M (A : Type) : Type := Sys → outcome A * Sys.

Definition ret {A} (a : A) : M A := λ s, (Return a, s).
Definition raise {A} (e : exn) : M A := λ s, (Raise e, s).
Definition bind {A B} (c : M A) (k : A → M B) : M B :=
  λ s, match c s with
       | (Return a, s') => k a s'
       | (Raise e, s') => (Raise e, s')
       end.

(** [try: body except Exception as e: handler e] *)
Definition try_except {A} (body : M A) (handler : exn → M A) : M A :=
  λ s, match body s with
       | (Return a, s') => (Return a, s')
       | (Raise e, s') => handler e s'
       end.

(** [try: body finally: fin]; an exception of [fin] replaces the
    outcome of [body]. *)
Definition try_finally {A} (body : M A) (fin : M unit) : M A :=
  λ s, match body s with
       | (r, s') =>
           match fin s' with
           | (Return _, s'') => (r, s'')
           | (Raise e, s'') => (Raise e, s'')
           end
       end.

Definition get_mm : M UnifiedModelManager := λ s, (Return (model_manager s), s).
Definition put_mm (m : UnifiedModelManager) : M unit :=
  λ s, (Return (), {| world := world s; model_manager := m;
                      agent := agent s; calls := calls s |}).
Definition get_agent : M Agent := λ s, (Return (agent s), s).
Definition put_agent (a : Agent) : M unit :=
  λ s, (Return (), {| world := world s; model_manager := model_manager s;
                      agent := a; calls := calls s |}).
Definition log (ev : event) : M unit :=
  λ s, (Return (), {| world := world s; model_manager := model_manager s;
                      agent := agent s; calls := calls s ++ [ev] |}).
(** An external call, which may change the world and may raise. *)
Definition call {A} (f : W → outcome A * W) : M A :=
  λ s, match f (world s) with
       | (r, w') => (r, {| world := w'; model_manager := model_manager s;
                           agent := agent s; calls := calls s |})
       end.
(** An external observation. *)
Definition observe {A} (f : W → A) : M A := λ s, (Return (f (world s)), s).
End Model.

Arguments UnifiedModelManager : clear implicits.
Arguments event : clear implicits.
Arguments Sys : clear implicits.
Arguments Env : clear implicits.
Arguments M : clear implicits.

Notation "x <- c ;; k" := (bind c (λ x, k))
  (at level 100, c at next level, right associativity).
Notation "c ;; k" := (bind c (λ _, k))
  (at level 100, right associativity).

(** ** [UnifiedModelManager] ([src/utils/model_manager.py]) *)

Section Registry.
Context {W P : Type} `{EqDecision P}.
Context (env : Env W P) (settings : Settings).

Local Abbreviation Mgr := (UnifiedModelManager P).
Local Abbreviation M := (M W P).

(** [self.providers[name] = provider] *)
Definition set_provider (name : string) (provider : P) (self : Mgr) : Mgr :=
  {| providers := dict_set name provider (providers self);
     active_provider := active_provider self;
     fallback_provider := fallback_provider self |}.

(** [self.active_provider = provider] *)
Definition set_active (provider : P) (self : Mgr) : Mgr :=
  {| providers := providers self;
     active_provider := Some provider;
     fallback_provider := fallback_provider self |}.

(** [self.fallback_provider = provider] *)
Definition set_fallback (provider : P) (self : Mgr) : Mgr :=
  {| providers := providers self;
     active_provider := active_provider self;
     fallback_provider := Some provider |}.

(** The three assignments of [_set_active_provider], on the registry
    state. *)
Definition choose_primary (primary : string) (self : Mgr) : Mgr :=
  match dict_get primary (providers self) with
  | Some p => set_active p self
  | None => self
  end.

Definition choose_fallback (primary fallback : string) (self : Mgr) : Mgr :=
  match dict_get fallback (providers self) with
  | Some p => if decide (fallback ≠ primary) then set_fallback p self else self
  | None => self
  end.

(** [if not self.active_provider and self.providers:] take the first key. *)
Definition choose_any (self : Mgr) : Mgr :=
  match active_provider self, providers self with
  | None, (provider_name, p) :: _ => set_active p self
  | _, _ => self
  end.

Definition _set_active_provider : M unit :=
  let primary := MODEL_PROVIDER settings in
  let fallback := FALLBACK_PROVIDER settings in
  self <- get_mm ;;
  put_mm (choose_any (choose_fallback primary fallback (choose_primary primary self))).

(** One [try:] block of [_initialize_providers]: construct the provider,
    register it under [name] when it reports itself available; any
    exception is logged and dropped. *)
Definition register_provider (name : string) (new : W → outcome P * W) : M unit :=
  try_except
    (provider <- call new ;;
     available <- observe (is_available env provider) ;;
     if available : bool then
       self <- get_mm ;; put_mm (set_provider name provider self)
     else ret ())
    (λ e, ret ()).

Definition _initialize_providers : M unit :=
  register_provider "ollama" (new_OllamaProvider env) ;;
  register_provider "huggingface" (new_HuggingFaceProvider env) ;;
  _set_active_provider.

Definition UnifiedModelManager__init__ : M unit :=
  put_mm {| providers := []; active_provider := None; fallback_provider := None |} ;;
  _initialize_providers.

(** [provider.generate(prompt, **kwargs)], recorded in the call log. *)
Definition call_generate (provider : P) (prompt : string) (kwargs : Kwargs) : M string :=
  log (CallGenerate provider prompt kwargs) ;;
  call (provider_generate env provider prompt kwargs).

Definition generate (prompt : string) (kwargs : Kwargs) : M string :=
  self <- get_mm ;;
  match active_provider self with
  | None => raise (RuntimeError "No model providers available")
  | Some active =>
      try_except (call_generate active prompt kwargs)
        (λ e,
           self <- get_mm ;;
           match fallback_provider self with
           | Some fallback =>
               try_except (call_generate fallback prompt kwargs)
                 (λ fallback_error, raise fallback_error)
           | None => raise e
           end)
  end.

Definition get_available_providers : M (list string) :=
  self <- get_mm ;; ret (dict_keys (providers self)).

Definition switch_provider (provider_name : string) : M bool :=
  self <- get_mm ;;
  match dict_get provider_name (providers self) with
  | Some p => put_mm (set_active p self) ;; ret true
  | None => ret false
  end.

(** [for name, provider in self.providers.items():
       if provider == self.active_provider: return name] *)
Fixpoint name_of (items : dict P) (active : option P) : option string :=
  match items with
  | [] => None
  | (name, provider) :: rest =>
      if decide (Some provider = active) then Some name else name_of rest active
  end.

Definition get_active_provider_name : M (option string) :=
  self <- get_mm ;; ret (name_of (providers self) (active_provider self)).
End Registry.

(** ** Strings and paths

    Paths are byte strings.  [str.lower] is modelled on the ASCII letters;
    bytes above 127 are left as they are. *)

Definition lower_char (c : ascii) : ascii :=
  let n := nat_of_ascii c in
  if Nat.leb 65 n && Nat.leb n 90 then ascii_of_nat (n + 32) else c.

Fixpoint lower (s : string) : string :=
  match s with
  | EmptyString => EmptyString
  | String c s' => String (lower_char c) (lower s')
  end.

(** [s.split(sep)] for a one-character separator. *)
Fixpoint split_on (sep : ascii) (s : string) : list string :=
  match s with
  | EmptyString => [EmptyString]
  | String c s' =>
      if decide (c = sep) then EmptyString :: split_on sep s'
      else match split_on sep s' with
           | part :: parts => String c part :: parts
           | [] => [String c EmptyString]
           end
  end.

(** [s.rfind(c)]: the index of the last occurrence, [None] for [-1]. *)
Fixpoint rfind (c : ascii) (s : string) : option nat :=
  match s with
  | EmptyString => None
  | String a s' =>
      match rfind c s' with
      | Some i => Some (S i)
      | None => if decide (a = c) then Some 0 else None
      end
  end.

(** [s[i:]] *)
Fixpoint string_drop (i : nat) (s : string) : string :=
  match i, s with
  | 0, _ => s
  | S i', EmptyString => EmptyString
  | S i', String _ s' => string_drop i' s'
  end.

(** [needle in hay] *)
Fixpoint contains (needle hay : string) : bool :=
  String.prefix needle hay ||
  match hay with
  | EmptyString => false
  | String _ hay' => contains needle hay'
  end.

(** The parts of a POSIX [pathlib.Path]: empty components and ["."]
    components are dropped. *)
Definition path_parts (file_path : string) : list string :=
  filter (λ part, part ≠ "" ∧ part ≠ ".") (split_on "/" file_path).

(** [Path(file_path).name]: the last part, or [""]. *)
Definition path_name (file_path : string) : string :=
  List.last (path_parts file_path) "".

(** [Path(file_path).suffix]:
    [i = name.rfind('.'); name[i:] if 0 < i < len(name) - 1 else ''] *)
Definition path_suffix (file_path : string) : string :=
  let name := path_name file_path in
  match rfind "." name with
  | Some i => if Nat.ltb 0 i && Nat.ltb i (String.length name - 1)
              then string_drop i name else ""
  | None => ""
  end.

(** [x or default] on an optional string: [None] and [""] are falsy. *)
Definition str_or (x : option string) (default : string) : string :=
  match x with
  | Some s => if decide (s = "") then default else s
  | None => default
  end.

(** Truthiness of an optional string. *)
Definition truthy (x : option string) : bool :=
  match x with
  | Some s => bool_decide (s ≠ "")
  | None => false
  end.

(** ** [DocumentIntelligenceAgent]
    ([src/agents/document_intelligence_agent.py])

    Logging and the assignment to [os.environ] are left out; every other
    statement of the methods below is kept. *)

Module DocumentIntelligenceAgent.
Section Agent.
Context {W P : Type} `{EqDecision P}.
Context (env : Env W P) (settings : Settings).

Local Abbreviation M := (M W P).

Definition get_supported_formats : list string :=
  [".pdf"; ".png"; ".jpg"; ".jpeg"; ".tiff"; ".bmp"; ".docx"; ".doc"; ".txt"].

Definition validate_document (file_path : string) : bool :=
  let file_extension := lower (path_suffix file_path) in
  bool_decide (file_extension ∈ get_supported_formats).

(** [self.extractor.load_llm(f"ollama/{settings.OLLAMA_MODEL}")] *)
Definition load_ollama_llm : M unit :=
  let model_name := "ollama/" +:+ OLLAMA_MODEL settings in
  call (load_llm env model_name) ;;
  a <- get_agent ;;
  put_agent {| extractor_llm := Some model_name;
               process_splitter := process_splitter a |}.

Definition _setup_huggingface_extractor : M unit :=
  try_except
    (available <- get_available_providers ;;
     if bool_decide ("huggingface" ∈ available) then load_ollama_llm
     else raise (RuntimeError "Hugging Face provider not available"))
    (λ e, raise e).

Definition _configure_model_provider : M unit :=
  try_except
    (active_provider <- get_active_provider_name ;;
     if decide (active_provider = Some "ollama") then load_ollama_llm
     else if decide (active_provider = Some "huggingface")
          then _setup_huggingface_extractor
          else load_ollama_llm)
    (λ e, load_ollama_llm).

(** [self.process.load_splitter(splitter)] *)
Definition load_process_splitter (splitter : Splitter) : M unit :=
  call (load_splitter env splitter) ;;
  a <- get_agent ;;
  put_agent {| extractor_llm := extractor_llm a;
               process_splitter := Some splitter |}.

Definition _configure_splitter : M unit :=
  try_except
    (active_provider <- get_active_provider_name ;;
     splitter <-
       (if (MAX_CONTEXT_TOKENS settings <=? 8192)%Z then
          let model_name :=
            if decide (active_provider = Some "ollama")
            then "ollama/" +:+ OLLAMA_MODEL settings
            else "text-splitter" in
          call (new_TextSplitter env model_name) ;;
          ret (TextSplitter model_name)
        else
          let vision_model :=
            if decide (active_provider = Some "ollama")
            then "ollama/" +:+ OLLAMA_VISION_MODEL settings
            else "vision-splitter" in
          call (new_ImageSplitter env vision_model) ;;
          ret (ImageSplitter vision_model)) ;;
     load_process_splitter splitter)
    (λ e,
       call (new_TextSplitter env "text-splitter") ;;
       load_process_splitter (TextSplitter "text-splitter")).

(** [self.process.load_file(file_path).split(...).extract(...)], which
    runs inside [extract_thinker]; the call is recorded. *)
Definition run_process (file_path : string) (use_vision : bool)
    (splitting_strategy completion_strategy : string) : M (list Item) :=
  log (CallExtract file_path use_vision) ;;
  a <- get_agent ;;
  call (extract env a file_path use_vision splitting_strategy completion_strategy).

Definition process_document (file_path : string) (use_vision : bool)
    (splitting_strategy completion_strategy : string) : M (list Item) :=
  try_except
    (call (os_makedirs env (DOCUMENT_UPLOAD_PATH settings)) ;;
     call (os_makedirs env (EXTRACTED_DATA_PATH settings)) ;;
     result <- run_process file_path use_vision splitting_strategy completion_strategy ;;
     ret result)
    (λ e, raise e).

Definition classify_by_name (file_name : string) : string :=
  if contains "invoice" file_name || contains "bill" file_name then "Invoice"
  else if contains "license" file_name || contains "dl" file_name then "Driver License"
  else if contains "passport" file_name then "Passport"
  else if contains "business" file_name || contains "card" file_name then "Business Card"
  else "Unknown".

Definition classify_document (file_path : string) : M (option string) :=
  try_except
    (call (open_read env file_path) ;;
     let file_name := lower (path_name file_path) in
     ret (Some (classify_by_name file_name)))
    (λ e, ret None).

Definition extract_with_pagination (file_path : string) : M (list ItemData) :=
  try_except
    (result <- process_document file_path false "LAZY" "PAGINATE" ;;
     ret (item_data <$> result))
    (λ e, raise e).

Definition switch_model_provider (provider_name : string) : M bool :=
  try_except
    (success <- switch_provider provider_name ;;
     (if success : bool then
        _configure_model_provider ;; _configure_splitter
      else ret ()) ;;
     ret success)
    (λ e, ret false).

(** [provider_name and provider_name != original_provider] *)
Definition switch_requested (provider_name original_provider : option string) : bool :=
  truthy provider_name && bool_decide (provider_name ≠ original_provider).

Definition process_document_with_provider (file_path : string)
    (provider_name : option string) (use_vision : bool)
    (splitting_strategy completion_strategy : string) : M (list Item) :=
  original_provider <- get_active_provider_name ;;
  try_finally
    ((if switch_requested provider_name original_provider then
        switched <- switch_model_provider (default "" provider_name) ;;
        if switched : bool then ret ()
        else raise (ValueError ("Cannot switch to provider: " +:+ default "" provider_name))
      else ret ()) ;;
     result <- process_document file_path use_vision splitting_strategy completion_strategy ;;
     ret result)
    (if switch_requested provider_name original_provider && truthy original_provider
     then switch_model_provider (default "" original_provider) ;; ret ()
     else ret ()).

End Agent.
End DocumentIntelligenceAgent.

(** ** [DocumentIntelligenceWorkflow]
    ([src/workflows/document_intelligence_workflow.py]) *)

Module DocumentIntelligenceWorkflow.
Section Workflow.
Context {W P : Type} `{EqDecision P}.
Context (env : Env W P) (settings : Settings).

Local Abbreviation M := (M W P).
Local Abbreviation State := DocumentProcessingState.

(** [state["processing_status"] = "error"; state["error_message"] = msg] *)
Definition set_error (msg : string) (state : State) : State :=
  {| messages := messages state;
     document_path := document_path state;
     document_type := document_type state;
     extracted_data := extracted_data state;
     processing_status := "error";
     error_message := Some msg;
     use_vision := use_vision state;
     enable_pii_masking := enable_pii_masking state |}.

(** [state["processing_status"] = status] *)
Definition set_status (status : string) (state : State) : State :=
  {| messages := messages state;
     document_path := document_path state;
     document_type := document_type state;
     extracted_data := extracted_data state;
     processing_status := status;
     error_message := error_message state;
     use_vision := use_vision state;
     enable_pii_masking := enable_pii_masking state |}.

(** [state["document_type"] = document_type] *)
Definition set_document_type (dt : string) (state : State) : State :=
  {| messages := messages state;
     document_path := document_path state;
     document_type := Some dt;
     extracted_data := extracted_data state;
     processing_status := processing_status state;
     error_message := error_message state;
     use_vision := use_vision state;
     enable_pii_masking := enable_pii_masking state |}.

(** [state["extracted_data"] = data] *)
Definition set_extracted_data (data : list ItemData) (state : State) : State :=
  {| messages := messages state;
     document_path := document_path state;
     document_type := document_type state;
     extracted_data := Some data;
     processing_status := processing_status state;
     error_message := error_message state;
     use_vision := use_vision state;
     enable_pii_masking := enable_pii_masking state |}.

(** [state["messages"].append(msg)] *)
Definition append_message (msg : Message) (state : State) : State :=
  {| messages := messages state ++ [msg];
     document_path := document_path state;
     document_type := document_type state;
     extracted_data := extracted_data state;
     processing_status := processing_status state;
     error_message := error_message state;
     use_vision := use_vision state;
     enable_pii_masking := enable_pii_masking state |}.

Definition _validate_document (state : State) : M State :=
  try_except
    (let document_path := document_path state in
     if decide (document_path = "") then
       ret (set_error "No document path provided" state)
     else
       found <- observe (os_path_exists env document_path) ;;
       if negb found then
         ret (set_error ("Document not found: " +:+ document_path) state)
       else if negb (DocumentIntelligenceAgent.validate_document document_path) then
         ret (set_error ("Unsupported document format: " +:+ path_suffix document_path) state)
       else
         ret (append_message
                (AIMessage ("Document validated successfully: " +:+ path_name document_path))
                (set_status "validated" state)))
    (λ e, ret (set_error ("Validation failed: " +:+ exn_msg e) state)).

Definition _classify_document (state : State) : M State :=
  try_except
    (let document_path := document_path state in
     log (CallClassify document_path) ;;
     document_type <- DocumentIntelligenceAgent.classify_document env document_path ;;
     let state := set_status "classified"
                    (set_document_type (str_or document_type "Unknown") state) in
     ret (append_message
            (AIMessage ("Document classified as: " +:+ str_or document_type "Unknown"))
            state))
    (λ e, ret (set_error ("Classification failed: " +:+ exn_msg e) state)).

Definition _process_document (state : State) : M State :=
  try_except
    (let document_path := document_path state in
     let use_vision := use_vision state in
     r <-
       (if (MAX_CONTEXT_TOKENS settings <=? 8192)%Z then
          extracted_data <-
            DocumentIntelligenceAgent.extract_with_pagination env settings document_path ;;
          ret (extracted_data, "pagination (limited context)")
        else
          result <-
            DocumentIntelligenceAgent.process_document env settings
              document_path use_vision "LAZY" "PAGINATE" ;;
          ret (item_data <$> result, "standard processing")) ;;
     let extracted_data := r.1 in
     let strategy_used := r.2 in
     let state := set_status "completed" (set_extracted_data extracted_data state) in
     ret (append_message
            (AIMessage ("Document processed successfully using " +:+ strategy_used
                        +:+ ". Extracted " +:+ pretty (length extracted_data)
                        +:+ " data items."))
            state))
    (λ e, ret (set_error ("Processing failed: " +:+ exn_msg e) state)).

Definition _handle_error (state : State) : M State :=
  let error_message := default "Unknown error occurred" (error_message state) in
  ret (append_message (AIMessage ("Error: " +:+ error_message)) state).

Definition _should_continue_after_validation (state : State) : string :=
  if decide (processing_status state = "validated") then "continue" else "error".

Definition _should_end_workflow (state : State) : string :=
  if decide (processing_status state = "completed") then "end" else "error".

(** The graph built by [_create_workflow]. *)
Inductive node := validate_document | classify_document | process_document_node
                | handle_error | END.

Definition START : node := validate_document.

(** [add_node]: the function each node runs. *)
Definition node_action (n : node) (state : State) : M State :=
  match n with
  | validate_document => _validate_document state
  | classify_document => _classify_document state
  | process_document_node => _process_document state
  | handle_error => _handle_error state
  | END => ret state
  end.

(** [add_edge] and [add_conditional_edges]: the node that follows [n]
    once [n] has produced [state]. *)
Definition next_node (n : node) (state : State) : node :=
  match n with
  | validate_document =>
      if decide (_should_continue_after_validation state = "continue")
      then classify_document else handle_error
  | classify_document => process_document_node
  | process_document_node =>
      if decide (_should_end_workflow state = "end") then END else handle_error
  | handle_error => END
  | END => END
  end.

(** [self.workflow.invoke]: run nodes along the edges until [END];
    [None] when [fuel] steps did not reach it. *)
Fixpoint run (fuel : nat) (n : node) (state : State) : M (option State) :=
  match n, fuel with
  | END, _ => ret (Some state)
  | _, 0 => ret None
  | _, S fuel' =>
      state' <- node_action n state ;;
      run fuel' (next_node n state') state'
  end.

Arguments run : simpl never.

(** No path of the graph has more than four nodes. *)
Definition invoke (state : State) : M (option State) := run 4 START state.

(** The dictionary built from the final state. *)
Definition result_of (final_state : State) : Result :=
  {| r_status := processing_status final_state;
     r_document_path := document_path final_state;
     r_document_type := default "Unknown" (document_type final_state);
     r_extracted_data := default [] (extracted_data final_state);
     r_error_message := default "" (error_message final_state);
     r_messages := content <$> messages final_state |}.

Definition process_document (document_path : string) (use_vision : bool)
    (enable_pii_masking : bool) : M (option Result) :=
  let initial_state :=
    {| messages := [HumanMessage ("Process document: " +:+ document_path)];
       document_path := document_path;
       document_type := None;
       extracted_data := None;
       processing_status := "pending";
       error_message := None;
       use_vision := use_vision;
       enable_pii_masking := enable_pii_masking |} in
  try_except
    (final <- invoke initial_state ;;
     ret (result_of <$> final))
    (λ e,
       ret (Some {| r_status := "error";
                    r_document_path := document_path;
                    r_document_type := "Unknown";
                    r_extracted_data := [];
                    r_error_message := exn_msg e;
                    r_messages := ["Workflow execution failed: " +:+ exn_msg e] |})).

End Workflow.
End DocumentIntelligenceWorkflow.

(** ** The specification's policies, in its own words

    These definitions follow the specification, not the source; the
    theorems below compare them with the code. *)

(** Initialization policy of the specification: "the configured primary if
    available, else the configured fallback if available, else the first
    available provider found, else unset". *)
Definition spec_initial_active {P} (primary fallback : string)
    (available : dict P) : option P :=
  match dict_get primary available with
  | Some p => Some p
  | None =>
      match dict_get fallback available with
      | Some p => Some p
      | None => match available with
                | (_, p) :: _ => Some p
                | [] => None
                end
      end
  end.


(** What one [try:] block of [_initialize_providers] discovers in world
    [w]: the provider under [name] if it could be constructed and reported
    itself available, and the world after the probe. *)
Definition discovered {W P} (env : Env W P) (name : string)
    (new : W → outcome P * W) (w : W) : dict P * W :=
  match new w with
  | (Return p, w') => (if is_available env p w' then [(name, p)] else [], w')
  | (Raise _, w') => ([], w')
  end.

(** The registry invariant of every constructed registry: the keys of
    [providers] are distinct (it is a [dict]) and none is empty, and the
    active provider is a registered one, or is unset because nothing is
    registered. *)
Definition registry_ok {P} (m : UnifiedModelManager P) : Prop :=
  NoDup (dict_keys (providers m)) ∧
  ("" ∉ dict_keys (providers m)) ∧
  (match active_provider m with
   | Some a => ∃ name, (name, a) ∈ providers m
   | None => providers m = []
   end).

(** A computation that leaves the registry as it found it, whether it
    returns or raises. *)
Definition keeps_registry {W P A} (c : M W P A) : Prop :=
  ∀ s, model_manager (c s).2 = model_manager s.

(** ** A concrete world

    Two backends that are up or down, and a set of existing files.  The
    Ollama provider object is [0], the Hugging Face one is [1]. *)
Module Concrete.

Record backends := {
  ollama_up : bool;
  hf_up : bool;
  files : list string
}.

Definition up (p : nat) (w : backends) : bool :=
  match p with
  | 0 => ollama_up w
  | 1 => hf_up w
  | _ => false
  end.

Definition backend_name (p : nat) : string :=
  match p with 0 => "ollama" | _ => "huggingface" end.

Definition env : Env backends nat := {|
  new_OllamaProvider w := (Return 0, w);
  new_HuggingFaceProvider w := (Return 1, w);
  is_available p w := up p w;
  provider_generate p prompt kwargs w :=
    if up p w then (Return (backend_name p +:+ ": " +:+ prompt), w)
    else (Raise (Exception "ConnectionError" (backend_name p +:+ " is down")), w);
  os_path_exists path w := bool_decide (path ∈ files w);
  os_makedirs path w := (Return (), w);
  open_read path w :=
    if bool_decide (path ∈ files w) then (Return (), w)
    else (Raise (Exception "FileNotFoundError" path), w);
  load_llm model w := (Return (), w);
  new_TextSplitter model w := (Return (), w);
  new_ImageSplitter model w := (Return (), w);
  load_splitter splitter w := (Return (), w);
  extract a path vision splitting completion w :=
    if up 0 w then (Return [ContractItem [("invoice_number", "123")]], w)
    else (Raise (Exception "ConnectionError" "ollama is down"), w)
|}.

Definition all_up : backends :=
  {| ollama_up := true; hf_up := true; files := ["invoice.txt"; "notes.xyz"] |}.

Definition ollama_down : backends :=
  {| ollama_up := false; hf_up := true; files := ["invoice.txt"; "notes.xyz"] |}.

Definition all_down : backends :=
  {| ollama_up := false; hf_up := false; files := ["invoice.txt"; "notes.xyz"] |}.

(** The state of a process in world [w] before [model_manager] is built. *)
Definition boot (w : backends) : Sys backends nat :=
  {| world := w;
     model_manager := {| providers := []; active_provider := None;
                         fallback_provider := None |};
     agent := {| extractor_llm := None; process_splitter := None |};
     calls := [] |}.

(** The state after [model_manager = UnifiedModelManager()]. *)
Definition started (settings : Settings) (w : backends) : Sys backends nat :=
  (UnifiedModelManager__init__ env settings (boot w)).2.

(** The world changes to [w] while the process keeps running. *)
Definition world_becomes (w : backends) (s : Sys backends nat) : Sys backends nat :=
  {| world := w; model_manager := model_manager s; agent := agent s;
     calls := calls s |}.

(** [MODEL_PROVIDER=openai], a value the settings file names, for which no
    provider class exists. *)
Definition openai_settings : Settings := {|
  MODEL_PROVIDER := "openai";
  FALLBACK_PROVIDER := "huggingface";
  MAX_CONTEXT_TOKENS := 8192;
  OLLAMA_MODEL := "phi4:latest";
  OLLAMA_VISION_MODEL := "moondream:latest";
  DOCUMENT_UPLOAD_PATH := "./documents";
  EXTRACTED_DATA_PATH := "./extracted"
|}.


End Concrete.


(** * Further methods of the three files *)

(** [f] applied to what a computation returns. *)
Definition outcome_map {A B} (f : A → B) (o : outcome A) : outcome B :=
  match o with
  | Return a => Return (f a)
  | Raise e => Raise e
  end.

(** A computation that makes no recorded call (to a provider's [generate],
    to the classifier or to the extraction), whether it returns or raises. *)
Definition keeps_calls {W P A} (c : M W P A) : Prop :=
  ∀ s, calls (c s).2 = calls s.

(** ** [UnifiedModelManager.get_provider_info] and the registries a
    process can reach *)

(** What [get_provider_info] returns: the information of one provider, or
    a dictionary of the information of all of them. *)
Inductive ProviderInfo :=
| InfoOf (info : dict string)
| InfoAll (infos : dict (dict string)).

Section RegistryMore.
Context {W P : Type} `{EqDecision P}.
Context (env : Env W P) (settings : Settings).
(** [provider.get_model_info()]: an observation, since both
    implementations catch every exception and return a dictionary. *)
Context (get_model_info : P → W → dict string).

Local Abbreviation Mgr := (UnifiedModelManager P).
Local Abbreviation M := (M W P).

(** [for name, provider in self.providers.items():
       info[name] = provider.get_model_info()] *)
Fixpoint collect_info (items : dict P) (info : dict (dict string)) (w : W)
    : dict (dict string) :=
  match items with
  | [] => info
  | (name, provider) :: rest =>
      collect_info rest (dict_set name (get_model_info provider w) info) w
  end.

Definition get_provider_info (provider_name : option string) : M ProviderInfo :=
  self <- get_mm ;;
  if truthy provider_name then
    match dict_get (default "" provider_name) (providers self) with
    | Some provider =>
        info <- observe (get_model_info provider) ;; ret (InfoOf info)
    | None =>
        ret (InfoOf [("status", "not_available");
                     ("provider", default "" provider_name)])
    end
  else
    info <- observe (collect_info (providers self) []) ;; ret (InfoAll info).

(** The registries of a running process: the one the constructor builds,
    and those [switch_provider] makes of it. *)
Inductive reachable : Mgr → Prop :=
| reachable_init (s : Sys W P) :
    reachable (model_manager (UnifiedModelManager__init__ env settings s).2)
| reachable_switch (s : Sys W P) (provider_name : string) :
    reachable (model_manager s) →
    reachable (model_manager (switch_provider provider_name s).2).

End RegistryMore.

(** ** Further methods of [DocumentIntelligenceAgent] *)

(** One entry of the dictionary [benchmark_providers] returns; [T] is the
    type of [time.time()] readings. *)
Inductive BenchmarkEntry (T : Type) :=
| FailedToSwitch
| BenchmarkSuccess (response_length : nat) (generation_time : T)
    (provider_info : ProviderInfo)
| BenchmarkError (error : string).
Arguments FailedToSwitch {T}.
Arguments BenchmarkSuccess {T} response_length generation_time provider_info.
Arguments BenchmarkError {T} error.

Module AgentMethods.
Section Agent.
Context {W P T : Type} `{EqDecision P}.
Context (env : Env W P) (settings : Settings).
Context (get_model_info : P → W → dict string).
(** [time.time()] and the subtraction of two readings. *)
Context (time_time : W → outcome T * W) (time_sub : T → T → T).

Import DocumentIntelligenceAgent.

Local Abbreviation M := (M W P).

Definition generate_with_model (prompt : string) (kwargs : Kwargs) : M string :=
  try_except (generate env prompt kwargs) (λ e, raise e).

Definition get_current_provider_info : M ProviderInfo :=
  active_provider <- get_active_provider_name ;;
  if truthy active_provider then get_provider_info get_model_info active_provider
  else ret (InfoOf [("status", "no_active_provider")]).

Definition get_all_provider_info : M ProviderInfo :=
  get_provider_info get_model_info None.

(** The body of the loop of [batch_process_documents], and the loop. *)
Definition batch_one (doc_path : string) (results : dict (list Item))
    : M (dict (list Item)) :=
  try_except
    (result <- process_document env settings doc_path false "LAZY" "PAGINATE" ;;
     ret (dict_set doc_path result results))
    (λ e, ret (dict_set doc_path [] results)).

Fixpoint batch_loop (document_paths : list string) (results : dict (list Item))
    : M (dict (list Item)) :=
  match document_paths with
  | [] => ret results
  | doc_path :: rest =>
      results <- batch_one doc_path results ;; batch_loop rest results
  end.

Definition batch_process_documents (document_paths : list string)
    : M (dict (list Item)) :=
  batch_loop document_paths [].

(** The body of the loop of [benchmark_providers], and the loop. *)
Definition benchmark_one (test_prompt provider_name : string)
    (results : dict (BenchmarkEntry T)) : M (dict (BenchmarkEntry T)) :=
  try_except
    (switched <- switch_model_provider env settings provider_name ;;
     if negb switched then
       ret (dict_set provider_name FailedToSwitch results)
     else
       start_time <- call time_time ;;
       response <- generate_with_model test_prompt [("max_tokens", "100")] ;;
       end_time <- call time_time ;;
       provider_info <- get_current_provider_info ;;
       ret (dict_set provider_name
              (BenchmarkSuccess (String.length response)
                 (time_sub end_time start_time) provider_info)
              results))
    (λ e, ret (dict_set provider_name (BenchmarkError (exn_msg e)) results)).

Fixpoint benchmark_loop (test_prompt : string) (names : list string)
    (results : dict (BenchmarkEntry T)) : M (dict (BenchmarkEntry T)) :=
  match names with
  | [] => ret results
  | provider_name :: rest =>
      results <- benchmark_one test_prompt provider_name results ;;
      benchmark_loop test_prompt rest results
  end.

Definition benchmark_providers (test_prompt : string)
    : M (dict (BenchmarkEntry T)) :=
  original_provider <- get_active_provider_name ;;
  names <- get_available_providers ;;
  results <- benchmark_loop test_prompt names [] ;;
  (if truthy original_provider then
     switch_model_provider env settings (default "" original_provider) ;; ret ()
   else ret ()) ;;
  ret results.

End Agent.
End AgentMethods.

(** ** Further methods of [DocumentIntelligenceWorkflow] *)

Module WorkflowMethods.
Section Workflow.
Context {W P : Type} `{EqDecision P}.
Context (env : Env W P) (settings : Settings).

Import DocumentIntelligenceWorkflow.

Local Abbreviation M := (M W P).

Fixpoint batch_loop (document_paths : list string)
    (use_vision enable_pii_masking : bool) (results : dict (option Result))
    : M (dict (option Result)) :=
  match document_paths with
  | [] => ret results
  | doc_path :: rest =>
      result <- process_document env settings doc_path use_vision enable_pii_masking ;;
      batch_loop rest use_vision enable_pii_masking (dict_set doc_path result results)
  end.

Definition batch_process_documents (document_paths : list string)
    (use_vision enable_pii_masking : bool) : M (dict (option Result)) :=
  batch_loop document_paths use_vision enable_pii_masking [].

Definition get_supported_formats : list string :=
  DocumentIntelligenceAgent.get_supported_formats.

End Workflow.

(** A state with one of its two flags replaced. *)
Definition with_pii_masking (flag : bool) (state : DocumentProcessingState)
    : DocumentProcessingState :=
  {| messages := messages state;
     document_path := document_path state;
     document_type := document_type state;
     extracted_data := extracted_data state;
     processing_status := processing_status state;
     error_message := error_message state;
     use_vision := use_vision state;
     enable_pii_masking := flag |}.

Definition with_vision (flag : bool) (state : DocumentProcessingState)
    : DocumentProcessingState :=
  {| messages := messages state;
     document_path := document_path state;
     document_type := document_type state;
     extracted_data := extracted_data state;
     processing_status := processing_status state;
     error_message := error_message state;
     use_vision := flag;
     enable_pii_masking := enable_pii_masking state |}.

End WorkflowMethods.

(** ** The provider classes ([src/utils/model_manager.py])

    The methods of a provider act on the outside world only; they are
    written with the world passed explicitly.  The assignment to
    [os.environ] and logging are left out. *)

(** [kwargs.get(key, default)] *)
Definition kwargs_get (key default : string) (kwargs : Kwargs) : string :=
  match dict_get key kwargs with
  | Some value => value
  | None => default
  end.

(** [x or default] for an optional string argument. *)
Definition arg_or (x : option string) (default : string) : string :=
  str_or x default.

Module OllamaProvider.
Section Ollama.
(** [C] is the type of [ollama.Client] objects. *)
Context {W C : Type}.

(** The [ollama] package:
    [ollama.Client(host=...)];
    [client.list()], with the value under ['models'] of the answer, if
    any, each model a dictionary;
    [client.generate(model=..., prompt=..., stream=False, options=...)],
    with the answer as a dictionary. *)
Record Backend := {
  new_Client : string → W → outcome C * W;
  client_list : C → W → outcome (option (list (dict string)));
  client_generate : C → string → string → dict string → W
                    → outcome (dict string) * W
}.

Context (backend : Backend).
(** [settings.OLLAMA_MODEL] and [settings.OLLAMA_API_BASE] *)
Context (OLLAMA_MODEL OLLAMA_API_BASE : string).

Record t := {
  model_name : string;
  api_base : string;
  client : option C
}.

(** [_initialize] *)
Definition _initialize (self : t) (w : W) : t * W :=
  match new_Client backend (api_base self) w with
  | (Return c, w') =>
      ({| model_name := model_name self; api_base := api_base self;
          client := Some c |}, w')
  | (Raise _, w') =>
      ({| model_name := model_name self; api_base := api_base self;
          client := None |}, w')
  end.

Definition __init__ (model_name api_base : option string) (w : W) : t * W :=
  _initialize {| model_name := arg_or model_name OLLAMA_MODEL;
                 api_base := arg_or api_base OLLAMA_API_BASE;
                 client := None |} w.

Definition generate (self : t) (prompt : string) (kwargs : Kwargs) (w : W)
    : outcome string * W :=
  match client self with
  | None => (Raise (RuntimeError "Ollama client not available"), w)
  | Some c =>
      let options :=
        [("temperature", kwargs_get "temperature" "0.7" kwargs);
         ("top_p", kwargs_get "top_p" "0.9" kwargs);
         ("max_tokens", kwargs_get "max_tokens" "2048" kwargs)] in
      match client_generate backend c (model_name self) prompt options w with
      | (Return response, w') =>
          match dict_get "response" response with
          | Some text => (Return text, w')
          | None => (Raise (Exception "KeyError" "'response'"), w')
          end
      | (Raise e, w') => (Raise e, w')
      end
  end.

(** [[model['name'] for model in models]]: [None] when an entry has no
    ['name'] ([KeyError]). *)
Fixpoint model_names (models : list (dict string)) : option (list string) :=
  match models with
  | [] => Some []
  | model :: rest =>
      match dict_get "name" model with
      | Some name =>
          match model_names rest with
          | Some names => Some (name :: names)
          | None => None
          end
      | None => None
      end
  end.

Definition is_available (self : t) (w : W) : bool :=
  match client self with
  | None => false
  | Some c =>
      match client_list backend c w with
      | Return models =>
          match model_names (default [] models) with
          | Some names => existsb (contains (model_name self)) names
          | None => false
          end
      | Raise _ => false
      end
  end.

(** The loop of [get_model_info]. *)
Fixpoint find_model (self : t) (models : list (dict string)) : outcome (dict string) :=
  match models with
  | [] => Return [("status", "model_not_found"); ("model", model_name self)]
  | model :: rest =>
      match dict_get "name" model with
      | None => Raise (Exception "KeyError" "'name'")
      | Some name =>
          if contains (model_name self) name then
            Return [("provider", "ollama");
                    ("name", name);
                    ("size", default "unknown" (dict_get "size" model));
                    ("modified", default "unknown" (dict_get "modified_at" model));
                    ("status", "available")]
          else find_model self rest
      end
  end.

Definition get_model_info (self : t) (w : W) : dict string :=
  match client self with
  | None => [("status", "unavailable"); ("error", "Client not initialized")]
  | Some c =>
      match client_list backend c w with
      | Return models =>
          match find_model self (default [] models) with
          | Return info => info
          | Raise e => [("status", "error"); ("error", exn_msg e)]
          end
      | Raise e => [("status", "error"); ("error", exn_msg e)]
      end
  end.

End Ollama.
End OllamaProvider.

Module HuggingFaceProvider.
Section HuggingFace.
(** [Q], [Mo] and [Pi] are the types of quantization configurations, of
    loaded models and of pipelines. *)
Context {W Q Mo Pi : Type}.

(** What the code reads and writes of a tokenizer. *)
Record Tokenizer := {
  pad_token : option string;
  eos_token : option string;
  eos_token_id : option nat
}.

(** The [torch] and [transformers] packages:
    [torch.cuda.is_available()]; [BitsAndBytesConfig(...)];
    [AutoTokenizer.from_pretrained(model_name, ...)];
    [AutoModelForCausalLM.from_pretrained(model_name, quantization_config,
    device_map, torch_dtype, ...)]; [pipeline("text-generation", model,
    tokenizer, device_map)]; a call of the pipeline, answering a list of
    dictionaries; [str(model.device)] and [str(model.dtype)], [None] where
    [hasattr] finds no such attribute, an exception where reading the
    attribute or printing it raises one; and [str.strip]. *)
Record Backend := {
  cuda_is_available : W → bool;
  new_BitsAndBytesConfig : W → outcome Q * W;
  tokenizer_from_pretrained : string → W → outcome Tokenizer * W;
  model_from_pretrained : string → option Q → string → string → W
                          → outcome Mo * W;
  new_pipeline : Mo → Tokenizer → string → W → outcome Pi * W;
  run_pipeline : Pi → string → dict string → option nat → W
                 → outcome (list (dict string)) * W;
  model_device : Mo → outcome (option string);
  model_dtype : Mo → outcome (option string);
  strip : string → string
}.

Context (backend : Backend).
(** [settings.HF_MODEL_NAME], [settings.HF_DEVICE] and
    [settings.USE_QUANTIZATION] *)
Context (HF_MODEL_NAME HF_DEVICE : string) (USE_QUANTIZATION : bool).

Record t := {
  model_name : string;
  device : string;
  tokenizer : option Tokenizer;
  model : option Mo;
  pipeline : option Pi
}.

(** The [except] branch of [_initialize]. *)
Definition unloaded (self : t) : t :=
  {| model_name := model_name self; device := device self;
     tokenizer := None; model := None; pipeline := None |}.

(** [if self.tokenizer.pad_token is None:
       self.tokenizer.pad_token = self.tokenizer.eos_token] *)
Definition with_pad_token (tok : Tokenizer) : Tokenizer :=
  match pad_token tok with
  | Some _ => tok
  | None => {| pad_token := eos_token tok; eos_token := eos_token tok;
               eos_token_id := eos_token_id tok |}
  end.

Definition _initialize (self : t) (w : W) : t * W :=
  let quantized :=
    if USE_QUANTIZATION && cuda_is_available backend w
    then match new_BitsAndBytesConfig backend w with
         | (Return q, w') => (Return (Some q), w')
         | (Raise e, w') => (Raise e, w')
         end
    else (Return None, w) in
  match quantized with
  | (Raise _, w1) => (unloaded self, w1)
  | (Return quantization_config, w1) =>
      match tokenizer_from_pretrained backend (model_name self) w1 with
      | (Raise _, w2) => (unloaded self, w2)
      | (Return tok, w2) =>
          let tok := with_pad_token tok in
          let device_map :=
            if decide (device self ≠ "auto") then device self else "auto" in
          let torch_dtype :=
            if cuda_is_available backend w2 then "float16" else "float32" in
          match model_from_pretrained backend (model_name self)
                  quantization_config device_map torch_dtype w2 with
          | (Raise _, w3) => (unloaded self, w3)
          | (Return mo, w3) =>
              match new_pipeline backend mo tok device_map w3 with
              | (Raise _, w4) => (unloaded self, w4)
              | (Return pi, w4) =>
                  ({| model_name := model_name self; device := device self;
                      tokenizer := Some tok; model := Some mo;
                      pipeline := Some pi |}, w4)
              end
          end
      end
  end.

Definition __init__ (model_name device : option string) (w : W) : t * W :=
  _initialize {| model_name := arg_or model_name HF_MODEL_NAME;
                 device := arg_or device HF_DEVICE;
                 tokenizer := None; model := None; pipeline := None |} w.

Definition generate (self : t) (prompt : string) (kwargs : Kwargs) (w : W)
    : outcome string * W :=
  match pipeline self with
  | None => (Raise (RuntimeError "Hugging Face model not available"), w)
  | Some pi =>
      match tokenizer self with
      | None =>
          (Raise (Exception "AttributeError"
                    "'NoneType' object has no attribute 'eos_token_id'"), w)
      | Some tok =>
          let options :=
            [("max_new_tokens", kwargs_get "max_tokens" "2048" kwargs);
             ("temperature", kwargs_get "temperature" "0.7" kwargs);
             ("top_p", kwargs_get "top_p" "0.9" kwargs);
             ("do_sample", "True");
             ("return_full_text", "False")] in
          match run_pipeline backend pi prompt options (eos_token_id tok) w with
          | (Return outputs, w') =>
              match outputs with
              | [] => (Raise (Exception "IndexError" "list index out of range"), w')
              | output :: _ =>
                  match dict_get "generated_text" output with
                  | Some text => (Return (strip backend text), w')
                  | None => (Raise (Exception "KeyError" "'generated_text'"), w')
                  end
              end
          | (Raise e, w') => (Raise e, w')
          end
      end
  end.

Definition is_available (self : t) : bool :=
  bool_decide (is_Some (model self)) && bool_decide (is_Some (tokenizer self)).

Definition get_model_info (self : t) : dict string :=
  match model self with
  | None => [("status", "unavailable"); ("error", "Model not loaded")]
  | Some mo =>
      match model_device backend mo with
      | Return model_device =>
          match model_dtype backend mo with
          | Return model_dtype =>
              [("provider", "huggingface");
               ("name", model_name self);
               ("device", default (device self) model_device);
               ("dtype", default "unknown" model_dtype);
               ("quantized", if USE_QUANTIZATION then "True" else "False");
               ("status", "available")]
          | Raise e => [("status", "error"); ("error", exn_msg e)]
          end
      | Raise e => [("status", "error"); ("error", exn_msg e)]
      end
  end.

End HuggingFace.
End HuggingFaceProvider.

(** ** More of the concrete world *)

Module ConcreteMore.
Import Concrete.

Definition get_model_info (p : nat) (w : backends) : dict string :=
  if up p w then [("provider", backend_name p); ("status", "available")]
  else [("status", "unavailable")].

(** A clock that stands still. *)
Definition time_time (w : backends) : outcome nat * backends := (Return 0, w).
Definition time_sub (end_time start_time : nat) : nat := end_time - start_time.

(** An Ollama server whose world is the list of models it serves. *)
Definition ollama_backend : @OllamaProvider.Backend (list (dict string)) unit := {|
  OllamaProvider.new_Client host w := (Return (), w);
  OllamaProvider.client_list c w := Return (Some w);
  OllamaProvider.client_generate c model prompt options w :=
    (Return [("response", model +:+ ": " +:+ prompt)], w)
|}.

Definition served : list (dict string) :=
  [[("name", "llama3:8b"); ("size", "4661224676")];
   [("name", "phi4:latest"); ("size", "9053116391");
    ("modified_at", "2025-01-08")]].

Definition phi4 : @OllamaProvider.t unit :=
  {| OllamaProvider.model_name := "phi4";
     OllamaProvider.api_base := "http://localhost:11434";
     OllamaProvider.client := Some () |}.

(** A machine without a GPU on which every load succeeds, or on which the
    pipeline cannot be built, according to the world. *)
Definition hf_backend : @HuggingFaceProvider.Backend bool unit unit unit := {|
  HuggingFaceProvider.cuda_is_available w := false;
  HuggingFaceProvider.new_BitsAndBytesConfig w := (Return (), w);
  HuggingFaceProvider.tokenizer_from_pretrained name w :=
    (Return {| HuggingFaceProvider.pad_token := None;
               HuggingFaceProvider.eos_token := Some "<|endoftext|>";
               HuggingFaceProvider.eos_token_id := Some 2 |}, w);
  HuggingFaceProvider.model_from_pretrained name q device_map dtype w :=
    (Return (), w);
  HuggingFaceProvider.new_pipeline mo tok device_map (w : bool) :=
    if w then (Return (), w)
    else (Raise (Exception "OSError" "out of memory"), w);
  HuggingFaceProvider.run_pipeline pi prompt options pad w :=
    (Return [[("generated_text", " " +:+ prompt)]], w);
  HuggingFaceProvider.model_device mo := Return (Some "cpu");
  HuggingFaceProvider.model_dtype mo := Return (Some "torch.float32");
  HuggingFaceProvider.strip text :=
    match text with
    | String " " rest => rest
    | _ => text
    end
|}.

(** The same machine with a model whose [dtype] cannot be read. *)
Definition hf_backend_no_dtype : @HuggingFaceProvider.Backend bool unit unit unit := {|
  HuggingFaceProvider.cuda_is_available :=
    HuggingFaceProvider.cuda_is_available hf_backend;
  HuggingFaceProvider.new_BitsAndBytesConfig :=
    HuggingFaceProvider.new_BitsAndBytesConfig hf_backend;
  HuggingFaceProvider.tokenizer_from_pretrained :=
    HuggingFaceProvider.tokenizer_from_pretrained hf_backend;
  HuggingFaceProvider.model_from_pretrained :=
    HuggingFaceProvider.model_from_pretrained hf_backend;
  HuggingFaceProvider.new_pipeline := HuggingFaceProvider.new_pipeline hf_backend;
  HuggingFaceProvider.run_pipeline := HuggingFaceProvider.run_pipeline hf_backend;
  HuggingFaceProvider.model_device := HuggingFaceProvider.model_device hf_backend;
  HuggingFaceProvider.model_dtype mo :=
    Raise (RuntimeError "parameters are on the meta device");
  HuggingFaceProvider.strip := HuggingFaceProvider.strip hf_backend
|}.


End ConcreteMore.

(** ** [switch_provider], statement by statement

    [switch_provider] above gives the state a call ends in.  What it does
    on the way is seen here: a configuration is a program point of the
    method together with the registry as any reader of [model_manager]
    finds it at that point.  The lookup [self.providers[provider_name]]
    and the store into [self.active_provider] are separate points, as they
    are separate steps of the interpreter; the two log calls do not touch
    the registry. *)

Inductive switch_point (P : Type) :=
| AtTest                  (* [if provider_name in self.providers:] *)
| AtLookup                (* [self.providers[provider_name]] *)
| AtStore (provider : P)  (* [self.active_provider = ...] *)
| AtLogSwitched           (* [logger.info(...)] *)
| AtLogNotAvailable       (* [logger.error(...)] *)
| AtReturn (result : bool)
| AtRaise (e : exn).
Arguments AtTest {P}.
Arguments AtLookup {P}.
Arguments AtStore {P} provider.
Arguments AtLogSwitched {P}.
Arguments AtLogNotAvailable {P}.
Arguments AtReturn {P} result.
Arguments AtRaise {P} e.

Definition switch_config (P : Type) : Type :=
  switch_point P * UnifiedModelManager P.

(** One step; [None] once the method has returned or raised. *)
Definition switch_provider_step {P} (provider_name : string)
    (c : switch_config P) : option (switch_config P) :=
  let self := c.2 in
  match c.1 with
  | AtTest =>
      match dict_get provider_name (providers self) with
      | Some _ => Some (AtLookup, self)
      | None => Some (AtLogNotAvailable, self)
      end
  | AtLookup =>
      match dict_get provider_name (providers self) with
      | Some p => Some (AtStore p, self)
      | None => Some (AtRaise (Exception "KeyError" ("'" +:+ provider_name +:+ "'")),
                      self)
      end
  | AtStore p => Some (AtLogSwitched, set_active p self)
  | AtLogSwitched => Some (AtReturn true, self)
  | AtLogNotAvailable => Some (AtReturn false, self)
  | AtReturn _ => None
  | AtRaise _ => None
  end.

(** The configurations of a run of at most [fuel] steps, the first one
    included. *)
Fixpoint switch_provider_run {P} (fuel : nat) (provider_name : string)
    (c : switch_config P) : list (switch_config P) :=
  c :: match fuel with
       | 0 => []
       | S fuel' =>
           match switch_provider_step provider_name c with
           | Some c' => switch_provider_run fuel' provider_name c'
           | None => []
           end
       end.

(** A call of [switch_provider] on registry [self]; no path through the
    method has more than four steps. *)
Definition switch_provider_trace {P} (provider_name : string)
    (self : UnifiedModelManager P) : list (switch_config P) :=
  switch_provider_run 4 provider_name (AtTest, self).

(** ** ASCII lower case, letter by letter

    A table to compare [lower] with: it follows the alphabet, not the
    arithmetic of [lower_char]. *)

Fixpoint spec_lower_in (capitals smalls : string) (c : ascii) : ascii :=
  match capitals, smalls with
  | String capital capitals', String small smalls' =>
      if decide (c = capital) then small else spec_lower_in capitals' smalls' c
  | _, _ => c
  end.

Definition spec_lower_char (c : ascii) : ascii :=
  spec_lower_in "ABCDEFGHIJKLMNOPQRSTUVWXYZ" "abcdefghijklmnopqrstuvwxyz" c.

Fixpoint spec_lower (s : string) : string :=
  match s with
  | EmptyString => EmptyString
  | String c s' => String (spec_lower_char c) (spec_lower s')
  end.
(** * Properties *)

(** Unfold the monad and the state accessors. *)
Ltac unfold_monad :=
  unfold bind, ret, raise, try_except, try_finally, get_mm, put_mm,
    get_agent, put_agent, log, call, observe in *.

(** ** Dictionaries *)

Lemma dict_get_elem_of {V} (k : string) (v : V) (d : dict V) :
  dict_get k d = Some v → (k, v) ∈ d.
Proof.
  induction d as [|[k' v'] d IH]; simpl; [done|].
  case_decide; intros Hget.
  - simplify_eq. left.
  - right. auto.
Qed.

Lemma dict_get_key {V} (k : string) (v : V) (d : dict V) :
  dict_get k d = Some v → k ∈ dict_keys d.
Proof.
  intros Hget. apply dict_get_elem_of in Hget.
  unfold dict_keys. apply list_elem_of_fmap. by exists (k, v).
Qed.

(** In a dictionary, the name found for the active provider leads back
    to it. *)
Lemma dict_get_name_of `{EqDecision P} (d : dict P) (a : P) (name : string) :
  NoDup (dict_keys d) →
  name_of d (Some a) = Some name → dict_get name d = Some a.
Proof.
  unfold dict_keys.
  induction d as [|[k v] d IH]; simpl; [done|].
  rewrite NoDup_cons. intros [Hk Hd].
  destruct (decide (Some v = Some a)) as [Heq|Hne]; intros Hn.
  - simplify_eq. by rewrite decide_True.
  - specialize (IH Hd Hn). case_decide; [|done].
    subst k. destruct Hk. by eapply dict_get_key.
Qed.

Lemma name_of_elem_of `{EqDecision P} (d : dict P) (a : P) (name : string) :
  (name, a) ∈ d → is_Some (name_of d (Some a)).
Proof.
  induction d as [|[k v] d IH]; simpl.
  - intros Hin. by apply elem_of_nil in Hin.
  - rewrite elem_of_cons. intros [Heq|Hin].
    + simplify_eq. by rewrite decide_True.
    + case_decide; [done | auto].
Qed.

Lemma name_of_key `{EqDecision P} (d : dict P) (a : option P) (name : string) :
  name_of d a = Some name → name ∈ dict_keys d.
Proof.
  unfold dict_keys. induction d as [|[k v] d IH]; simpl; [done|].
  case_decide; intros Hn.
  - simplify_eq. left.
  - right. auto.
Qed.

(** ** The registry *)

Section RegistryProperties.
Context {W P : Type} `{EqDecision P}.
Context (env : Env W P) (settings : Settings).

Local Abbreviation Sys := (Sys W P).

(** *** Construction *)

Lemma register_provider_spec (name : string) (new : W → outcome P * W) (s : Sys) :
  register_provider env name new s =
  (Return (),
   {| world := (discovered env name new (world s)).2;
      model_manager :=
        match (discovered env name new (world s)).1 with
        | (_, p) :: _ => set_provider name p (model_manager s)
        | [] => model_manager s
        end;
      agent := agent s;
      calls := calls s |}).
Proof.
  unfold register_provider, discovered. unfold_monad. destruct s as [w m a c]; simpl.
  destruct (new w) as [[p|e] w']; simpl; [|done].
  destruct (is_available env p w'); simpl; done.
Qed.

(** What the constructor leaves behind: the providers found available,
    Ollama before Hugging Face, and the three choices of
    [_set_active_provider] made on them. *)
Lemma init_spec (s : Sys) :
  let ollama := discovered env "ollama" (new_OllamaProvider env) (world s) in
  let hf := discovered env "huggingface" (new_HuggingFaceProvider env) ollama.2 in
  UnifiedModelManager__init__ env settings s =
  (Return (),
   {| world := hf.2;
      model_manager :=
        choose_any
          (choose_fallback (MODEL_PROVIDER settings) (FALLBACK_PROVIDER settings)
             (choose_primary (MODEL_PROVIDER settings)
                {| providers := ollama.1 ++ hf.1; active_provider := None;
                   fallback_provider := None |}));
      agent := agent s;
      calls := calls s |}).
Proof.
  unfold UnifiedModelManager__init__, _initialize_providers, _set_active_provider.
  destruct s as [w m a c]. unfold bind, put_mm, get_mm. simpl.
  rewrite register_provider_spec. simpl.
  rewrite register_provider_spec. simpl.
  unfold discovered.
  destruct (new_OllamaProvider env w) as [[p|e] w1]; simpl.
  - destruct (is_available env p w1); simpl;
      destruct (new_HuggingFaceProvider env w1) as [[q|e] w2]; simpl; try done;
      destruct (is_available env q w2); simpl; done.
  - destruct (new_HuggingFaceProvider env w1) as [[q|e'] w2]; simpl; try done;
      destruct (is_available env q w2); simpl; done.
Qed.

Lemma choices_keep_providers (primary fallback : string) (m : UnifiedModelManager P) :
  providers (choose_any (choose_fallback primary fallback (choose_primary primary m)))
  = providers m.
Proof.
  unfold choose_any, choose_fallback, choose_primary.
  repeat (case_match; simpl; try done).
Qed.

Lemma choices_active (primary fallback : string) (m : UnifiedModelManager P) :
  active_provider m = None →
  active_provider (choose_any (choose_fallback primary fallback (choose_primary primary m)))
  = match dict_get primary (providers m) with
    | Some p => Some p
    | None => match providers m with
              | (_, p) :: _ => Some p
              | [] => None
              end
    end.
Proof.
  intros Hnone.
  unfold choose_any, choose_fallback, choose_primary.
  destruct m as [d act fb]; simpl in *; subst act.
  repeat (case_match; simpl in *; simplify_eq; try done).
Qed.

(** C3 (amended).  Constructing the registry never raises.  Afterwards the
    registry holds the providers found available, in discovery order, and
    the active provider is the configured primary if it is among them, else
    the first of them, else unset.  With the active provider unset,
    [generate] raises [RuntimeError] and changes nothing. *)
Theorem init_active_policy (s : Sys) :
  let ollama := discovered env "ollama" (new_OllamaProvider env) (world s) in
  let hf := discovered env "huggingface" (new_HuggingFaceProvider env) ollama.2 in
  let available := ollama.1 ++ hf.1 in
  let s' := (UnifiedModelManager__init__ env settings s).2 in
  (UnifiedModelManager__init__ env settings s).1 = Return () ∧
  providers (model_manager s') = available ∧
  active_provider (model_manager s') =
    match dict_get (MODEL_PROVIDER settings) available with
    | Some p => Some p
    | None => head (available.*2)
    end ∧
  (active_provider (model_manager s') = None →
   ∀ prompt kwargs,
     generate env prompt kwargs s' =
     (Raise (RuntimeError "No model providers available"), s')).
Proof.
  intros ollama hf available s'. subst s'.
  rewrite init_spec. fold ollama hf available. simpl.
  rewrite choices_keep_providers, choices_active by done. simpl.
  split_and!; try done.
  - destruct (dict_get _ available); [done|]. by destruct available as [|[??]?].
  - intros Hnone prompt kwargs. unfold generate. unfold_monad. simpl.
    rewrite choices_active by done. simpl. by rewrite Hnone.
Qed.

(** *** Generation with failover *)

(** C1.  With an active provider set, [generate] first calls the active
    provider's [generate].  If that returns, its text is the result.  If it
    raises and a fallback is set, the fallback is called once, with the
    same prompt, and its outcome (text or exception) is the result.  If it
    raises and no fallback is set, the exception of the active provider is
    raised again.  At most two provider calls are made, and the registry
    is left as it was. *)
Theorem generate_failover (s : Sys) (prompt : string) (kwargs : Kwargs) (active : P) :
  active_provider (model_manager s) = Some active →
  let first := provider_generate env active prompt kwargs (world s) in
  let out := (generate env prompt kwargs s).1 in
  let s' := (generate env prompt kwargs s).2 in
  model_manager s' = model_manager s ∧
  length (calls s') ≤ length (calls s) + 2 ∧
  match first.1, fallback_provider (model_manager s) with
  | Return text, _ =>
      out = Return text ∧ world s' = first.2 ∧
      calls s' = calls s ++ [CallGenerate active prompt kwargs]
  | Raise e, Some fallback =>
      let second := provider_generate env fallback prompt kwargs first.2 in
      out = second.1 ∧ world s' = second.2 ∧
      calls s' = calls s ++ [CallGenerate active prompt kwargs;
                             CallGenerate fallback prompt kwargs]
  | Raise e, None =>
      out = Raise e ∧ world s' = first.2 ∧
      calls s' = calls s ++ [CallGenerate active prompt kwargs]
  end.
Proof.
  intros Hactive. cbv zeta. destruct s as [w m a c]. simpl in *.
  unfold generate, call_generate. unfold_monad. simpl. rewrite Hactive. simpl.
  destruct (provider_generate env active prompt kwargs w) as [[text|e] w1]; simpl.
  - rewrite length_app. simpl. split_and!; try done; lia.
  - destruct (fallback_provider m) as [fallback|]; simpl.
    + destruct (provider_generate env fallback prompt kwargs w1) as [[text|e2] w2];
        simpl; rewrite <- ?(assoc_L (++)), !length_app; simpl;
        split_and!; try done; lia.
    + rewrite length_app. simpl. split_and!; try done; lia.
Qed.

(** *** Switching *)

(** What a call of [switch_provider] leaves behind. *)
Lemma switch_provider_result (s : Sys) (provider_name : string) :
  let out := (switch_provider provider_name s).1 in
  let s' := (switch_provider provider_name s).2 in
  match dict_get provider_name (providers (model_manager s)) with
  | None => out = Return false ∧ s' = s
  | Some p =>
      out = Return true ∧
      active_provider (model_manager s') = Some p ∧
      providers (model_manager s') = providers (model_manager s) ∧
      fallback_provider (model_manager s') = fallback_provider (model_manager s) ∧
      world s' = world s ∧ agent s' = agent s ∧ calls s' = calls s
  end.
Proof.
  unfold switch_provider. unfold_monad. simpl.
  destruct (dict_get provider_name (providers (model_manager s))); simpl; done.
Qed.

(** The configurations of a call, one by one. *)
Lemma switch_provider_trace_cases (provider_name : string) (m : UnifiedModelManager P) :
  switch_provider_trace provider_name m =
  match dict_get provider_name (providers m) with
  | Some p => [(AtTest, m); (AtLookup, m); (AtStore p, m);
               (AtLogSwitched, set_active p m); (AtReturn true, set_active p m)]
  | None => [(AtTest, m); (AtLogNotAvailable, m); (AtReturn false, m)]
  end.
Proof.
  unfold switch_provider_trace.
  cbn [switch_provider_run switch_provider_step fst snd].
  destruct (dict_get provider_name (providers m)) as [p|] eqn:Hget;
    cbn [switch_provider_run switch_provider_step fst snd];
    rewrite ?Hget; reflexivity.
Qed.

(** C4 (amended).  Switching to a name absent from the registry returns
    [False], raises nothing and leaves the whole state, hence the active and
    the fallback reference, as it was.  Switching to a present name returns
    [True] and replaces the active reference by the provider registered
    under the name, atomically: run statement by statement, the method
    ends as the call does, it writes the registry once, and every registry
    a reader can find on the way is the one before the call or the one
    after it; the registered providers and the fallback reference stay as
    they were. *)
Theorem switch_provider_outcome (s : Sys) (provider_name : string) :
  let m := model_manager s in
  let out := (switch_provider provider_name s).1 in
  let s' := (switch_provider provider_name s).2 in
  let trace := switch_provider_trace provider_name m in
  (∃ b, out = Return b ∧
        last trace = Some (AtReturn b, model_manager s') ∧
        switch_provider_step provider_name (AtReturn b, model_manager s') = None) ∧
  (∃ before after,
     trace = before ++ after ∧
     Forall (λ c, c.2 = m) before ∧
     Forall (λ c, c.2 = model_manager s') after) ∧
  Forall (λ c, c.2 = m ∨ c.2 = model_manager s') trace ∧
  match dict_get provider_name (providers m) with
  | None => out = Return false ∧ s' = s
  | Some p =>
      out = Return true ∧
      active_provider (model_manager s') = Some p ∧
      providers (model_manager s') = providers m ∧
      fallback_provider (model_manager s') = fallback_provider m ∧
      world s' = world s ∧ agent s' = agent s ∧ calls s' = calls s
  end.
Proof.
  cbv zeta. pose proof (switch_provider_result s provider_name) as Hres.
  cbv zeta in Hres. rewrite switch_provider_trace_cases.
  destruct (dict_get provider_name (providers (model_manager s))) as [p|] eqn:Hget.
  - destruct Hres
      as (Hout & Hactive & Hproviders & Hfallback & Hworld & Hagent & Hcalls).
    assert (Hm : model_manager (switch_provider provider_name s).2
                 = set_active p (model_manager s)).
    { destruct (model_manager (switch_provider provider_name s).2);
        destruct (model_manager s); unfold set_active; simpl in *; congruence. }
    rewrite Hm. split_and!; try done.
    + by exists true.
    + exists [(AtTest, model_manager s); (AtLookup, model_manager s);
              (AtStore p, model_manager s)],
             [(AtLogSwitched, set_active p (model_manager s));
              (AtReturn true, set_active p (model_manager s))].
      split_and!; [done | by repeat constructor | by repeat constructor].
    + repeat (apply Forall_cons_2; [simpl; auto|]). apply Forall_nil_2.
  - destruct Hres as (Hout & Hs). rewrite Hs. split_and!; try done.
    + by exists false.
    + exists [], [(AtTest, model_manager s); (AtLogNotAvailable, model_manager s);
                  (AtReturn false, model_manager s)].
      split_and!; [done | by repeat constructor | by repeat constructor].
    + repeat (apply Forall_cons_2; [simpl; auto|]). apply Forall_nil_2.
Qed.

(** *** Listing *)

(** C5 (amended).  [get_available_providers] returns the names under which
    providers were registered, in registration order, whatever the world is
    at the time of the call: it does not probe [is_available] again.  For a
    registry just constructed these are the names of the providers that
    reported themselves available during construction. *)
Theorem get_available_providers_registered (s : Sys) :
  get_available_providers s = (Return (dict_keys (providers (model_manager s))), s) ∧
  (∀ w : W,
     (get_available_providers
        {| world := w; model_manager := model_manager s;
           agent := agent s; calls := calls s |}).1
     = (get_available_providers s).1) ∧
  let ollama := discovered env "ollama" (new_OllamaProvider env) (world s) in
  let hf := discovered env "huggingface" (new_HuggingFaceProvider env) ollama.2 in
  (get_available_providers (UnifiedModelManager__init__ env settings s).2).1
  = Return (dict_keys (ollama.1 ++ hf.1)).
Proof.
  unfold get_available_providers. unfold_monad. simpl. split_and!; try done.
  rewrite init_spec. simpl. by rewrite choices_keep_providers.
Qed.

(** *** The registry invariant *)

Lemma discovered_cases (name : string) (new : W → outcome P * W) (w : W) :
  (discovered env name new w).1 = [] ∨
  ∃ p, (discovered env name new w).1 = [(name, p)].
Proof.
  unfold discovered. destruct (new w) as [[p|e] w']; simpl; [|by left].
  destruct (is_available env p w'); [right; by exists p | by left].
Qed.

Lemma init_registry_ok (s : Sys) :
  registry_ok (model_manager (UnifiedModelManager__init__ env settings s).2).
Proof.
  unfold registry_ok. rewrite init_spec. simpl.
  rewrite choices_keep_providers, choices_active by done. simpl.
  set (w1 := (discovered env "ollama" (new_OllamaProvider env) (world s)).2).
  destruct (discovered_cases "ollama" (new_OllamaProvider env) (world s))
    as [->|[p ->]];
  destruct (discovered_cases "huggingface" (new_HuggingFaceProvider env) w1)
    as [->|[q ->]]; simpl;
  (split_and!;
   [ by apply (bool_decide_unpack _)
   | by apply (bool_decide_unpack _)
   | repeat case_decide; simpl; try done;
     eexists; first [left | right; left] ]).
Qed.

Lemma switch_provider_registry_ok (s : Sys) (provider_name : string) :
  registry_ok (model_manager s) →
  registry_ok (model_manager (switch_provider provider_name s).2).
Proof.
  intros (Hnodup & Hne & Hact).
  pose proof (switch_provider_result s provider_name) as Hsw. simpl in Hsw.
  destruct (dict_get provider_name (providers (model_manager s))) as [p|] eqn:Hget.
  - destruct Hsw as (_ & Ha & Hp & _). unfold registry_ok. rewrite Ha, Hp.
    split_and!; try done. exists provider_name. by apply dict_get_elem_of.
  - destruct Hsw as [_ ->]. done.
Qed.

End RegistryProperties.

(** *** The registry on the concrete world *)

(** With Ollama registered as active and down, and Hugging Face as
    fallback and up, [generate] returns the fallback's text. *)
Lemma generate_failover_witness :
  let s := Concrete.world_becomes Concrete.ollama_down
             (Concrete.started default_settings Concrete.all_up) in
  active_provider (model_manager s) = Some 0 ∧
  (generate Concrete.env "hi" [] s).1 = Return "huggingface: hi" ∧
  calls (generate Concrete.env "hi" [] s).2
  = [CallGenerate 0 "hi" []; CallGenerate 1 "hi" []].
Proof.
  intros s. split; [reflexivity|].
  pose proof (generate_failover Concrete.env s "hi" [] 0 eq_refl) as Hgen.
  split; [exact (proj1 (proj2 (proj2 Hgen)))|].
  exact (proj2 (proj2 (proj2 (proj2 Hgen)))).
Defined.

(** With no backend up the registry is constructed with no active
    provider, and only [generate] fails. *)
Lemma init_active_policy_witness :
  let s := Concrete.started default_settings Concrete.all_down in
  active_provider (model_manager s) = None ∧
  generate Concrete.env "hi" [] s
  = (Raise (RuntimeError "No model providers available"), s).
Proof.
  intros s. split; [reflexivity|].
  exact (proj2 (proj2 (proj2
    (init_active_policy Concrete.env default_settings
       (Concrete.boot Concrete.all_down)))) eq_refl "hi" []).
Defined.

(** C3, as stated, fails: with [MODEL_PROVIDER=openai] and
    [FALLBACK_PROVIDER=huggingface], both backends up, the active provider
    is Ollama (the first one discovered), not the configured fallback. *)
Lemma init_active_not_the_fallback :
  let m := model_manager (Concrete.started Concrete.openai_settings Concrete.all_up) in
  providers m = [("ollama", 0); ("huggingface", 1)] ∧
  active_provider m = Some 0 ∧
  spec_initial_active "openai" "huggingface" (providers m) = Some 1 ∧
  active_provider m ≠ spec_initial_active "openai" "huggingface" (providers m).
Proof. vm_compute. split_and!; congruence. Qed.

(** C4, as stated, fails: switching to an unknown name returns [False]
    and raises nothing. *)
Lemma switch_provider_unknown_returns_false :
  let s := Concrete.started default_settings Concrete.all_up in
  dict_get "openai" (providers (model_manager s)) = None ∧
  (switch_provider "openai" s).1 = Return false ∧
  ¬ (∃ e, (switch_provider "openai" s).1 = Raise e).
Proof. vm_compute. split_and!; [done..|]. intros [e He]. discriminate. Qed.

(** C5, as stated, fails: after both backends went down the list still
    names both providers. *)
Lemma get_available_providers_not_reprobed :
  let s1 := Concrete.started default_settings Concrete.all_up in
  let s2 := Concrete.world_becomes Concrete.all_down s1 in
  (get_available_providers s2).1 = Return ["ollama"; "huggingface"] ∧
  dict_get "ollama" (providers (model_manager s2)) = Some 0 ∧
  is_available Concrete.env 0 (world s2) = false ∧
  dict_get "huggingface" (providers (model_manager s2)) = Some 1 ∧
  is_available Concrete.env 1 (world s2) = false ∧
  (get_available_providers s1).1 = (get_available_providers s2).1.
Proof. vm_compute. split_and!; reflexivity. Qed.

(** ** Paths *)

(** The characters of a string. *)
Local Abbreviation chars := String.list_ascii_of_string.

Lemma lower_app (a b : string) : lower (a +:+ b) = lower a +:+ lower b.
Proof. induction a as [|c a IH]; simpl; [done | by rewrite IH]. Qed.

Lemma string_length_app (a b : string) :
  String.length (a +:+ b) = String.length a + String.length b.
Proof. induction a as [|c a IH]; simpl; [done | by rewrite IH]. Qed.

Lemma string_drop_app (a b : string) : string_drop (String.length a) (a +:+ b) = b.
Proof. induction a as [|c a IH]; simpl; [by destruct b | done]. Qed.

Lemma split_on_absent (sep : ascii) (s : string) :
  rfind sep s = None → split_on sep s = [s].
Proof.
  induction s as [|c s IH]; simpl; [done|].
  destruct (rfind sep s); [done|]. case_decide; [done|]. intros _.
  by rewrite IH.
Qed.

Lemma rfind_app_absent (c : ascii) (a b : string) :
  rfind c b = None → rfind c (a +:+ String c b) = Some (String.length a).
Proof.
  intros Hb. induction a as [|x a IH]; simpl.
  - rewrite Hb. by rewrite decide_True.
  - by rewrite IH.
Qed.

(** The suffix of a plain file name [stem.ext]. *)
Lemma path_suffix_plain (stem ext : string) :
  stem ≠ "" → ext ≠ "" →
  rfind "/" (stem +:+ "." +:+ ext) = None → rfind "." ext = None →
  path_suffix (stem +:+ "." +:+ ext) = "." +:+ ext.
Proof.
  intros Hstem Hext Hslash Hdot.
  assert (Hlen : String.length (stem +:+ "." +:+ ext)
                 = String.length stem + S (String.length ext)).
  { by rewrite string_length_app. }
  assert (0 < String.length stem) by (destruct stem; [done | simpl; lia]).
  assert (0 < String.length ext) by (destruct ext; [done | simpl; lia]).
  assert (Hname : path_name (stem +:+ "." +:+ ext) = stem +:+ "." +:+ ext).
  { unfold path_name, path_parts. rewrite split_on_absent by done.
    rewrite filter_cons_True; [done|].
    split; intros Heq; apply (f_equal String.length) in Heq;
      rewrite Hlen in Heq; simpl in Heq; lia. }
  unfold path_suffix. rewrite Hname.
  change (stem +:+ "." +:+ ext) with (stem +:+ String "." ext).
  rewrite rfind_app_absent by done.
  change (stem +:+ String "." ext) with (stem +:+ "." +:+ ext). rewrite Hlen.
  replace (Nat.ltb 0 (String.length stem)) with true
    by (symmetry; apply Nat.ltb_lt; lia).
  replace (Nat.ltb (String.length stem)
             (String.length stem + S (String.length ext) - 1)) with true
    by (symmetry; apply Nat.ltb_lt; lia).
  simpl. apply string_drop_app.
Qed.

(** [c] occurs in [s]. *)
Lemma rfind_None (c : ascii) (s : string) :
  rfind c s = None ↔ c ∉ chars s.
Proof.
  induction s as [|a s IH]; simpl.
  - split; [intros _; apply not_elem_of_nil | done].
  - rewrite not_elem_of_cons, <- IH.
    destruct (rfind c s); [naive_solver|].
    case_decide; naive_solver.
Qed.

Lemma chars_app (a b : string) :
  chars (a +:+ b) = chars a ++ chars b.
Proof. induction a as [|c a IH]; simpl; [done | by rewrite IH]. Qed.

Lemma split_on_nonempty (sep : ascii) (s : string) : split_on sep s ≠ [].
Proof.
  induction s as [|c s IH]; simpl; [done|].
  case_decide; [done|]. by destruct (split_on sep s).
Qed.

Lemma split_on_app (sep : ascii) (a b : string) :
  split_on sep (a +:+ String sep b) = split_on sep a ++ split_on sep b.
Proof.
  induction a as [|c a IH]; simpl.
  - by rewrite decide_True.
  - case_decide; [by rewrite IH|]. rewrite IH.
    pose proof (split_on_nonempty sep a). by destruct (split_on sep a).
Qed.

(** A path without a slash is its own name, [.] apart. *)
Lemma path_parts_name (name : string) :
  ("/"%char ∉ chars name) →
  path_parts name = if decide (name = "" ∨ name = ".") then [] else [name].
Proof.
  intros Hslash. apply rfind_None in Hslash.
  unfold path_parts. rewrite split_on_absent by done.
  case_decide as Hname.
  - rewrite filter_cons_False; [done|]. naive_solver.
  - rewrite filter_cons_True; [done|]. naive_solver.
Qed.

Lemma path_name_name (name : string) :
  ("/"%char ∉ chars name) →
  path_name name = if decide (name = ".") then "" else name.
Proof.
  intros Hslash. unfold path_name. rewrite path_parts_name by done.
  repeat case_decide; naive_solver.
Qed.

(** The last component of a path is its name. *)
Lemma path_name_dir (dir name : string) :
  name ≠ "" → name ≠ "." → ("/"%char ∉ chars name) →
  path_name (dir +:+ "/" +:+ name) = name.
Proof.
  intros Hne Hdot Hslash. unfold path_name, path_parts.
  change (dir +:+ "/" +:+ name) with (dir +:+ String "/" name).
  rewrite split_on_app, filter_app.
  fold (path_parts name). rewrite path_parts_name by done.
  rewrite decide_False by naive_solver. apply last_last.
Qed.

(** A trailing slash and a trailing [/.] are dropped. *)
Lemma path_name_trailing (file_path : string) :
  path_name (file_path +:+ "/") = path_name file_path ∧
  path_name (file_path +:+ "/.") = path_name file_path.
Proof.
  unfold path_name, path_parts.
  change (file_path +:+ "/") with (file_path +:+ String "/" "").
  change (file_path +:+ "/.") with (file_path +:+ String "/" ".").
  rewrite !split_on_app, !filter_app. simpl.
  rewrite !filter_cons_False, !filter_nil, !app_nil_r by naive_solver. done.
Qed.

Lemma rfind_first (c : ascii) (s : string) :
  rfind c s = None → rfind c (String c s) = Some 0.
Proof. intros Hs. simpl. rewrite Hs. by rewrite decide_True. Qed.

Lemma rfind_last (c : ascii) (s : string) :
  rfind c (s +:+ String c "") = Some (String.length s).
Proof. by apply rfind_app_absent. Qed.

(** [lower_char] against the alphabet. *)
Lemma lower_char_table (c : ascii) : lower_char c = spec_lower_char c.
Proof. destruct c as [[] [] [] [] [] [] [] []]; vm_compute; reflexivity. Qed.

Lemma lower_table (s : string) : lower s = spec_lower s.
Proof.
  induction s as [|c s IH]; simpl; [done|]. by rewrite lower_char_table, IH.
Qed.

(** ** The agent *)

Section AgentProperties.
Context {W P : Type} `{EqDecision P}.
Context (env : Env W P) (settings : Settings).

Import DocumentIntelligenceAgent.

Local Abbreviation Sys := (Sys W P).
Local Abbreviation M := (M W P).

(** *** Supported formats *)

(** C10.  [validate_document] accepts a path exactly when its suffix, in
    lower case, is one of the nine supported extensions.  Lower case is
    that of the alphabet: each of the 26 capitals is replaced by its small
    letter and nothing else is changed.  The suffix is that of the last
    component of the path, whatever the directories before it and with a
    trailing slash or [/.] dropped: a name [stem.ext] is judged by [ext]
    in lower case, whatever its case in the path; a name without a dot, a
    name whose only dot comes first, and a name that ends in a dot have no
    suffix and are rejected. *)
Theorem validate_document_lowercased_suffix :
  (∀ file_path,
     validate_document file_path = true ↔
     lower (path_suffix file_path) ∈
       [".pdf"; ".png"; ".jpg"; ".jpeg"; ".tiff"; ".bmp"; ".docx"; ".doc"; ".txt"]) ∧
  (∀ text, lower text = spec_lower text) ∧
  (∀ dir name,
     name ≠ "" → name ≠ "." → ("/"%char ∉ chars name) →
     validate_document (dir +:+ "/" +:+ name) = validate_document name) ∧
  (∀ file_path,
     validate_document (file_path +:+ "/") = validate_document file_path ∧
     validate_document (file_path +:+ "/.") = validate_document file_path) ∧
  (∀ stem ext,
     stem ≠ "" → ext ≠ "" →
     ("/"%char ∉ chars stem) →
     ("/"%char ∉ chars ext) →
     ("."%char ∉ chars ext) →
     validate_document (stem +:+ "." +:+ ext) =
     bool_decide (spec_lower ext ∈
       ["pdf"; "png"; "jpg"; "jpeg"; "tiff"; "bmp"; "docx"; "doc"; "txt"])) ∧
  (∀ name,
     ("/"%char ∉ chars name) →
     ("."%char ∉ chars name) →
     validate_document name = false ∧
     validate_document ("." +:+ name) = false) ∧
  (∀ name,
     ("/"%char ∉ chars name) →
     validate_document (name +:+ ".") = false).
Proof.
  unfold validate_document, get_supported_formats. split_and!.
  - intros file_path. by rewrite bool_decide_eq_true.
  - apply lower_table.
  - intros dir name Hne Hdot Hslash. unfold path_suffix.
    rewrite path_name_dir by done. rewrite path_name_name by done.
    by rewrite decide_False.
  - intros file_path. unfold path_suffix.
    by rewrite !(proj1 (path_name_trailing file_path)),
               !(proj2 (path_name_trailing file_path)).
  - intros stem ext Hstem Hext Hslash1 Hslash2 Hdot.
    rewrite path_suffix_plain; [|done|done| |by apply rfind_None].
    + rewrite lower_app. change (lower ".") with ".". rewrite lower_table.
      generalize (spec_lower ext). intros small.
      change [".pdf"; ".png"; ".jpg"; ".jpeg"; ".tiff"; ".bmp"; ".docx"; ".doc"; ".txt"]
        with (String "." <$>
                ["pdf"; "png"; "jpg"; "jpeg"; "tiff"; "bmp"; "docx"; "doc"; "txt"]).
      change ("." +:+ small) with (String "." small).
      assert (Inj (=) (=) (String ".")) by (intros ?? [= ->]; done).
      apply bool_decide_ext, list_elem_of_fmap_inj; done.
    + apply rfind_None. rewrite !chars_app, !not_elem_of_app.
      split_and!; [done| |done]. apply (bool_decide_unpack _). reflexivity.
  - intros name Hslash Hdot. split.
    + unfold path_suffix. rewrite path_name_name by done.
      case_decide; [done|]. by rewrite (proj2 (rfind_None _ _) Hdot).
    + assert (Hslash' : "/"%char ∉ chars ("." +:+ name)).
      { simpl. rewrite not_elem_of_cons. split; [done | exact Hslash]. }
      unfold path_suffix. rewrite path_name_name by done.
      case_decide; [done|].
      change ("." +:+ name) with (String "." name).
      by rewrite rfind_first by (by apply rfind_None).
  - intros name Hslash.
    assert (Hslash' : "/"%char ∉ chars (name +:+ ".")).
    { rewrite chars_app, not_elem_of_app. split; [done|].
      apply (bool_decide_unpack _). reflexivity. }
    unfold path_suffix. rewrite path_name_name by done.
    case_decide; [done|].
    change (name +:+ ".") with (name +:+ String "." "").
    rewrite rfind_last, string_length_app. simpl.
    replace (String.length name + 1 - 1) with (String.length name) by lia.
    by rewrite Nat.ltb_irrefl, andb_false_r.
Qed.

(** *** Computations that keep the registry *)

Lemma keeps_ret {A} (a : A) : keeps_registry (ret a : M A).
Proof. done. Qed.

Lemma keeps_raise {A} (e : exn) : keeps_registry (raise e : M A).
Proof. done. Qed.

Lemma keeps_bind {A B} (c : M A) (k : A → M B) :
  keeps_registry c → (∀ a, keeps_registry (k a)) → keeps_registry (bind c k).
Proof.
  intros Hc Hk s. unfold bind. specialize (Hc s).
  destruct (c s) as [[a|e] s1]; simpl in *; [|done].
  by rewrite Hk.
Qed.

Lemma keeps_try_except {A} (body : M A) (handler : exn → M A) :
  keeps_registry body → (∀ e, keeps_registry (handler e)) →
  keeps_registry (try_except body handler).
Proof.
  intros Hc Hk s. unfold try_except. specialize (Hc s).
  destruct (body s) as [[a|e] s1]; simpl in *; [done|].
  by rewrite Hk.
Qed.

Lemma keeps_call {A} (f : W → outcome A * W) : keeps_registry (call f : M A).
Proof. intros s. unfold call. by destruct (f (world s)). Qed.

Lemma keeps_observe {A} (f : W → A) : keeps_registry (observe f : M A).
Proof. done. Qed.

Lemma keeps_log (ev : event P) : keeps_registry (log ev : M unit).
Proof. done. Qed.

Lemma keeps_get_agent : keeps_registry (get_agent : M Agent).
Proof. done. Qed.

Lemma keeps_put_agent (a : Agent) : keeps_registry (put_agent a : M unit).
Proof. done. Qed.

Lemma keeps_get_mm : keeps_registry (get_mm : M (UnifiedModelManager P)).
Proof. done. Qed.

Create HintDb keeps discriminated.
#[local] Hint Resolve keeps_ret keeps_raise keeps_call keeps_observe keeps_log
  keeps_get_agent keeps_put_agent keeps_get_mm : keeps.

(** Decompose a computation along [bind], [try_except] and its branches. *)
Ltac keeps :=
  repeat first
    [ progress intros
    | apply keeps_bind
    | apply keeps_try_except
    | solve [auto with keeps]
    | match goal with
      | |- keeps_registry (if ?b then _ else _) => destruct b
      | |- keeps_registry (match ?x with _ => _ end) => destruct x
      end ].

Lemma keeps_get_available_providers :
  keeps_registry (get_available_providers : M (list string)).
Proof. unfold get_available_providers. keeps. Qed.

Lemma keeps_get_active_provider_name :
  keeps_registry (get_active_provider_name : M (option string)).
Proof. unfold get_active_provider_name. keeps. Qed.

#[local] Hint Resolve keeps_get_available_providers
  keeps_get_active_provider_name : keeps.

Lemma keeps_load_ollama_llm : keeps_registry (load_ollama_llm env settings).
Proof. unfold load_ollama_llm. keeps. Qed.

#[local] Hint Resolve keeps_load_ollama_llm : keeps.

Lemma keeps_configure_model_provider :
  keeps_registry (_configure_model_provider env settings).
Proof. unfold _configure_model_provider, _setup_huggingface_extractor. keeps. Qed.

Lemma keeps_load_process_splitter (splitter : Splitter) :
  keeps_registry (load_process_splitter env splitter).
Proof. unfold load_process_splitter. keeps. Qed.

#[local] Hint Resolve keeps_load_process_splitter : keeps.

Lemma keeps_configure_splitter : keeps_registry (_configure_splitter env settings).
Proof. unfold _configure_splitter. keeps. Qed.

Lemma keeps_process_document (file_path : string) (use_vision : bool)
    (splitting_strategy completion_strategy : string) :
  keeps_registry
    (process_document env settings file_path use_vision
       splitting_strategy completion_strategy).
Proof. unfold process_document, run_process. keeps. Qed.

#[local] Hint Resolve keeps_configure_model_provider keeps_configure_splitter
  keeps_process_document : keeps.

(** *** Switching through the agent *)

Lemma name_of_None (d : dict P) : name_of d None = None.
Proof. induction d as [|[k v] d IH]; simpl; [done|]. by repeat case_decide. Qed.

(** [switch_model_provider] never raises, and leaves the registry as
    [switch_provider] made it, also when reconfiguring the extractor or
    the splitter fails. *)
Lemma switch_model_provider_spec (provider_name : string) (s : Sys) :
  ∃ (b : bool) (s' : Sys),
    switch_model_provider env settings provider_name s = (Return b, s') ∧
    (b = true → is_Some (dict_get provider_name (providers (model_manager s)))) ∧
    model_manager s' = model_manager (switch_provider provider_name s).2.
Proof.
  pose proof (switch_provider_result s provider_name) as Hsw. simpl in Hsw.
  unfold switch_model_provider, try_except, bind.
  destruct (switch_provider provider_name s) as [out s1]; simpl in *.
  destruct (dict_get provider_name (providers (model_manager s))) as [p|].
  - destruct Hsw as (-> & _).
    pose proof (keeps_bind _ (λ _, _configure_splitter env settings)
                  keeps_configure_model_provider
                  (λ _, keeps_configure_splitter) s1) as Hkeep.
    unfold bind in Hkeep.
    destruct (_configure_model_provider env settings s1) as [[[]|e] s2];
      simpl in *; [|by eauto 6].
    destruct (_configure_splitter env settings s2) as [[[]|e] s3];
      simpl in *; by eauto 6.
  - destruct Hsw as (-> & ->). simpl. exists false, s. done.
Qed.

(** The state after [try: body finally: fin] is the state [fin] leaves
    when started where [body] stopped. *)
Lemma try_finally_state {A} (body : M A) (fin : M unit) (s : Sys) :
  (try_finally body fin s).2 = (fin (body s).2).2.
Proof.
  unfold try_finally. destruct (body s) as [r s1]; simpl.
  by destruct (fin s1) as [[[]|e] s2].
Qed.

Lemma bind_keeps_registry {A B} (c : M A) (k : A → M B) (s : Sys) :
  (∀ a, keeps_registry (k a)) →
  model_manager (bind c k s).2 = model_manager (c s).2.
Proof.
  intros Hk. unfold bind. destruct (c s) as [[a|e] s1]; simpl; [|done].
  apply Hk.
Qed.

Lemma registry_eq (m1 m2 : UnifiedModelManager P) :
  providers m1 = providers m2 →
  active_provider m1 = active_provider m2 →
  fallback_provider m1 = fallback_provider m2 →
  m1 = m2.
Proof. destruct m1, m2; simpl; congruence. Qed.

Lemma switch_model_provider_registry (provider_name : string) (s : Sys) :
  model_manager (switch_model_provider env settings provider_name s).2
  = model_manager (switch_provider provider_name s).2.
Proof.
  destruct (switch_model_provider_spec provider_name s) as (b & s1 & Heq & _ & Hmm).
  by rewrite Heq.
Qed.

(** C9.  On a registry that satisfies the registry invariant, as every
    constructed registry does, [process_document_with_provider] leaves the
    active provider as it found it, for every requested provider name (in
    particular one different from the active provider's) and whether the
    extraction returns or raises.  The registered providers and the
    fallback reference are kept as well. *)
Theorem process_document_with_provider_restores (s : Sys) (file_path : string)
    (provider_name : option string) (use_vision : bool)
    (splitting_strategy completion_strategy : string) :
  registry_ok (model_manager s) →
  let s' := (process_document_with_provider env settings file_path provider_name
               use_vision splitting_strategy completion_strategy s).2 in
  active_provider (model_manager s') = active_provider (model_manager s) ∧
  providers (model_manager s') = providers (model_manager s) ∧
  fallback_provider (model_manager s') = fallback_provider (model_manager s).
Proof.
  intros (Hnodup & Hne & Hact) s'.
  assert (Hsame : model_manager s' = model_manager s); [|by rewrite Hsame].
  subst s'.
  unfold process_document_with_provider, get_active_provider_name.
  unfold bind at 1 2. unfold get_mm at 1. unfold ret at 1. cbv beta iota.
  set (m := model_manager s) in *.
  set (original := name_of (providers m) (active_provider m)).
  rewrite try_finally_state.
  match goal with |- context [(?body s).2] => set (s2 := (body s).2) end.
  (* the registry where the body of the [try] stops *)
  assert (Hbody : model_manager s2 =
            if switch_requested provider_name original
            then model_manager (switch_provider (default "" provider_name) s).2
            else m).
  { subst s2. rewrite bind_keeps_registry by keeps.
    destruct (switch_requested provider_name original).
    - rewrite bind_keeps_registry by keeps.
      apply switch_model_provider_registry.
    - done. }
  clearbody s2.
  pose proof (switch_provider_result s (default "" provider_name)) as Hsw.
  simpl in Hsw. fold m in Hsw.
  destruct (switch_requested provider_name original); simpl andb; cbv iota;
    [|done].
  subst original.
  destruct (name_of (providers m) (active_provider m)) as [o|] eqn:Horig.
  - (* there was an active provider: it is switched back *)
    assert (Ho : truthy (Some o) = true).
    { simpl. apply bool_decide_eq_true. intros ->.
      apply Hne. by eapply name_of_key. }
    rewrite Ho. change (true && true) with true.
    change (default "" (Some o)) with o. cbv beta iota.
    destruct (active_provider m) as [a|] eqn:Ha;
      [|by rewrite name_of_None in Horig].
    apply dict_get_name_of in Horig; [|done].
    assert (Hprov : providers (model_manager s2) = providers m
                    ∧ fallback_provider (model_manager s2) = fallback_provider m).
    { rewrite Hbody. destruct (dict_get _ (providers m)).
      - by destruct Hsw as (_ & _ & -> & -> & _).
      - by destruct Hsw as (_ & ->). }
    destruct Hprov as [Hprov Hfb].
    rewrite bind_keeps_registry by keeps.
    rewrite switch_model_provider_registry.
    pose proof (switch_provider_result s2 o) as Hsw2. simpl in Hsw2.
    rewrite Hprov, Horig in Hsw2.
    destruct Hsw2 as (_ & Ha3 & Hp3 & Hf3 & _).
    apply registry_eq; congruence.
  - (* there was none: nothing is registered, the switch has failed *)
    destruct (active_provider m) as [a|] eqn:Ha.
    { destruct Hact as [name Hin]. apply name_of_elem_of in Hin.
      rewrite Horig in Hin. by destruct Hin. }
    rewrite Hact in Hsw. simpl in Hsw. destruct Hsw as (_ & Hs).
    simpl. by rewrite Hbody, Hs.
Qed.

(** *** Choice of the splitter *)


End AgentProperties.

(** *** The agent on the concrete world *)



(** Processing one document with Hugging Face while Ollama is active puts
    Ollama back, also when the extraction raises. *)
Lemma process_document_with_provider_restores_witness :
  let s := Concrete.world_becomes Concrete.ollama_down
             (Concrete.started default_settings Concrete.all_up) in
  let r := DocumentIntelligenceAgent.process_document_with_provider
             Concrete.env default_settings "invoice.txt" (Some "huggingface")
             false "LAZY" "PAGINATE" s in
  registry_ok (model_manager s) ∧
  get_active_provider_name s = (Return (Some "ollama"), s) ∧
  r.1 = Raise (Exception "ConnectionError" "ollama is down") ∧
  active_provider (model_manager r.2) = Some 0.
Proof.
  intros s r.
  assert (Hok : registry_ok (model_manager s)).
  { exact (init_registry_ok Concrete.env default_settings
             (Concrete.boot Concrete.all_up)). }
  split_and!; [exact Hok | reflexivity | reflexivity |].
  exact (proj1 (process_document_with_provider_restores Concrete.env
                  default_settings s "invoice.txt" (Some "huggingface")
                  false "LAZY" "PAGINATE" Hok)).
Defined.

(** [scans/NOTES.Txt] is accepted because of [Txt]; [docs/README],
    [.txt] and [archive.] have no suffix and are rejected. *)
Lemma validate_document_lowercased_suffix_witness :
  ("NOTES.Txt" ≠ "" ∧ "NOTES.Txt" ≠ "." ∧
   ("/"%char ∉ chars "NOTES.Txt") ∧
   DocumentIntelligenceAgent.validate_document "scans/NOTES.Txt" =
   DocumentIntelligenceAgent.validate_document "NOTES.Txt") ∧
  ("NOTES" ≠ "" ∧ "Txt" ≠ "" ∧
   ("/"%char ∉ chars "NOTES") ∧
   ("/"%char ∉ chars "Txt") ∧
   ("."%char ∉ chars "Txt") ∧
   spec_lower "Txt" = "txt" ∧
   DocumentIntelligenceAgent.validate_document "NOTES.Txt" = true) ∧
  (("/"%char ∉ chars "README") ∧
   ("."%char ∉ chars "README") ∧
   DocumentIntelligenceAgent.validate_document "README" = false ∧
   DocumentIntelligenceAgent.validate_document ".README" = false) ∧
  (("/"%char ∉ chars "archive") ∧
   DocumentIntelligenceAgent.validate_document "archive." = false).
Proof.
  assert (Hname : "/"%char ∉ chars "NOTES.Txt")
    by (apply (bool_decide_unpack _); reflexivity).
  assert (Hstem : "/"%char ∉ chars "NOTES")
    by (apply (bool_decide_unpack _); reflexivity).
  assert (Hext : "/"%char ∉ chars "Txt")
    by (apply (bool_decide_unpack _); reflexivity).
  assert (Hdot : "."%char ∉ chars "Txt")
    by (apply (bool_decide_unpack _); reflexivity).
  assert (Hreadme : "/"%char ∉ chars "README")
    by (apply (bool_decide_unpack _); reflexivity).
  assert (Hreadme' : "."%char ∉ chars "README")
    by (apply (bool_decide_unpack _); reflexivity).
  assert (Harchive : "/"%char ∉ chars "archive")
    by (apply (bool_decide_unpack _); reflexivity).
  assert (H1 : "NOTES.Txt" ≠ "") by discriminate.
  assert (H2 : "NOTES.Txt" ≠ ".") by discriminate.
  assert (H3 : "NOTES" ≠ "") by discriminate.
  assert (H4 : "Txt" ≠ "") by discriminate.
  split; [|split; [|split]].
  - split; [exact H1|]. split; [exact H2|]. split; [exact Hname|].
    exact (proj1 (proj2 (proj2 validate_document_lowercased_suffix))
             "scans" "NOTES.Txt" H1 H2 Hname).
  - split; [exact H3|]. split; [exact H4|]. split; [exact Hstem|].
    split; [exact Hext|]. split; [exact Hdot|]. split; [reflexivity|].
    exact (proj1 (proj2 (proj2 (proj2 (proj2 validate_document_lowercased_suffix))))
             "NOTES" "Txt" H3 H4 Hstem Hext Hdot).
  - split; [exact Hreadme|]. split; [exact Hreadme'|].
    exact (proj1 (proj2 (proj2 (proj2 (proj2 (proj2
             validate_document_lowercased_suffix)))))
             "README" Hreadme Hreadme').
  - split; [exact Harchive|].
    exact (proj2 (proj2 (proj2 (proj2 (proj2 (proj2
             validate_document_lowercased_suffix)))))
             "archive" Harchive).
Defined.

(** ** The workflow *)

Section WorkflowProperties.
Context {W P : Type} `{EqDecision P}.
Context (env : Env W P) (settings : Settings).

Import DocumentIntelligenceWorkflow.

Local Abbreviation Sys := (Sys W P).
Local Abbreviation State := DocumentProcessingState.

(** *** The nodes *)

(** Validation never raises and touches nothing outside [state]; it ends
    in [validated] or in [error], and in [error] with a message for a path
    that is empty, does not exist or has an unsupported suffix. *)
Lemma validate_document_outcome (state : State) (s : Sys) :
  ∃ state',
    _validate_document env state s = (Return state', s) ∧
    (processing_status state' = "validated" ∨ processing_status state' = "error") ∧
    (document_path state = "" ∨
     os_path_exists env (document_path state) (world s) = false ∨
     DocumentIntelligenceAgent.validate_document (document_path state) = false →
     ∃ msg, msg ≠ "" ∧ state' = set_error msg state).
Proof.
  unfold _validate_document. unfold_monad.
  destruct (decide (document_path state = "")) as [Hempty|Hpath]; simpl.
  { eexists. split_and!; [done | by right |]. intros _.
    eexists. split; [|reflexivity]. intros Heq. simpl in Heq. discriminate Heq. }
  destruct (os_path_exists env (document_path state) (world s)) eqn:Hfound; simpl.
  2: { eexists. split_and!; [done | by right |]. intros _.
    eexists. split; [|reflexivity]. intros Heq. simpl in Heq. discriminate Heq. }
  destruct (DocumentIntelligenceAgent.validate_document (document_path state))
    eqn:Hvalid; simpl.
  2: { eexists. split_and!; [done | by right |]. intros _.
    eexists. split; [|reflexivity]. intros Heq. simpl in Heq. discriminate Heq. }
  eexists. split_and!; [done | by left |]. intros [?|[?|?]]; done.
Qed.

Lemma classify_document_outcome (state : State) (s : Sys) :
  ∃ state' s', _classify_document env state s = (Return state', s').
Proof.
  unfold _classify_document, DocumentIntelligenceAgent.classify_document.
  unfold_monad. simpl.
  destruct (open_read env (document_path state) (world s)) as [[[]|e] w1]; simpl;
    by eauto.
Qed.

(** Processing never raises and ends in [completed] or in [error]. *)
Lemma process_document_node_outcome (state : State) (s : Sys) :
  ∃ state' s',
    _process_document env settings state s = (Return state', s') ∧
    (processing_status state' = "completed" ∨ processing_status state' = "error").
Proof.
  unfold _process_document. unfold try_except, bind at 1.
  match goal with
  | |- context [match ?c s with _ => _ end] => destruct (c s) as [[r|e] s1]
  end; simpl.
  - eexists _, _. split; [done|]. by left.
  - eexists _, _. split; [done|]. by right.
Qed.

Lemma handle_error_status (state : State) (s : Sys) :
  ∃ state',
    _handle_error state s = (Return state', s) ∧
    processing_status state' = processing_status state.
Proof. unfold _handle_error. by eexists. Qed.

(** *** The graph *)

Lemma run_step (fuel : nat) (n : node) (state : State) (s : Sys) :
  n ≠ END →
  run env settings (S fuel) n state s =
  match node_action env settings n state s with
  | (Return state', s') => run env settings fuel (next_node n state') state' s'
  | (Raise e, s') => (Raise e, s')
  end.
Proof. by destruct n. Qed.

Lemma run_END (fuel : nat) (state : State) (s : Sys) :
  run env settings fuel END state s = (Return (Some state), s).
Proof. by destruct fuel. Qed.

Lemma next_node_validated (state : State) :
  processing_status state = "validated" →
  next_node validate_document state = classify_document.
Proof.
  intros Hst. unfold next_node, _should_continue_after_validation. by rewrite Hst.
Qed.

Lemma next_node_not_validated (state : State) :
  processing_status state = "error" →
  next_node validate_document state = handle_error.
Proof.
  intros Hst. unfold next_node, _should_continue_after_validation. by rewrite Hst.
Qed.

Lemma next_node_completed (state : State) :
  processing_status state = "completed" →
  next_node process_document_node state = END.
Proof.
  intros Hst. unfold next_node, _should_end_workflow. by rewrite Hst.
Qed.

Lemma next_node_not_completed (state : State) :
  processing_status state = "error" →
  next_node process_document_node state = handle_error.
Proof.
  intros Hst. unfold next_node, _should_end_workflow. by rewrite Hst.
Qed.

(** From any state the graph reaches [END] within four nodes, never
    raises, and stops with status [completed] or [error]. *)
Lemma invoke_outcome (state : State) (s : Sys) :
  ∃ state' s',
    invoke env settings state s = (Return (Some state'), s') ∧
    (processing_status state' = "completed" ∨ processing_status state' = "error").
Proof.
  unfold invoke, START.
  destruct (validate_document_outcome state s) as (st1 & Hv & Hst1 & _).
  rewrite run_step by done. cbn [node_action]. rewrite Hv.
  destruct Hst1 as [Hst1|Hst1].
  - (* validated: classify, then process *)
    rewrite (next_node_validated _ Hst1).
    destruct (classify_document_outcome st1 s) as (st2 & s2 & Hc).
    rewrite run_step by done. cbn [node_action]. rewrite Hc. cbn [next_node].
    destruct (process_document_node_outcome st2 s2) as (st3 & s3 & Hp & Hst3).
    rewrite run_step by done. cbn [node_action]. rewrite Hp.
    destruct Hst3 as [Hst3|Hst3].
    + rewrite (next_node_completed _ Hst3), run_END. eauto.
    + rewrite (next_node_not_completed _ Hst3).
      destruct (handle_error_status st3 s3) as (st4 & Hh & Hst4).
      rewrite run_step by done. cbn [node_action]. rewrite Hh. cbn [next_node].
      rewrite run_END. eexists _, _. split; [done|]. right. congruence.
  - (* not validated: handle the error *)
    rewrite (next_node_not_validated _ Hst1).
    destruct (handle_error_status st1 s) as (st4 & Hh & Hst4).
    rewrite run_step by done. cbn [node_action]. rewrite Hh. cbn [next_node].
    rewrite run_END. eexists _, _. split; [done|]. right. congruence.
Qed.

(** For an invalid path the graph runs the validation and the error
    handler, and nothing else. *)
Lemma invoke_invalid (state : State) (s : Sys) :
  document_path state = "" ∨
  os_path_exists env (document_path state) (world s) = false ∨
  DocumentIntelligenceAgent.validate_document (document_path state) = false →
  ∃ msg, msg ≠ "" ∧
    invoke env settings state s =
    (Return (Some (append_message (AIMessage ("Error: " +:+ msg))
                     (set_error msg state))), s).
Proof.
  intros Hinvalid. unfold invoke, START.
  destruct (validate_document_outcome state s) as (st1 & Hv & _ & Hst1).
  destruct (Hst1 Hinvalid) as (msg & Hmsg & ->).
  exists msg. split; [done|].
  rewrite run_step by done. cbn [node_action]. rewrite Hv.
  rewrite next_node_not_validated by done.
  rewrite run_step by done. cbn [node_action].
  unfold _handle_error, ret. cbv beta iota zeta. cbn [next_node].
  by rewrite run_END.
Qed.

(** *** Terminal status *)

(** C7.  For every path, every flag combination, every registry and every
    behaviour of the world, [process_document] returns a result, and the
    status of that result is [completed] or [error]. *)
Theorem process_document_terminal_status (s : Sys) (document_path : string)
    (use_vision enable_pii_masking : bool) :
  ∃ r,
    (process_document env settings document_path use_vision
       enable_pii_masking s).1 = Return (Some r) ∧
    (r_status r = "completed" ∨ r_status r = "error").
Proof.
  unfold process_document, try_except, bind.
  match goal with
  | |- context [invoke env settings ?st s] =>
      destruct (invoke_outcome st s) as (st' & s' & -> & Hst)
  end.
  simpl. eauto.
Qed.

(** *** Invalid paths *)

(** C6 (amended).  For a path that is empty, does not exist or has an
    unsupported suffix, [process_document] returns a result with status
    [error], a non-empty error message and no extracted data; the state of
    the system is left as it was, so neither the classifier nor the
    extraction has been called; and the message list of the result has two
    entries: the request and the error. *)
Theorem process_document_invalid_path (s : Sys) (document_path : string)
    (use_vision enable_pii_masking : bool) :
  document_path = "" ∨
  os_path_exists env document_path (world s) = false ∨
  DocumentIntelligenceAgent.validate_document document_path = false →
  ∃ r,
    process_document env settings document_path use_vision enable_pii_masking s
    = (Return (Some r), s) ∧
    r_status r = "error" ∧
    r_error_message r ≠ "" ∧
    r_extracted_data r = [] ∧
    r_messages r = ["Process document: " +:+ document_path;
                    "Error: " +:+ r_error_message r] ∧
    calls (process_document env settings document_path use_vision
             enable_pii_masking s).2 = calls s.
Proof.
  intros Hinvalid.
  unfold process_document, try_except, bind.
  match goal with
  | |- context [invoke env settings ?st s] =>
      destruct (invoke_invalid st s Hinvalid) as (msg & Hmsg & ->)
  end.
  simpl. eexists. split_and!; done.
Qed.

End WorkflowProperties.

(** *** The workflow on the concrete world *)

(** C6, as stated, fails: for the empty path the message list of the
    result has two entries, not one. *)
Lemma invalid_path_has_two_messages :
  let s := Concrete.started default_settings Concrete.all_up in
  (DocumentIntelligenceWorkflow.process_document
     Concrete.env default_settings "" false true s).1
  = Return (Some {| r_status := "error";
                    r_document_path := "";
                    r_document_type := "Unknown";
                    r_extracted_data := [];
                    r_error_message := "No document path provided";
                    r_messages := ["Process document: ";
                                   "Error: No document path provided"] |}) ∧
  length ["Process document: "; "Error: No document path provided"] ≠ 1.
Proof. vm_compute. split; [reflexivity | discriminate]. Qed.

(** A missing file is rejected without touching the state. *)
Lemma process_document_invalid_path_witness :
  let s := Concrete.started default_settings Concrete.all_up in
  os_path_exists Concrete.env "missing.pdf" (world s) = false ∧
  ∃ r,
    DocumentIntelligenceWorkflow.process_document
      Concrete.env default_settings "missing.pdf" false true s
    = (Return (Some r), s) ∧
    r_status r = "error" ∧
    r_error_message r ≠ "" ∧
    r_extracted_data r = [] ∧
    r_messages r = ["Process document: " +:+ "missing.pdf";
                    "Error: " +:+ r_error_message r] ∧
    calls (DocumentIntelligenceWorkflow.process_document
             Concrete.env default_settings "missing.pdf" false true s).2 = calls s.
Proof.
  intros s. split; [reflexivity|].
  exact (process_document_invalid_path Concrete.env default_settings s
           "missing.pdf" false true (or_intror (or_introl eq_refl))).
Defined.

(** ** More on dictionaries *)

Lemma dict_keys_cons {V} (k : string) (v : V) (d : dict V) :
  dict_keys ((k, v) :: d) = k :: dict_keys d.
Proof. done. Qed.

Lemma dict_keys_set {V} (k : string) (v : V) (d : dict V) :
  dict_keys (dict_set k v d) =
  if decide (k ∈ dict_keys d) then dict_keys d else dict_keys d ++ [k].
Proof.
  induction d as [|[k' v'] d IH].
  - by destruct (decide (k ∈ dict_keys [])) as [?%elem_of_nil|].
  - cbn [dict_set]. destruct (decide (k' = k)) as [->|Hne].
    + rewrite !dict_keys_cons. rewrite decide_True; [done | left].
    + rewrite !dict_keys_cons, IH.
      destruct (decide (k ∈ dict_keys d)) as [Hin|Hnin].
      * rewrite decide_True; [done | by right].
      * rewrite decide_False; [done|].
        rewrite not_elem_of_cons. split; [congruence | done].
Qed.

Lemma dict_set_elem_of {V} (k k' : string) (v v' : V) (d : dict V) :
  (k', v') ∈ dict_set k v d → (k', v') = (k, v) ∨ (k', v') ∈ d.
Proof.
  induction d as [|[k0 v0] d IH]; simpl.
  - rewrite list_elem_of_singleton. by left.
  - case_decide; rewrite !elem_of_cons; naive_solver.
Qed.

Lemma dict_set_NoDup {V} (k : string) (v : V) (d : dict V) :
  NoDup (dict_keys d) → NoDup (dict_keys (dict_set k v d)).
Proof.
  intros Hd. rewrite dict_keys_set. case_decide; [done|].
  apply NoDup_app. split_and!; [done | | apply NoDup_singleton].
  intros x Hx ->%list_elem_of_singleton. done.
Qed.

Lemma dict_set_key_elem_of {V} (k k' : string) (v : V) (d : dict V) :
  k' ∈ dict_keys (dict_set k v d) ↔ k' = k ∨ k' ∈ dict_keys d.
Proof.
  rewrite dict_keys_set. case_decide.
  - naive_solver.
  - rewrite elem_of_app, list_elem_of_singleton. naive_solver.
Qed.

Lemma dict_get_set {V} (k k' : string) (v : V) (d : dict V) :
  dict_get k' (dict_set k v d) = if decide (k = k') then Some v else dict_get k' d.
Proof.
  induction d as [|[k0 v0] d IH]; simpl.
  - by destruct (decide (k = k')).
  - destruct (decide (k0 = k)) as [->|Hne]; simpl.
    + by destruct (decide (k = k')).
    + rewrite IH. destruct (decide (k0 = k')) as [->|]; [|done].
      by rewrite decide_False.
Qed.

Lemma dict_get_None {V} (k : string) (d : dict V) :
  dict_get k d = None ↔ k ∉ dict_keys d.
Proof.
  induction d as [|[k' v'] d IH].
  - split; [intros _; apply not_elem_of_nil | done].
  - cbn [dict_get]. rewrite dict_keys_cons, not_elem_of_cons. case_decide.
    + split; [done | intros [? _]; congruence].
    + rewrite IH. split; [by split | by intros [_ ?]].
Qed.

(** ** More on the monad *)

Lemma bind_return {W P A B} (c : M W P A) (k : A → M W P B) (s s1 : Sys W P) (a : A) :
  c s = (Return a, s1) → bind c k s = k a s1.
Proof. intros Hc. unfold bind. by rewrite Hc. Qed.

Lemma bind_raise {W P A B} (c : M W P A) (k : A → M W P B) (s s1 : Sys W P) (e : exn) :
  c s = (Raise e, s1) → bind c k s = (Raise e, s1).
Proof. intros Hc. unfold bind. by rewrite Hc. Qed.

Lemma try_except_return {W P A} (body : M W P A) (handler : exn → M W P A)
    (s s1 : Sys W P) (a : A) :
  body s = (Return a, s1) → try_except body handler s = (Return a, s1).
Proof. intros Hc. unfold try_except. by rewrite Hc. Qed.

Lemma try_except_raise {W P A} (body : M W P A) (handler : exn → M W P A)
    (s s1 : Sys W P) (e : exn) :
  body s = (Raise e, s1) → try_except body handler s = handler e s1.
Proof. intros Hc. unfold try_except. by rewrite Hc. Qed.

Lemma try_finally_returning {W P A} (body : M W P A) (fin : M W P unit)
    (s s1 s2 : Sys W P) (r : outcome A) :
  body s = (r, s1) → fin s1 = (Return (), s2) →
  try_finally body fin s = (r, s2).
Proof. intros Hb Hf. unfold try_finally. by rewrite Hb, Hf. Qed.

(** ** [switch_provider], by cases *)

Lemma switch_provider_cases {W P} `{EqDecision P} (s : Sys W P) (provider_name : string) :
  match dict_get provider_name (providers (model_manager s)) with
  | None => switch_provider provider_name s = (Return false, s)
  | Some p =>
      (switch_provider provider_name s).1 = Return true ∧
      active_provider (model_manager (switch_provider provider_name s).2) = Some p ∧
      providers (model_manager (switch_provider provider_name s).2)
      = providers (model_manager s) ∧
      fallback_provider (model_manager (switch_provider provider_name s).2)
      = fallback_provider (model_manager s)
  end.
Proof.
  unfold switch_provider. unfold_monad. simpl.
  by destruct (dict_get provider_name (providers (model_manager s))).
Qed.

Lemma dict_set_new {V} (k : string) (v : V) (d : dict V) :
  k ∉ dict_keys d → dict_set k v d = d ++ [(k, v)].
Proof.
  induction d as [|[k' v'] d IH]; [done|].
  rewrite dict_keys_cons, not_elem_of_cons. intros [Hne Hnin].
  cbn [dict_set]. rewrite decide_False by done. by rewrite IH.
Qed.

Lemma dict_get_fmap {V V'} (f : V → V') (k : string) (d : dict V) :
  dict_get k ((λ kv, (kv.1, f kv.2)) <$> d) = f <$> dict_get k d.
Proof.
  induction d as [|[k' v'] d IH]; [done|].
  simpl. by case_decide.
Qed.

(** ** More on the workflow *)

Section WorkflowMore.
Context {W P : Type} `{EqDecision P}.
Context (env : Env W P) (settings : Settings).

Import DocumentIntelligenceWorkflow WorkflowMethods.

Local Abbreviation Sys := (Sys W P).
Local Abbreviation State := DocumentProcessingState.

(** *** What each node computes *)

Lemma validate_document_spec (state : State) (s : Sys) :
  _validate_document env state s =
  (Return
     (if decide (document_path state = "") then
        set_error "No document path provided" state
      else if negb (os_path_exists env (document_path state) (world s)) then
        set_error ("Document not found: " +:+ document_path state) state
      else if negb (DocumentIntelligenceAgent.validate_document (document_path state)) then
        set_error ("Unsupported document format: "
                   +:+ path_suffix (document_path state)) state
      else
        append_message
          (AIMessage ("Document validated successfully: "
                      +:+ path_name (document_path state)))
          (set_status "validated" state)),
   s).
Proof.
  unfold _validate_document. unfold_monad. simpl.
  repeat (case_match; simpl; try done).
Qed.

Lemma classify_by_name_labels (file_name : string) :
  DocumentIntelligenceAgent.classify_by_name file_name
  ∈ ["Invoice"; "Driver License"; "Passport"; "Business Card"; "Unknown"].
Proof.
  unfold DocumentIntelligenceAgent.classify_by_name.
  repeat case_match; by apply (bool_decide_unpack _).
Qed.

(** The label the classification node writes for [path] in world [w]. *)
Lemma classify_document_spec (state : State) (s : Sys) :
  let opened := open_read env (document_path state) (world s) in
  let label :=
    match opened.1 with
    | Return _ =>
        DocumentIntelligenceAgent.classify_by_name
          (lower (path_name (document_path state)))
    | Raise _ => "Unknown"
    end in
  _classify_document env state s =
  (Return
     (append_message (AIMessage ("Document classified as: " +:+ label))
        (set_status "classified" (set_document_type label state))),
   {| world := opened.2; model_manager := model_manager s; agent := agent s;
      calls := calls s ++ [CallClassify (document_path state)] |}).
Proof.
  unfold _classify_document, DocumentIntelligenceAgent.classify_document.
  unfold_monad. simpl.
  destruct (open_read env (document_path state) (world s)) as [[[]|e] w1];
    [|done].
  pose proof (classify_by_name_labels (lower (path_name (document_path state))))
    as Hlabel.
  unfold str_or.
  destruct (decide (DocumentIntelligenceAgent.classify_by_name
                      (lower (path_name (document_path state))) = ""))
    as [Hempty|]; [|done].
  rewrite Hempty in Hlabel. by apply (bool_decide_pack _) in Hlabel.
Qed.

(** The processing node in terms of the agent's [process_document]:
    without vision at or below 8192 tokens, with the caller's choice above. *)
Lemma process_document_node_spec (state : State) (s : Sys) :
  let vision :=
    if (MAX_CONTEXT_TOKENS settings <=? 8192)%Z then false else use_vision state in
  let strategy :=
    if (MAX_CONTEXT_TOKENS settings <=? 8192)%Z
    then "pagination (limited context)" else "standard processing" in
  let ex := DocumentIntelligenceAgent.process_document env settings
              (document_path state) vision "LAZY" "PAGINATE" s in
  _process_document env settings state s =
  (Return
     match ex.1 with
     | Return items =>
         append_message
           (AIMessage ("Document processed successfully using " +:+ strategy
                       +:+ ". Extracted " +:+ pretty (length (item_data <$> items))
                       +:+ " data items."))
           (set_status "completed" (set_extracted_data (item_data <$> items) state))
     | Raise e => set_error ("Processing failed: " +:+ exn_msg e) state
     end,
   ex.2).
Proof.
  unfold _process_document, DocumentIntelligenceAgent.extract_with_pagination.
  unfold_monad.
  destruct (MAX_CONTEXT_TOKENS settings <=? 8192)%Z; simpl.
  - by destruct (DocumentIntelligenceAgent.process_document env settings
                   (document_path state) false "LAZY" "PAGINATE" s) as [[items|e] s1].
  - by destruct (DocumentIntelligenceAgent.process_document env settings
                   (document_path state) (use_vision state) "LAZY" "PAGINATE" s)
         as [[items|e] s1].
Qed.

(** *** The two flags *)

(** No node reads [enable_pii_masking]. *)
Lemma node_action_pii (flag : bool) (n : node) (state : State) (s : Sys) :
  node_action env settings n (with_pii_masking flag state) s =
  (outcome_map (with_pii_masking flag) (node_action env settings n state s).1,
   (node_action env settings n state s).2).
Proof.
  destruct n; simpl; try done.
  - rewrite !validate_document_spec. simpl. by repeat case_match.
  - by rewrite !classify_document_spec.
  - rewrite !process_document_node_spec. simpl. by case_match.
Qed.

(** At or below 8192 tokens no node reads [use_vision]. *)
Lemma node_action_vision (flag : bool) (n : node) (state : State) (s : Sys) :
  (MAX_CONTEXT_TOKENS settings ≤ 8192)%Z →
  node_action env settings n (with_vision flag state) s =
  (outcome_map (with_vision flag) (node_action env settings n state s).1,
   (node_action env settings n state s).2).
Proof.
  intros Hlow%Z.leb_le. destruct n; simpl; try done.
  - rewrite !validate_document_spec. simpl. by repeat case_match.
  - by rewrite !classify_document_spec.
  - rewrite !process_document_node_spec. rewrite Hlow. simpl. by case_match.
Qed.

(** A change of state that no node sees changes nothing but the state. *)
Lemma run_unseen (f : State → State) (fuel : nat) :
  (∀ n state s,
     node_action env settings n (f state) s =
     (outcome_map f (node_action env settings n state s).1,
      (node_action env settings n state s).2)) →
  (∀ n state, next_node n (f state) = next_node n state) →
  ∀ n state s,
    run env settings fuel n (f state) s =
    (outcome_map (fmap f) (run env settings fuel n state s).1,
     (run env settings fuel n state s).2).
Proof.
  intros Haction Hnext. induction fuel as [|fuel IH]; intros n state s.
  - by destruct n.
  - assert (n = END ∨ n ≠ END) as [->|Hn] by (destruct n; auto); [done|].
    rewrite !run_step by done. rewrite Haction.
    destruct (node_action env settings n state s) as [[state'|e] s1]; simpl; [|done].
    by rewrite Hnext, IH.
Qed.

Lemma invoke_unseen (f : State → State) :
  (∀ n state s,
     node_action env settings n (f state) s =
     (outcome_map f (node_action env settings n state s).1,
      (node_action env settings n state s).2)) →
  (∀ n state, next_node n (f state) = next_node n state) →
  ∀ state s,
    invoke env settings (f state) s =
    (outcome_map (fmap f) (invoke env settings state s).1,
     (invoke env settings state s).2).
Proof. intros Haction Hnext state s. by apply run_unseen. Qed.

(** X1.  [process_document] never reads [enable_pii_masking]: the result
    and the state it leaves are the same for both values of the flag. *)
Theorem process_document_ignores_pii_flag (s : Sys) (document_path : string)
    (use_vision : bool) :
  process_document env settings document_path use_vision true s =
  process_document env settings document_path use_vision false s.
Proof.
  unfold process_document, try_except, bind.
  match goal with
  | |- _ = ?rhs =>
      match rhs with
      | context [invoke env settings ?st s] =>
          match goal with
          | |- context [invoke env settings ?st1 s] =>
              change (invoke env settings st1 s)
                with (invoke env settings (with_pii_masking true st) s)
          end
      end
  end.
  rewrite (invoke_unseen (with_pii_masking true));
    [| apply node_action_pii | by intros []].
  match goal with
  | |- context [invoke env settings ?st s] =>
      destruct (invoke env settings st s) as [[[state'|]|e] s1]
  end; reflexivity.
Qed.

(** X2.  At or below 8192 tokens [process_document] does not read
    [use_vision] either: the extraction is run without vision whatever the
    caller asked for. *)
Theorem process_document_ignores_vision_at_low_context (s : Sys)
    (document_path : string) (enable_pii_masking : bool) :
  (MAX_CONTEXT_TOKENS settings ≤ 8192)%Z →
  process_document env settings document_path true enable_pii_masking s =
  process_document env settings document_path false enable_pii_masking s.
Proof.
  intros Hlow. unfold process_document, try_except, bind.
  match goal with
  | |- _ = ?rhs =>
      match rhs with
      | context [invoke env settings ?st s] =>
          match goal with
          | |- context [invoke env settings ?st1 s] =>
              change (invoke env settings st1 s)
                with (invoke env settings (with_vision true st) s)
          end
      end
  end.
  rewrite (invoke_unseen (with_vision true));
    [| intros; by apply node_action_vision | by intros []].
  match goal with
  | |- context [invoke env settings ?st s] =>
      destruct (invoke env settings st s) as [[[state'|]|e] s1]
  end; reflexivity.
Qed.

(** *** Valid paths *)

(** For a path that passes the validation: the state after the
    classification, and the run of the graph from there. *)
Lemma invoke_valid (state : State) (s : Sys) :
  document_path state ≠ "" →
  os_path_exists env (document_path state) (world s) = true →
  DocumentIntelligenceAgent.validate_document (document_path state) = true →
  let path := document_path state in
  let opened := open_read env path (world s) in
  let label :=
    match opened.1 with
    | Return _ => DocumentIntelligenceAgent.classify_by_name (lower (path_name path))
    | Raise _ => "Unknown"
    end in
  let classified :=
    append_message (AIMessage ("Document classified as: " +:+ label))
      (set_status "classified"
         (set_document_type label
            (append_message
               (AIMessage ("Document validated successfully: " +:+ path_name path))
               (set_status "validated" state)))) in
  let s1 := {| world := opened.2; model_manager := model_manager s;
               agent := agent s; calls := calls s ++ [CallClassify path] |} in
  let processed := _process_document env settings classified s1 in
  invoke env settings state s =
  (match processed.1 with
   | Return state' =>
       Return (Some (if decide (processing_status state' = "completed")
                     then state'
                     else append_message
                            (AIMessage ("Error: " +:+ default "Unknown error occurred"
                                                        (error_message state')))
                            state'))
   | Raise e => Raise e
   end, processed.2).
Proof.
  intros Hpath Hfound Hvalid. cbv zeta. unfold invoke, START.
  rewrite run_step by done. cbn [node_action]. rewrite validate_document_spec.
  rewrite decide_False by done. rewrite Hfound, Hvalid. cbn [negb].
  rewrite next_node_validated by done.
  rewrite run_step by done. cbn [node_action]. rewrite classify_document_spec.
  cbn [next_node]. cbv zeta. simpl document_path.
  rewrite run_step by done. cbn [node_action].
  match goal with
  | |- context [_process_document env settings ?st ?s1] =>
      destruct (process_document_node_outcome env settings st s1)
        as (st3 & s3 & Hp & Hst3); rewrite Hp
  end.
  cbn [fst snd]. destruct Hst3 as [Hst3|Hst3].
  - rewrite (next_node_completed _ Hst3), run_END. by rewrite decide_True.
  - rewrite (next_node_not_completed _ Hst3).
    rewrite run_step by done. cbn [node_action next_node].
    unfold _handle_error, ret. cbv beta iota zeta. rewrite run_END.
    rewrite decide_False; [done|]. by rewrite Hst3.
Qed.

(** The result for a path that passes the validation, by the outcome of
    the agent's [process_document]. *)
Lemma process_document_valid (s : Sys) (path : string)
    (vision_flag pii_flag : bool) :
  path ≠ "" →
  os_path_exists env path (world s) = true →
  DocumentIntelligenceAgent.validate_document path = true →
  let opened := open_read env path (world s) in
  let label :=
    match opened.1 with
    | Return _ => DocumentIntelligenceAgent.classify_by_name (lower (path_name path))
    | Raise _ => "Unknown"
    end in
  let s1 := {| world := opened.2; model_manager := model_manager s;
               agent := agent s; calls := calls s ++ [CallClassify path] |} in
  let vision :=
    if (MAX_CONTEXT_TOKENS settings <=? 8192)%Z then false else vision_flag in
  let strategy :=
    if (MAX_CONTEXT_TOKENS settings <=? 8192)%Z
    then "pagination (limited context)" else "standard processing" in
  let ex := DocumentIntelligenceAgent.process_document env settings
              path vision "LAZY" "PAGINATE" s1 in
  process_document env settings path vision_flag pii_flag s =
  (Return (Some
     match ex.1 with
     | Return items =>
         {| r_status := "completed";
            r_document_path := path;
            r_document_type := label;
            r_extracted_data := item_data <$> items;
            r_error_message := "";
            r_messages :=
              ["Process document: " +:+ path;
               "Document validated successfully: " +:+ path_name path;
               "Document classified as: " +:+ label;
               "Document processed successfully using " +:+ strategy
               +:+ ". Extracted " +:+ pretty (length items) +:+ " data items."] |}
     | Raise e =>
         {| r_status := "error";
            r_document_path := path;
            r_document_type := label;
            r_extracted_data := [];
            r_error_message := "Processing failed: " +:+ exn_msg e;
            r_messages :=
              ["Process document: " +:+ path;
               "Document validated successfully: " +:+ path_name path;
               "Document classified as: " +:+ label;
               "Error: Processing failed: " +:+ exn_msg e] |}
     end), ex.2).
Proof.
  intros Hpath Hfound Hvalid. cbv zeta.
  unfold process_document, try_except, bind.
  rewrite invoke_valid by done. cbv zeta.
  rewrite process_document_node_spec. cbv zeta.
  cbn [document_path use_vision append_message set_status set_document_type
       set_error set_extracted_data fst snd].
  destruct (DocumentIntelligenceAgent.process_document env settings path _
              "LAZY" "PAGINATE" _) as [[items|e] s2]; cbn [fst snd].
  - rewrite decide_True by done. unfold ret, result_of. simpl.
    by rewrite length_fmap.
  - rewrite decide_False by done. unfold ret, result_of. by simpl.
Qed.

(** X3.  For an existing file with a supported suffix whose extraction
    returns, [process_document] returns status [completed], the extracted
    items as data, an empty error message, the label of the classification
    and a trace of four messages; the extraction has been run without
    vision if the context window is at most 8192 tokens. *)
Theorem process_document_completed (s : Sys) (path : string)
    (use_vision enable_pii_masking : bool) (items : list Item) :
  path ≠ "" →
  os_path_exists env path (world s) = true →
  DocumentIntelligenceAgent.validate_document path = true →
  let opened := open_read env path (world s) in
  let label :=
    match opened.1 with
    | Return _ => DocumentIntelligenceAgent.classify_by_name (lower (path_name path))
    | Raise _ => "Unknown"
    end in
  let s1 := {| world := opened.2; model_manager := model_manager s;
               agent := agent s; calls := calls s ++ [CallClassify path] |} in
  let vision :=
    if (MAX_CONTEXT_TOKENS settings <=? 8192)%Z then false else use_vision in
  let strategy :=
    if (MAX_CONTEXT_TOKENS settings <=? 8192)%Z
    then "pagination (limited context)" else "standard processing" in
  (DocumentIntelligenceAgent.process_document env settings
     path vision "LAZY" "PAGINATE" s1).1 = Return items →
  (process_document env settings path use_vision enable_pii_masking s).1 =
  Return (Some
    {| r_status := "completed";
       r_document_path := path;
       r_document_type := label;
       r_extracted_data := item_data <$> items;
       r_error_message := "";
       r_messages :=
         ["Process document: " +:+ path;
          "Document validated successfully: " +:+ path_name path;
          "Document classified as: " +:+ label;
          "Document processed successfully using " +:+ strategy
          +:+ ". Extracted " +:+ pretty (length items) +:+ " data items."] |}).
Proof.
  intros Hpath Hfound Hvalid opened label s1 vision strategy Hex.
  rewrite process_document_valid by done. cbv zeta.
  fold opened label s1 vision strategy. cbn [fst]. by rewrite Hex.
Qed.

(** X4.  For an existing file with a supported suffix whose extraction
    raises, [process_document] returns status [error]; the error message is
    the message of the exception after ["Processing failed: "]; the
    classification is kept, no data is returned, and the trace has four
    messages, the last one the error. *)
Theorem process_document_extraction_failed (s : Sys) (path : string)
    (use_vision enable_pii_masking : bool) (e : exn) :
  path ≠ "" →
  os_path_exists env path (world s) = true →
  DocumentIntelligenceAgent.validate_document path = true →
  let opened := open_read env path (world s) in
  let label :=
    match opened.1 with
    | Return _ => DocumentIntelligenceAgent.classify_by_name (lower (path_name path))
    | Raise _ => "Unknown"
    end in
  let s1 := {| world := opened.2; model_manager := model_manager s;
               agent := agent s; calls := calls s ++ [CallClassify path] |} in
  let vision :=
    if (MAX_CONTEXT_TOKENS settings <=? 8192)%Z then false else use_vision in
  (DocumentIntelligenceAgent.process_document env settings
     path vision "LAZY" "PAGINATE" s1).1 = Raise e →
  (process_document env settings path use_vision enable_pii_masking s).1 =
  Return (Some
    {| r_status := "error";
       r_document_path := path;
       r_document_type := label;
       r_extracted_data := [];
       r_error_message := "Processing failed: " +:+ exn_msg e;
       r_messages :=
         ["Process document: " +:+ path;
          "Document validated successfully: " +:+ path_name path;
          "Document classified as: " +:+ label;
          "Error: Processing failed: " +:+ exn_msg e] |}).
Proof.
  intros Hpath Hfound Hvalid opened label s1 vision Hex.
  rewrite process_document_valid by done. cbv zeta.
  fold opened label s1 vision. cbn [fst]. by rewrite Hex.
Qed.

Lemma process_document_result (s : Sys) (path : string)
    (use_vision enable_pii_masking : bool) :
  ∃ r,
    (process_document env settings path use_vision enable_pii_masking s).1
    = Return (Some r) ∧
    (r_status r = "completed" ∨ r_status r = "error") ∧
    r_document_path r = path ∧
    r_document_type r ∈
      ["Invoice"; "Driver License"; "Passport"; "Business Card"; "Unknown"] ∧
    head (r_messages r) = Some ("Process document: " +:+ path) ∧
    (length (r_messages r) = 2 ∨ length (r_messages r) = 4).
Proof.
  destruct (decide (path = "" ∨
                    os_path_exists env path (world s) = false ∨
                    DocumentIntelligenceAgent.validate_document path = false))
    as [Hinvalid|Hvalid].
  { unfold process_document, try_except, bind.
    match goal with
    | |- context [invoke env settings ?st s] =>
        destruct (invoke_invalid env settings st s Hinvalid) as (msg & _ & ->)
    end.
    simpl. eexists. split; [done|]. simpl.
    split_and!; try done; [by right | by apply (bool_decide_unpack _) | by left]. }
  assert (Hpath : path ≠ "") by (intros ->; apply Hvalid; by left).
  assert (Hfound : os_path_exists env path (world s) = true).
  { destruct (os_path_exists env path (world s)) eqn:Hf; [done|].
    destruct Hvalid. right. by left. }
  assert (Hsuffix : DocumentIntelligenceAgent.validate_document path = true).
  { destruct (DocumentIntelligenceAgent.validate_document path) eqn:Hv; [done|].
    destruct Hvalid. right. by right. }
  rewrite process_document_valid by done. cbv zeta. cbn [fst].
  eexists. split; [done|].
  assert (Hlabel :
    match (open_read env path (world s)).1 with
    | Return _ => DocumentIntelligenceAgent.classify_by_name (lower (path_name path))
    | Raise _ => "Unknown"
    end ∈ ["Invoice"; "Driver License"; "Passport"; "Business Card"; "Unknown"]).
  { destruct (open_read env path (world s)).1;
      [apply classify_by_name_labels | by apply (bool_decide_unpack _)]. }
  match goal with
  | |- context [match ?o with Return _ => _ | Raise _ => _ end] =>
      lazymatch o with
      | (DocumentIntelligenceAgent.process_document _ _ _ _ _ _ _).1 =>
          destruct o
      end
  end; simpl; split_and!; try done; (by left) || (by right).
Qed.


(** X5.  Whatever the input, the result of [process_document] names the
    path it was given, carries one of the five type labels, and has a trace
    that starts with the request and has two messages (rejected by the
    validation) or four. *)
Theorem process_document_result_shape (s : Sys) (path : string)
    (use_vision enable_pii_masking : bool) :
  ∃ r,
    (process_document env settings path use_vision enable_pii_masking s).1
    = Return (Some r) ∧
    r_document_path r = path ∧
    r_document_type r ∈
      ["Invoice"; "Driver License"; "Passport"; "Business Card"; "Unknown"] ∧
    head (r_messages r) = Some ("Process document: " +:+ path) ∧
    (length (r_messages r) = 2 ∨ length (r_messages r) = 4).
Proof.
  destruct (process_document_result s path use_vision enable_pii_masking)
    as (r & Hr & _ & Hrest).
  by exists r.
Qed.

(** *** Batches *)

(** What [batch_process_documents] keeps true of the dictionary it
    builds. *)
Lemma batch_loop_spec (document_paths : list string)
    (use_vision enable_pii_masking : bool) (acc : dict (option Result)) (s : Sys) :
  NoDup (dict_keys acc) →
  (∀ p v, (p, v) ∈ acc →
     ∃ r, v = Some r ∧ r_document_path r = p ∧
          (r_status r = "completed" ∨ r_status r = "error")) →
  ∃ results,
    (batch_loop env settings document_paths use_vision enable_pii_masking acc s).1
    = Return results ∧
    NoDup (dict_keys results) ∧
    (∀ p, p ∈ dict_keys results ↔ p ∈ dict_keys acc ∨ p ∈ document_paths) ∧
    (NoDup (dict_keys acc ++ document_paths) →
     dict_keys results = dict_keys acc ++ document_paths) ∧
    (∀ p v, (p, v) ∈ results →
       ∃ r, v = Some r ∧ r_document_path r = p ∧
            (r_status r = "completed" ∨ r_status r = "error")).
Proof.
  revert acc s.
  induction document_paths as [|doc_path rest IH]; intros acc s Hnodup Hacc.
  - exists acc. simpl. split_and!; try done.
    + intros p. rewrite elem_of_nil. naive_solver.
    + by rewrite app_nil_r.
  - cbn [batch_loop]. unfold bind at 1.
    destruct (process_document_result s doc_path use_vision enable_pii_masking)
      as (r & Hr & Hstatus & Hpath & _).
    destruct (process_document env settings doc_path use_vision
                enable_pii_masking s) as [out s1].
    simpl in Hr. subst out.
    destruct (IH (dict_set doc_path (Some r) acc) s1) as
      (results & Hres & Hnd & Hkeys & Horder & Hvals).
    { by apply dict_set_NoDup. }
    { intros p v [Heq|Hin]%dict_set_elem_of; [|by apply Hacc].
      injection Heq as -> ->. eauto. }
    exists results. split_and!; try done.
    + intros p. rewrite Hkeys, dict_set_key_elem_of, elem_of_cons. naive_solver.
    + intros Hnd'. rewrite Horder; rewrite dict_keys_set.
      * rewrite decide_False; [by rewrite <- (assoc_L (++))|].
        apply NoDup_app in Hnd' as (_ & Hdisj & _).
        intros Hin. apply (Hdisj _ Hin). left.
      * rewrite decide_False.
        -- by rewrite <- (assoc_L (++)).
        -- apply NoDup_app in Hnd' as (_ & Hdisj & _).
           intros Hin. apply (Hdisj _ Hin). left.
Qed.

(** X6.  [batch_process_documents] never raises.  The dictionary it
    returns has exactly the given paths as keys, each once, in the order
    of their first occurrence, and every value is the result for its own
    path with status [completed] or [error]. *)
Theorem batch_process_documents_results (s : Sys) (document_paths : list string)
    (use_vision enable_pii_masking : bool) :
  ∃ results,
    (batch_process_documents env settings document_paths use_vision
       enable_pii_masking s).1 = Return results ∧
    NoDup (dict_keys results) ∧
    (∀ p, p ∈ dict_keys results ↔ p ∈ document_paths) ∧
    (NoDup document_paths → dict_keys results = document_paths) ∧
    (∀ p v, (p, v) ∈ results →
       ∃ r, v = Some r ∧ r_document_path r = p ∧
            (r_status r = "completed" ∨ r_status r = "error")).
Proof.
  unfold batch_process_documents.
  destruct (batch_loop_spec document_paths use_vision enable_pii_masking [] s)
    as (results & Hres & Hnd & Hkeys & Horder & Hvals).
  { constructor. }
  { intros p v Hin. by apply elem_of_nil in Hin. }
  exists results. split_and!; try done.
  intros p. rewrite Hkeys. simpl. rewrite elem_of_nil. naive_solver.
Qed.

End WorkflowMore.

(** ** More on the agent *)

Section AgentMore.
Context {W P T : Type} `{EqDecision P}.
Context (env : Env W P) (settings : Settings).
Context (get_model_info : P → W → dict string).
Context (time_time : W → outcome T * W) (time_sub : T → T → T).

Import DocumentIntelligenceAgent AgentMethods.

Local Abbreviation Sys := (Sys W P).
Local Abbreviation M := (M W P).

(** *** Computations that record no call *)

Lemma calls_ret {A} (a : A) : keeps_calls (ret a : M A).
Proof. done. Qed.

Lemma calls_raise {A} (e : exn) : keeps_calls (raise e : M A).
Proof. done. Qed.

Lemma calls_bind {A B} (c : M A) (k : A → M B) :
  keeps_calls c → (∀ a, keeps_calls (k a)) → keeps_calls (bind c k).
Proof.
  intros Hc Hk s. unfold bind. specialize (Hc s).
  destruct (c s) as [[a|e] s1]; simpl in *; [|done].
  by rewrite Hk.
Qed.

Lemma calls_try_except {A} (body : M A) (handler : exn → M A) :
  keeps_calls body → (∀ e, keeps_calls (handler e)) →
  keeps_calls (try_except body handler).
Proof.
  intros Hc Hk s. unfold try_except. specialize (Hc s).
  destruct (body s) as [[a|e] s1]; simpl in *; [done|].
  by rewrite Hk.
Qed.

Lemma calls_call {A} (f : W → outcome A * W) : keeps_calls (call f : M A).
Proof. intros s. unfold call. by destruct (f (world s)). Qed.

Lemma calls_observe {A} (f : W → A) : keeps_calls (observe f : M A).
Proof. done. Qed.

Lemma calls_get_agent : keeps_calls (get_agent : M Agent).
Proof. done. Qed.

Lemma calls_put_agent (a : Agent) : keeps_calls (put_agent a : M unit).
Proof. done. Qed.

Lemma calls_get_mm : keeps_calls (get_mm : M (UnifiedModelManager P)).
Proof. done. Qed.

Lemma calls_put_mm (m : UnifiedModelManager P) : keeps_calls (put_mm m : M unit).
Proof. done. Qed.

Create HintDb calls discriminated.
#[local] Hint Resolve calls_ret calls_raise calls_call calls_observe
  calls_get_agent calls_put_agent calls_get_mm calls_put_mm : calls.

Ltac calls :=
  repeat first
    [ progress intros
    | apply calls_bind
    | apply calls_try_except
    | solve [auto with calls]
    | match goal with
      | |- keeps_calls (if ?b then _ else _) => destruct b
      | |- keeps_calls (match ?x with _ => _ end) => destruct x
      end ].

Lemma calls_switch_model_provider (provider_name : string) :
  keeps_calls (switch_model_provider env settings provider_name).
Proof.
  unfold switch_model_provider, switch_provider, _configure_model_provider,
    _setup_huggingface_extractor, _configure_splitter, load_ollama_llm,
    load_process_splitter, get_available_providers, get_active_provider_name.
  calls.
Qed.

(** *** The extractor's model *)

(** X7.  [_configure_model_provider] loads the same model into the
    extractor whichever provider is active: if it returns, the extractor's
    model is ["ollama/" + OLLAMA_MODEL]; if it raises, the extractor's
    model is the one it had.  The splitter, the registry and the call log
    are not touched. *)
Theorem configure_model_provider_loads_ollama_model (s : Sys) :
  let out := (_configure_model_provider env settings s).1 in
  let s' := (_configure_model_provider env settings s).2 in
  process_splitter (agent s') = process_splitter (agent s) ∧
  model_manager s' = model_manager s ∧
  calls s' = calls s ∧
  extractor_llm (agent s') =
    match out with
    | Return _ => Some ("ollama/" +:+ OLLAMA_MODEL settings)
    | Raise _ => extractor_llm (agent s)
    end.
Proof.
  cbv zeta. destruct s as [w m a c].
  unfold _configure_model_provider, _setup_huggingface_extractor, load_ollama_llm,
    get_available_providers, get_active_provider_name.
  unfold_monad. simpl.
  set (model := "ollama/" +:+ OLLAMA_MODEL settings).
  repeat (case_match; simplify_eq; simpl in *; try done).
Qed.

(** *** Switching through the agent, again *)

Lemma switch_model_provider_unregistered (s : Sys) (provider_name : string) :
  dict_get provider_name (providers (model_manager s)) = None →
  switch_model_provider env settings provider_name s = (Return false, s).
Proof.
  intros Hget. pose proof (switch_provider_cases s provider_name) as Hsw.
  rewrite Hget in Hsw.
  unfold switch_model_provider, try_except, bind. by rewrite Hsw.
Qed.

(** X8.  [switch_model_provider] never raises.  For an unknown name it
    returns [False] and changes nothing.  For a registered name the
    registry is switched to it whether or not the extractor and the
    splitter can be reconfigured, and the answer is [True] exactly when
    reconfiguring them did not raise: a [False] answer does not mean that
    the active provider is the old one. *)
Theorem switch_model_provider_outcome (s : Sys) (provider_name : string) :
  match dict_get provider_name (providers (model_manager s)) with
  | None => switch_model_provider env settings provider_name s = (Return false, s)
  | Some p =>
      let reconfigured :=
        (_configure_model_provider env settings ;; _configure_splitter env settings)
          (switch_provider provider_name s).2 in
      switch_model_provider env settings provider_name s =
      (Return (if reconfigured.1 is Return _ then true else false), reconfigured.2) ∧
      active_provider (model_manager reconfigured.2) = Some p
  end.
Proof.
  pose proof (switch_provider_cases s provider_name) as Hsw.
  unfold switch_model_provider, try_except, bind.
  destruct (dict_get provider_name (providers (model_manager s))) as [p|];
    [|by rewrite Hsw].
  destruct (switch_provider provider_name s) as [out s1] eqn:Heq; simpl in *.
  - destruct Hsw as (-> & Hactive & _).
    pose proof (keeps_configure_model_provider env settings s1) as Hk1.
    destruct (_configure_model_provider env settings s1) as [[[]|e] s2]; simpl in *;
      [|split; [done | by rewrite Hk1]].
    pose proof (keeps_configure_splitter env settings s2) as Hk2.
    destruct (_configure_splitter env settings s2) as [[[]|e] s3]; simpl in *;
      (split; [done | by rewrite Hk2, Hk1]).
Qed.

(** *** One document with a chosen provider *)

(** X9.  Asked for a provider that is not registered,
    [process_document_with_provider] raises [ValueError] naming the
    provider, and the extraction is not run. *)
Theorem process_document_with_provider_unknown (s : Sys) (file_path : string)
    (provider_name : string) (use_vision : bool)
    (splitting_strategy completion_strategy : string) :
  provider_name ≠ "" →
  dict_get provider_name (providers (model_manager s)) = None →
  let r := process_document_with_provider env settings file_path
             (Some provider_name) use_vision splitting_strategy
             completion_strategy s in
  r.1 = Raise (ValueError ("Cannot switch to provider: " +:+ provider_name)) ∧
  calls r.2 = calls s.
Proof.
  intros Hname Hget r.
  assert (Hr : ∃ s3, r = (Raise (ValueError ("Cannot switch to provider: "
                                             +:+ provider_name)), s3)
                     ∧ calls s3 = calls s);
    [|by destruct Hr as (s3 & -> & Hcalls)].
  subst r.
  unfold process_document_with_provider, get_active_provider_name.
  unfold bind at 1 2. unfold get_mm at 1. unfold ret at 1. cbv beta iota.
  set (original := name_of (providers (model_manager s))
                     (active_provider (model_manager s))).
  assert (Hreq : switch_requested (Some provider_name) original = true).
  { unfold switch_requested. simpl. rewrite bool_decide_eq_true_2 by done. simpl.
    apply bool_decide_eq_true. intros Heq. symmetry in Heq.
    apply name_of_key in Heq. by apply dict_get_None in Hget. }
  rewrite Hreq. cbn [default andb].
  pose proof (switch_model_provider_unregistered s provider_name Hget) as Hsw.
  assert (Hfin : ∃ s3,
    (if truthy original
     then switch_model_provider env settings (default "" original);; ret ()
     else ret ()) s = (Return (), s3) ∧ calls s3 = calls s).
  { destruct (truthy original); [|by exists s].
    destruct (switch_model_provider_spec env settings (default "" original) s)
      as (b & s3 & Heq & _).
    pose proof (calls_switch_model_provider (default "" original) s) as Hcalls.
    rewrite Heq in Hcalls. exists s3. split; [|done].
    by rewrite (bind_return _ _ _ _ _ Heq). }
  destruct Hfin as (s3 & Hfin & Hcalls). exists s3. split; [|done].
  apply (try_finally_returning _ _ s s s3); [|exact Hfin].
  apply bind_raise. by rewrite (bind_return _ _ _ _ _ Hsw).
Qed.

(** X10.  Without a provider name, with the empty name, or with the name
    of the provider that is active already, [process_document_with_provider]
    is [process_document]: same outcome, same state. *)
Theorem process_document_with_provider_no_switch (s : Sys) (file_path : string)
    (provider_name : option string) (use_vision : bool)
    (splitting_strategy completion_strategy : string) :
  provider_name = None ∨ provider_name = Some "" ∨
  provider_name = name_of (providers (model_manager s))
                    (active_provider (model_manager s)) →
  process_document_with_provider env settings file_path provider_name use_vision
    splitting_strategy completion_strategy s =
  process_document env settings file_path use_vision
    splitting_strategy completion_strategy s.
Proof.
  intros Hno.
  unfold process_document_with_provider, get_active_provider_name.
  unfold bind at 1 2. unfold get_mm at 1. unfold ret at 1. cbv beta iota.
  set (original := name_of (providers (model_manager s))
                     (active_provider (model_manager s))) in *.
  assert (Hreq : switch_requested provider_name original = false).
  { unfold switch_requested. destruct Hno as [-> | [-> | ->]]; [done | done |].
    rewrite bool_decide_eq_false_2 by (by intros []).
    by rewrite andb_false_r. }
  rewrite Hreq. cbn [andb]. unfold try_finally, bind, ret.
  by destruct (process_document env settings file_path use_vision
                 splitting_strategy completion_strategy s) as [[items|e] s1].
Qed.

(** *** Information about the active provider *)

(** X11.  On a registry that satisfies the registry invariant,
    [get_current_provider_info] answers with the active provider's own
    model information, or with [no_active_provider] when none is set; it
    never answers [not_available], and it changes nothing. *)
Theorem get_current_provider_info_active (s : Sys) :
  registry_ok (model_manager s) →
  get_current_provider_info get_model_info s =
  (Return
     match active_provider (model_manager s) with
     | Some a => InfoOf (get_model_info a (world s))
     | None => InfoOf [("status", "no_active_provider")]
     end, s).
Proof.
  intros (Hnodup & Hne & Hact).
  unfold get_current_provider_info, get_active_provider_name, get_provider_info.
  unfold_monad. simpl.
  destruct (active_provider (model_manager s)) as [a|] eqn:Ha.
  - destruct Hact as [name Hin]. apply name_of_elem_of in Hin as [o Ho].
    rewrite Ho. simpl.
    assert (o ≠ "") by (intros ->; apply Hne; by eapply name_of_key).
    rewrite bool_decide_eq_true_2 by done.
    apply dict_get_name_of in Ho; [|done]. by rewrite Ho.
  - by rewrite name_of_None.
Qed.

(** *** Batches through the agent *)

Lemma batch_one_spec (doc_path : string) (acc : dict (list Item)) (s : Sys) :
  let processed := process_document env settings doc_path false "LAZY" "PAGINATE" s in
  batch_one env settings doc_path acc s =
  (Return (dict_set doc_path
             match processed.1 with
             | Return items => items
             | Raise _ => []
             end acc),
   processed.2).
Proof.
  unfold batch_one, try_except, bind, ret. cbv zeta.
  by destruct (process_document env settings doc_path false "LAZY" "PAGINATE" s)
    as [[items|e] s1].
Qed.

Lemma agent_batch_loop_spec (document_paths : list string)
    (acc : dict (list Item)) (s : Sys) :
  NoDup (dict_keys acc) →
  ∃ results,
    (batch_loop env settings document_paths acc s).1 = Return results ∧
    NoDup (dict_keys results) ∧
    (∀ p, p ∈ dict_keys results ↔ p ∈ dict_keys acc ∨ p ∈ document_paths) ∧
    (NoDup (dict_keys acc ++ document_paths) →
     dict_keys results = dict_keys acc ++ document_paths).
Proof.
  revert acc s.
  induction document_paths as [|doc_path rest IH]; intros acc s Hnodup.
  - exists acc. simpl. split_and!; try done.
    + intros p. rewrite elem_of_nil. tauto.
    + by rewrite app_nil_r.
  - cbn [batch_loop]. unfold bind at 1. rewrite batch_one_spec. cbv zeta.
    set (items := match (process_document env settings doc_path false
                           "LAZY" "PAGINATE" s).1 with
                  | Return items => items
                  | Raise _ => []
                  end).
    destruct (IH (dict_set doc_path items acc)
                (process_document env settings doc_path false "LAZY" "PAGINATE" s).2)
      as (results & Hres & Hnd & Hkeys & Horder).
    { by apply dict_set_NoDup. }
    exists results. split_and!; try done.
    + intros p. rewrite Hkeys, dict_set_key_elem_of, elem_of_cons. tauto.
    + intros Hnd'.
      assert (Hnew : doc_path ∉ dict_keys acc).
      { apply NoDup_app in Hnd' as (_ & Hdisj & _).
        intros Hin. apply (Hdisj _ Hin). left. }
      rewrite Horder; rewrite dict_keys_set, decide_False by done;
        by rewrite <- (assoc_L (++)).
Qed.

(** X12.  The agent's [batch_process_documents] never raises: a document
    whose processing raises is recorded with the empty list.  The
    dictionary it returns has exactly the given paths as keys, each once,
    in the order of their first occurrence. *)
Theorem agent_batch_process_documents_keys (s : Sys) (document_paths : list string) :
  (∃ results,
     (batch_process_documents env settings document_paths s).1 = Return results ∧
     NoDup (dict_keys results) ∧
     (∀ p, p ∈ dict_keys results ↔ p ∈ document_paths) ∧
     (NoDup document_paths → dict_keys results = document_paths)) ∧
  (∀ doc_path,
     let processed :=
       process_document env settings doc_path false "LAZY" "PAGINATE" s in
     batch_process_documents env settings [doc_path] s =
     (Return [(doc_path, match processed.1 with
                         | Return items => items
                         | Raise _ => []
                         end)],
      processed.2)).
Proof.
  split.
  - unfold batch_process_documents.
    destruct (agent_batch_loop_spec document_paths [] s)
      as (results & Hres & Hnd & Hkeys & Horder); [constructor|].
    exists results. split_and!; try done.
    intros p. rewrite Hkeys. simpl. rewrite elem_of_nil. tauto.
  - intros doc_path. unfold batch_process_documents. cbn [batch_loop].
    unfold bind. by rewrite batch_one_spec.
Qed.

(** *** Benchmarking *)

Lemma try_except_keeps_registry {A} (body : M A) (handler : exn → M A) (s : Sys) :
  (∀ e, keeps_registry (handler e)) →
  model_manager (try_except body handler s).2 = model_manager (body s).2.
Proof.
  intros Hk. unfold try_except. destruct (body s) as [[a|e] s1]; simpl; [done|].
  apply Hk.
Qed.

Lemma keeps_generate (prompt : string) (kwargs : Kwargs) :
  keeps_registry (generate env prompt kwargs).
Proof.
  unfold generate, call_generate.
  repeat first
    [ progress intros
    | apply keeps_bind
    | apply keeps_try_except
    | apply keeps_ret | apply keeps_raise | apply keeps_call | apply keeps_log
    | apply keeps_get_mm
    | match goal with
      | |- keeps_registry (match ?x with _ => _ end) => destruct x
      end ].
Qed.

Lemma keeps_get_current_provider_info :
  keeps_registry (get_current_provider_info get_model_info).
Proof.
  unfold get_current_provider_info, get_provider_info, get_active_provider_name.
  repeat first
    [ progress intros
    | apply keeps_bind
    | apply keeps_ret | apply keeps_observe | apply keeps_get_mm
    | match goal with
      | |- keeps_registry (if ?b then _ else _) => destruct b
      | |- keeps_registry (match ?x with _ => _ end) => destruct x
      end ].
Qed.

(** One round of the benchmark never raises, records one entry under the
    provider's name, and leaves the registry as [switch_provider] makes
    it. *)
Lemma benchmark_one_spec (test_prompt provider_name : string)
    (acc : dict (BenchmarkEntry T)) (s : Sys) :
  ∃ entry s',
    benchmark_one env settings get_model_info time_time time_sub
      test_prompt provider_name acc s
    = (Return (dict_set provider_name entry acc), s') ∧
    model_manager s' = model_manager (switch_provider provider_name s).2.
Proof.
  assert (Hreg :
    model_manager (benchmark_one env settings get_model_info time_time time_sub
                     test_prompt provider_name acc s).2
    = model_manager (switch_provider provider_name s).2).
  { unfold benchmark_one.
    rewrite try_except_keeps_registry by (intros; apply keeps_ret).
    rewrite bind_keeps_registry.
    - apply switch_model_provider_registry.
    - intros []; simpl; [|apply keeps_ret].
      unfold generate_with_model.
      repeat first
        [ progress intros
        | apply keeps_generate | apply keeps_get_current_provider_info
        | apply keeps_ret | apply keeps_raise | apply keeps_call
        | apply keeps_try_except
        | apply keeps_bind ]. }
  revert Hreg. unfold benchmark_one, try_except, bind.
  destruct (switch_model_provider_spec env settings provider_name s)
    as (b & s1 & -> & _).
  destruct b; simpl; [|by eauto].
  destruct (call time_time s1) as [[t1|e] s2]; [|by eauto].
  destruct (generate_with_model env test_prompt [("max_tokens", "100")] s2)
    as [[response|e] s3]; [|by eauto].
  destruct (call time_time s3) as [[t2|e] s4]; [|by eauto].
  destruct (get_current_provider_info get_model_info s4) as [[info|e] s5];
    by eauto.
Qed.

Lemma benchmark_loop_spec (test_prompt : string) (names : list string)
    (acc : dict (BenchmarkEntry T)) (s : Sys) :
  ∃ results s',
    benchmark_loop env settings get_model_info time_time time_sub
      test_prompt names acc s = (Return results, s') ∧
    (names = [] → s' = s) ∧
    providers (model_manager s') = providers (model_manager s) ∧
    fallback_provider (model_manager s') = fallback_provider (model_manager s) ∧
    (NoDup (dict_keys acc ++ names) → dict_keys results = dict_keys acc ++ names).
Proof.
  revert acc s. induction names as [|name rest IH]; intros acc s.
  - exists acc, s. simpl. split_and!; try done. by rewrite app_nil_r.
  - cbn [benchmark_loop].
    destruct (benchmark_one_spec test_prompt name acc s) as (entry & s1 & Hone & Hreg).
    rewrite (bind_return _ _ _ _ _ Hone).
    destruct (IH (dict_set name entry acc) s1) as (results & s2 & -> & _ & Hp & Hf & Hk).
    pose proof (switch_provider_cases s name) as Hsw.
    assert (Hsame : providers (model_manager s1) = providers (model_manager s)
                    ∧ fallback_provider (model_manager s1)
                      = fallback_provider (model_manager s)).
    { rewrite Hreg. destruct (dict_get name (providers (model_manager s))).
      - by destruct Hsw as (_ & _ & -> & ->).
      - by rewrite Hsw. }
    destruct Hsame as [Hp1 Hf1].
    exists results, s2. split_and!; try done; try congruence.
    intros Hnd.
    assert (Hnew : name ∉ dict_keys acc).
    { apply NoDup_app in Hnd as (_ & Hdisj & _).
      intros Hin. apply (Hdisj _ Hin). left. }
    rewrite Hk; rewrite dict_keys_set, decide_False by done;
      by rewrite <- (assoc_L (++)).
Qed.

(** X13.  On a registry that satisfies the registry invariant,
    [benchmark_providers] never raises, returns one entry for each
    registered provider, in registration order, and leaves the registry
    (the active provider included) as it found it. *)
Theorem benchmark_providers_restores (s : Sys) (test_prompt : string) :
  registry_ok (model_manager s) →
  ∃ results s',
    benchmark_providers env settings get_model_info time_time time_sub
      test_prompt s = (Return results, s') ∧
    dict_keys results = dict_keys (providers (model_manager s)) ∧
    model_manager s' = model_manager s.
Proof.
  intros (Hnodup & Hne & Hact).
  unfold benchmark_providers, get_active_provider_name, get_available_providers.
  unfold bind at 1 2 3 4. unfold get_mm at 1 2. unfold ret at 1 2. cbv beta iota.
  destruct (benchmark_loop_spec test_prompt (dict_keys (providers (model_manager s))) [] s)
    as (results & s1 & Hloop & Hempty & Hp & Hf & Hkeys).
  rewrite (bind_return _ _ _ _ _ Hloop).
  specialize (Hkeys Hnodup). simpl in Hkeys.
  destruct (active_provider (model_manager s)) as [a|] eqn:Ha.
  - destruct Hact as [name Hin]. apply name_of_elem_of in Hin as [o Ho].
    rewrite Ho.
    assert (Htruthy : truthy (Some o) = true).
    { simpl. apply bool_decide_eq_true. intros ->.
      apply Hne. by eapply name_of_key. }
    rewrite Htruthy. change (default "" (Some o)) with o.
    apply dict_get_name_of in Ho; [|done].
    destruct (switch_model_provider_spec env settings o s1) as (b & s2 & Hsw & _ & Hreg).
    rewrite (bind_return _ _ _ _ _ (bind_return _ (λ _, ret ()) _ _ _ Hsw)).
    exists results, s2. split_and!; try done.
    pose proof (switch_provider_cases s1 o) as Hout.
    rewrite Hp, Ho in Hout. destruct Hout as (_ & Ha2 & Hp2 & Hf2).
    apply registry_eq; rewrite Hreg; congruence.
  - rewrite name_of_None. simpl.
    exists results, s1. split_and!; try done.
    rewrite Hact in Hempty. by rewrite Hempty.
Qed.

End AgentMore.

(** ** More on the registry *)

Section RegistryMoreProperties.
Context {W P : Type} `{EqDecision P}.
Context (env : Env W P) (settings : Settings).
Context (get_model_info : P → W → dict string).

Local Abbreviation Sys := (Sys W P).
Local Abbreviation Mgr := (UnifiedModelManager P).

(** *** The fallback reference *)

Lemma choices_fallback (primary fallback : string) (m : Mgr) :
  fallback_provider m = None →
  fallback_provider (choose_any (choose_fallback primary fallback (choose_primary primary m)))
  = if decide (fallback ≠ primary) then dict_get fallback (providers m) else None.
Proof.
  intros Hnone. unfold choose_any, choose_fallback, choose_primary.
  destruct m as [d act fb]; simpl in *; subst fb.
  repeat (case_match; simpl in *; simplify_eq; try done).
Qed.

Lemma generate_retry (s : Sys) (prompt : string) (kwargs : Kwargs)
    (a fb : P) (e : exn) (w : W) :
  active_provider (model_manager s) = Some a →
  fallback_provider (model_manager s) = Some fb →
  provider_generate env a prompt kwargs (world s) = (Raise e, w) →
  (generate env prompt kwargs s).1 = (provider_generate env fb prompt kwargs w).1 ∧
  calls (generate env prompt kwargs s).2
  = calls s ++ [CallGenerate a prompt kwargs; CallGenerate fb prompt kwargs].
Proof.
  intros Ha Hf Hgen. destruct s as [w0 m ag c]. simpl in *.
  unfold generate, call_generate. unfold_monad. simpl.
  rewrite Ha. simpl. rewrite Hgen. simpl. rewrite Hf. simpl.
  destruct (provider_generate env fb prompt kwargs w) as [[text|e2] w2]; simpl;
    by rewrite <- (assoc_L (++)).
Qed.

Lemma init_fallback_reference (s : Sys) :
  let ollama := discovered env "ollama" (new_OllamaProvider env) (world s) in
  let hf := discovered env "huggingface" (new_HuggingFaceProvider env) ollama.2 in
  fallback_provider (model_manager (UnifiedModelManager__init__ env settings s).2) =
    if decide (FALLBACK_PROVIDER settings ≠ MODEL_PROVIDER settings)
    then dict_get (FALLBACK_PROVIDER settings) (ollama.1 ++ hf.1) else None.
Proof.
  intros ollama hf. rewrite init_spec. simpl. by rewrite choices_fallback.
Qed.

(** X14.  After construction the fallback reference is the provider
    registered under [FALLBACK_PROVIDER], provided that name differs from
    [MODEL_PROVIDER]; otherwise it is unset.  When the primary is not
    available and the configured fallback is the first available provider,
    the active provider and the fallback are the same object, so that a
    failed [generate] is retried on the provider that has just failed. *)
Theorem init_fallback_policy (s : Sys) :
  let ollama := discovered env "ollama" (new_OllamaProvider env) (world s) in
  let hf := discovered env "huggingface" (new_HuggingFaceProvider env) ollama.2 in
  let available := ollama.1 ++ hf.1 in
  let m := model_manager (UnifiedModelManager__init__ env settings s).2 in
  fallback_provider m =
    (if decide (FALLBACK_PROVIDER settings ≠ MODEL_PROVIDER settings)
     then dict_get (FALLBACK_PROVIDER settings) available else None) ∧
  (∀ f rest,
     FALLBACK_PROVIDER settings ≠ MODEL_PROVIDER settings →
     dict_get (MODEL_PROVIDER settings) available = None →
     available = (FALLBACK_PROVIDER settings, f) :: rest →
     active_provider m = Some f ∧ fallback_provider m = Some f ∧
     ∀ (s' : Sys) prompt kwargs e w,
       model_manager s' = m →
       provider_generate env f prompt kwargs (world s') = (Raise e, w) →
       calls (generate env prompt kwargs s').2
       = calls s' ++ [CallGenerate f prompt kwargs; CallGenerate f prompt kwargs]).
Proof.
  intros ollama hf available m.
  assert (Hf : fallback_provider m =
            if decide (FALLBACK_PROVIDER settings ≠ MODEL_PROVIDER settings)
            then dict_get (FALLBACK_PROVIDER settings) available else None).
  { exact (init_fallback_reference s). }
  assert (Ha : active_provider m =
            match dict_get (MODEL_PROVIDER settings) available with
            | Some p => Some p
            | None => match available with
                      | (_, p) :: _ => Some p
                      | [] => None
                      end
            end).
  { subst m. rewrite init_spec. simpl. by rewrite choices_active. }
  split; [done|].
  intros f rest Hne Hprimary Havail.
  assert (Hactive : active_provider m = Some f).
  { rewrite Ha, Hprimary. by rewrite Havail. }
  assert (Hfallback : fallback_provider m = Some f).
  { rewrite Hf, decide_True by done. rewrite Havail. simpl.
    by rewrite decide_True. }
  split_and!; try done.
  intros s' prompt kwargs e w Hm Hgen.
  eapply generate_retry; [by rewrite Hm | by rewrite Hm | exact Hgen].
Qed.

(** *** The registries a process can reach *)

(** X15.  Every registry a process can reach (built by the constructor,
    then switched any number of times) satisfies the registry invariant;
    its providers are registered under the names ["ollama"] and
    ["huggingface"], in this order; and its fallback reference, if set, is
    the provider registered under [FALLBACK_PROVIDER], which differs from
    [MODEL_PROVIDER]. *)
Theorem reachable_registry_invariant (m : Mgr) :
  reachable env settings m →
  registry_ok m ∧
  dict_keys (providers m) `sublist_of` ["ollama"; "huggingface"] ∧
  (∀ f, fallback_provider m = Some f →
        FALLBACK_PROVIDER settings ≠ MODEL_PROVIDER settings ∧
        dict_get (FALLBACK_PROVIDER settings) (providers m) = Some f).
Proof.
  induction 1 as [s|s name Hreach (Hok & Hkeys & Hfb)].
  - split; [apply init_registry_ok|].
    pose proof (init_fallback_reference s) as Hf. simpl in Hf.
    rewrite Hf. clear Hf. rewrite init_spec. simpl.
    rewrite choices_keep_providers. simpl.
    set (w1 := (discovered env "ollama" (new_OllamaProvider env) (world s)).2).
    split.
    + destruct (discovered_cases env "ollama" (new_OllamaProvider env) (world s))
        as [->|[p ->]];
      destruct (discovered_cases env "huggingface" (new_HuggingFaceProvider env) w1)
        as [->|[q ->]]; simpl.
      * apply sublist_nil_l.
      * apply sublist_cons_r. left. by apply sublist_skip.
      * apply sublist_skip, sublist_nil_l.
      * done.
    + intros f. case_decide; [done|]. done.
  - pose proof (switch_provider_cases s name) as Hsw.
    destruct (dict_get name (providers (model_manager s))) as [p|] eqn:Hget.
    + destruct Hsw as (_ & Ha & Hp & Hf).
      destruct Hok as (Hnodup & Hne & Hact).
      unfold registry_ok. rewrite Ha, Hp, Hf. split_and!; try done.
      exists name. by apply dict_get_elem_of.
    + by rewrite Hsw.
Qed.

(** *** Names and providers *)

(** X16.  After a successful [switch_provider], [get_active_provider_name]
    returns a name under which the provider switched to is registered; it
    is the name that was given if no provider is registered under two
    names. *)
Theorem switch_provider_then_name (s : Sys) (provider_name : string) (p : P) :
  NoDup (dict_keys (providers (model_manager s))) →
  dict_get provider_name (providers (model_manager s)) = Some p →
  let s' := (switch_provider provider_name s).2 in
  ∃ name,
    get_active_provider_name s' = (Return (Some name), s') ∧
    dict_get name (providers (model_manager s)) = Some p ∧
    (NoDup (providers (model_manager s)).*2 → name = provider_name).
Proof.
  intros Hnodup Hget s'. subst s'.
  pose proof (switch_provider_cases s provider_name) as Hsw. rewrite Hget in Hsw.
  destruct Hsw as (_ & Ha & Hp & _).
  unfold get_active_provider_name. unfold_monad. simpl. rewrite Ha, Hp.
  destruct (name_of_elem_of _ _ _ (dict_get_elem_of _ _ _ Hget)) as [name Hname].
  exists name. rewrite Hname. split; [done|].
  pose proof (dict_get_name_of _ _ _ Hnodup Hname) as Hback. split; [done|].
  intros Hvalues.
  apply dict_get_elem_of in Hget, Hback.
  apply list_elem_of_lookup in Hget as [i Hi], Hback as [j Hj].
  assert (i = j); [|by simplify_eq].
  eapply NoDup_lookup; [exact Hvalues| |].
  - by rewrite list_lookup_fmap, Hi.
  - by rewrite list_lookup_fmap, Hj.
Qed.

(** X17.  On a registry that satisfies the registry invariant,
    [get_active_provider_name] returns [None] exactly when
    [get_available_providers] returns the empty list; otherwise it returns
    one of the names [get_available_providers] lists. *)
Theorem active_provider_name_none_iff_empty (s : Sys) :
  registry_ok (model_manager s) →
  ((get_active_provider_name s).1 = Return None ↔
   (get_available_providers s).1 = Return []) ∧
  (∀ name names,
     (get_active_provider_name s).1 = Return (Some name) →
     (get_available_providers s).1 = Return names →
     name ∈ names).
Proof.
  intros (Hnodup & Hne & Hact).
  unfold get_active_provider_name, get_available_providers. unfold_monad. simpl.
  split.
  - destruct (active_provider (model_manager s)) as [a|] eqn:Ha.
    + destruct Hact as [name Hin].
      pose proof (name_of_elem_of _ _ _ Hin) as [o Ho]. rewrite Ho.
      split; [done|]. intros Hnil. injection Hnil as Hnil.
      apply (list_elem_of_fmap_2 fst) in Hin. unfold dict_keys in Hnil.
      rewrite Hnil in Hin. by apply elem_of_nil in Hin.
    + rewrite name_of_None, Hact. done.
  - intros name names Hname Hnames. injection Hname as Hname.
    injection Hnames as <-. by eapply name_of_key.
Qed.

(** *** Information about providers *)

Lemma collect_info_spec (items : dict P) (acc : dict (dict string)) (w : W) :
  NoDup (dict_keys acc ++ dict_keys items) →
  collect_info get_model_info items acc w =
  acc ++ ((λ np, (np.1, get_model_info np.2 w)) <$> items).
Proof.
  revert acc. induction items as [|[name p] items IH]; intros acc Hnodup.
  - by rewrite app_nil_r.
  - cbn [collect_info]. rewrite dict_keys_cons in Hnodup.
    assert (Hnew : name ∉ dict_keys acc).
    { apply NoDup_app in Hnodup as (_ & Hdisj & _).
      intros Hin. apply (Hdisj _ Hin). left. }
    rewrite dict_set_new by done. rewrite IH.
    + by rewrite <- (assoc_L (++)).
    + unfold dict_keys in *. rewrite fmap_app. simpl.
      by rewrite <- (assoc_L (++)).
Qed.

(** X18.  [get_provider_info] without a name returns the dictionary that
    gives, for each registered name in registration order, the
    [get_model_info()] record of the provider registered under it, read in
    the world of the call, and changes nothing.  Asking for one non-empty
    name gives the record of the provider registered under it, which is
    the entry of that name in this dictionary, or the [not_available]
    record if there is none.  Asking for the empty name is asking without
    a name. *)
Theorem get_provider_info_consistent (s : Sys) :
  NoDup (dict_keys (providers (model_manager s))) →
  let infos :=
    (λ entry, (entry.1, get_model_info entry.2 (world s)))
      <$> providers (model_manager s) in
  get_provider_info get_model_info None s = (Return (InfoAll infos), s) ∧
  get_provider_info get_model_info (Some "") s = (Return (InfoAll infos), s) ∧
  (∀ name, name ≠ "" →
     get_provider_info get_model_info (Some name) s =
     (Return (InfoOf
        match dict_get name (providers (model_manager s)) with
        | Some provider => get_model_info provider (world s)
        | None => [("status", "not_available"); ("provider", name)]
        end), s) ∧
     get_provider_info get_model_info (Some name) s =
     (Return (InfoOf (default [("status", "not_available"); ("provider", name)]
                        (dict_get name infos))), s)).
Proof.
  intros Hnodup infos. subst infos.
  unfold get_provider_info. unfold_monad. simpl.
  rewrite collect_info_spec by done. simpl. split_and!; try done.
  intros name Hname. rewrite bool_decide_eq_true_2 by done.
  rewrite (dict_get_fmap (λ p, get_model_info p (world s))).
  by destruct (dict_get name (providers (model_manager s))).
Qed.

End RegistryMoreProperties.

(** ** The provider classes *)

Section OllamaProperties.
Context {W C : Type} (backend : @OllamaProvider.Backend W C).

Import OllamaProvider.

(** When every listed model has a name, the availability test and the
    search of [get_model_info] agree. *)
Lemma find_model_available (self : @t C) (models : list (dict string))
    (names : list string) :
  model_names models = Some names →
  existsb (contains (model_name self)) names = true ↔
  ∃ info, find_model self models = Return info
          ∧ dict_get "status" info = Some "available".
Proof.
  revert names. induction models as [|model rest IH]; intros names; simpl.
  - intros [= <-]. simpl. split; [done|]. by intros (info & [= <-] & ?).
  - destruct (dict_get "name" model) as [name|]; [|done].
    destruct (model_names rest) as [names'|]; [|done].
    intros [= <-]. simpl.
    destruct (contains (model_name self) name); simpl.
    + split; [|done]. intros _. by eexists.
    + by apply IH.
Qed.

(** What [find_model] finds is found by the availability test, if that
    test gets through the list. *)
Lemma find_model_status (self : @t C) (models : list (dict string)) (info : dict string) :
  find_model self models = Return info →
  dict_get "status" info = Some "available" ∨
  dict_get "status" info = Some "model_not_found".
Proof.
  induction models as [|model rest IH]; simpl.
  - intros [= <-]. by right.
  - destruct (dict_get "name" model) as [name|]; [|done].
    destruct (contains (model_name self) name); [|done].
    intros [= <-]. by left.
Qed.

(** X19.  An Ollama provider that reports itself available is reported
    as [available] by [get_model_info] in the same world.  The converse
    holds when every model the server lists has a name; [get_model_info]
    stops at the first match, [is_available] reads the whole list
    first. *)
Theorem ollama_available_then_info_available (self : @t C) (w : W) :
  (is_available backend self w = true →
   dict_get "status" (get_model_info backend self w) = Some "available") ∧
  (∀ c models names,
     client self = Some c →
     client_list backend c w = Return models →
     model_names (default [] models) = Some names →
     dict_get "status" (get_model_info backend self w) = Some "available" →
     is_available backend self w = true).
Proof.
  unfold is_available, get_model_info. split.
  - destruct (client self) as [c|]; [|done].
    destruct (client_list backend c w) as [models|e]; [|done].
    destruct (model_names (default [] models)) as [names|] eqn:Hnames; [|done].
    intros Hex. apply (find_model_available self _ _ Hnames) in Hex
      as (info & -> & Hstatus). done.
  - intros c models names -> -> Hnames Hstatus. rewrite Hnames.
    apply (find_model_available self _ _ Hnames).
    destruct (find_model self (default [] models)) as [info|e];
      [by exists info | by vm_compute in Hstatus].
Qed.

End OllamaProperties.

Section HuggingFaceProperties.
Context {W Q Mo Pi : Type} (backend : @HuggingFaceProvider.Backend W Q Mo Pi).
Context (HF_MODEL_NAME HF_DEVICE : string) (USE_QUANTIZATION : bool).

Import HuggingFaceProvider.

Lemma with_pad_token_set (tok : Tokenizer) :
  pad_token (with_pad_token tok) = None → eos_token (with_pad_token tok) = None.
Proof.
  unfold with_pad_token. destruct (pad_token tok) eqn:Hpad; simpl; [congruence|done].
Qed.

(** [_initialize] ends in the [except] branch or with all three loaded. *)
Lemma initialize_cases (self : @t Mo Pi) (w : W) :
  (_initialize backend USE_QUANTIZATION self w).1 = unloaded self ∨
  ∃ tok mo pi,
    (_initialize backend USE_QUANTIZATION self w).1 =
    {| model_name := model_name self; device := device self;
       tokenizer := Some (with_pad_token tok); model := Some mo;
       pipeline := Some pi |}.
Proof.
  unfold _initialize.
  repeat (case_match; simplify_eq; simpl; try (by left)); right; by eauto.
Qed.

(** X20.  A Hugging Face provider is constructed all or nothing: the
    tokenizer, the model and the pipeline are all loaded or all unset.  So
    the provider reports itself available exactly when it has a pipeline,
    and it is not available exactly when [get_model_info] reports
    [unavailable].  For an available provider [get_model_info] is the
    record with status [available], naming the model, its device and its
    type, if both can be read from the model, and the [error] record with
    the message of the exception otherwise.  An available provider's
    [generate] reaches the pipeline, called with the tokenizer's
    end-of-sequence id, and returns the stripped text of its first answer;
    and a loaded tokenizer lacks a padding token only if it lacks an
    end-of-sequence token. *)
Theorem huggingface_loaded_all_or_nothing (name_given device_given : option string)
    (w : W) :
  let self := (__init__ backend HF_MODEL_NAME HF_DEVICE USE_QUANTIZATION
                 name_given device_given w).1 in
  let info := get_model_info backend USE_QUANTIZATION self in
  ((tokenizer self = None ∧ model self = None ∧ pipeline self = None) ∨
   (is_Some (tokenizer self) ∧ is_Some (model self) ∧ is_Some (pipeline self))) ∧
  (is_available self = true ↔ is_Some (pipeline self)) ∧
  (is_available self = false ↔ dict_get "status" info = Some "unavailable") ∧
  (is_available self = true →
   ∃ mo, model self = Some mo ∧
     info =
     match model_device backend mo, model_dtype backend mo with
     | Return model_device, Return model_dtype =>
         [("provider", "huggingface");
          ("name", model_name self);
          ("device", default (device self) model_device);
          ("dtype", default "unknown" model_dtype);
          ("quantized", if USE_QUANTIZATION then "True" else "False");
          ("status", "available")]
     | Return _, Raise e => [("status", "error"); ("error", exn_msg e)]
     | Raise e, _ => [("status", "error"); ("error", exn_msg e)]
     end) ∧
  (is_available self = true →
   ∃ pi tok,
     pipeline self = Some pi ∧ tokenizer self = Some tok ∧
     ∀ prompt kwargs w' options output rest text w'',
       options = [("max_new_tokens", kwargs_get "max_tokens" "2048" kwargs);
                  ("temperature", kwargs_get "temperature" "0.7" kwargs);
                  ("top_p", kwargs_get "top_p" "0.9" kwargs);
                  ("do_sample", "True");
                  ("return_full_text", "False")] →
       run_pipeline backend pi prompt options (eos_token_id tok) w'
       = (Return (output :: rest), w'') →
       dict_get "generated_text" output = Some text →
       generate backend self prompt kwargs w' = (Return (strip backend text), w'')) ∧
  (∀ tok, tokenizer self = Some tok → pad_token tok = None → eos_token tok = None).
Proof.
  cbv zeta. unfold __init__.
  match goal with
  | |- context [_initialize _ _ ?self0 w] =>
      destruct (initialize_cases self0 w) as [->|(tok & mo & pi & ->)]
  end; unfold is_available, get_model_info, generate; simpl.
  - split_and!; try done. by left.
  - split_and!.
    + right. by eauto.
    + split; [by eauto | done].
    + split; [done|].
      destruct (model_device backend mo) as [?|?]; [|done].
      by destruct (model_dtype backend mo).
    + intros _. exists mo. split; [done|].
      destruct (model_device backend mo) as [?|?]; [|done].
      by destruct (model_dtype backend mo).
    + intros _. exists pi, (with_pad_token tok). split_and!; try done.
      intros prompt kwargs w' options output rest text w'' -> Hrun Htext.
      by rewrite Hrun, Htext.
    + intros tok' [= <-]. apply with_pad_token_set.
Qed.

End HuggingFaceProperties.

(** ** Worked examples for the workflow, the agent and the providers *)

(** With the default settings the flag is not read. *)
Lemma process_document_ignores_vision_at_low_context_witness :
  let s := Concrete.started default_settings Concrete.all_up in
  (MAX_CONTEXT_TOKENS default_settings ≤ 8192)%Z ∧
  DocumentIntelligenceWorkflow.process_document
    Concrete.env default_settings "invoice.txt" true true s =
  DocumentIntelligenceWorkflow.process_document
    Concrete.env default_settings "invoice.txt" false true s.
Proof.
  intros s. split; [apply Z.le_refl|].
  exact (process_document_ignores_vision_at_low_context Concrete.env
           default_settings s "invoice.txt" true (Z.le_refl 8192)).
Defined.

(** [invoice.txt] exists and is extracted while Ollama is up. *)
Lemma process_document_completed_witness :
  let s := Concrete.started default_settings Concrete.all_up in
  "invoice.txt" ≠ "" ∧
  os_path_exists Concrete.env "invoice.txt" (world s) = true ∧
  DocumentIntelligenceAgent.validate_document "invoice.txt" = true ∧
  (DocumentIntelligenceWorkflow.process_document
     Concrete.env default_settings "invoice.txt" true true s).1 =
  Return (Some
    {| r_status := "completed";
       r_document_path := "invoice.txt";
       r_document_type := "Invoice";
       r_extracted_data := [DictData [("invoice_number", "123")]];
       r_error_message := "";
       r_messages :=
         ["Process document: invoice.txt";
          "Document validated successfully: invoice.txt";
          "Document classified as: Invoice";
          "Document processed successfully using pagination (limited context). Extracted 1 data items."] |}).
Proof.
  intros s.
  assert (Hpath : "invoice.txt" ≠ "") by discriminate.
  split; [exact Hpath|]. split; [reflexivity|]. split; [reflexivity|].
  exact (process_document_completed Concrete.env default_settings s
           "invoice.txt" true true [ContractItem [("invoice_number", "123")]]
           Hpath eq_refl eq_refl eq_refl).
Defined.

(** The same file while Ollama is down. *)
Lemma process_document_extraction_failed_witness :
  let s := Concrete.started default_settings Concrete.ollama_down in
  "invoice.txt" ≠ "" ∧
  os_path_exists Concrete.env "invoice.txt" (world s) = true ∧
  DocumentIntelligenceAgent.validate_document "invoice.txt" = true ∧
  (DocumentIntelligenceWorkflow.process_document
     Concrete.env default_settings "invoice.txt" true true s).1 =
  Return (Some
    {| r_status := "error";
       r_document_path := "invoice.txt";
       r_document_type := "Invoice";
       r_extracted_data := [];
       r_error_message := "Processing failed: ollama is down";
       r_messages :=
         ["Process document: invoice.txt";
          "Document validated successfully: invoice.txt";
          "Document classified as: Invoice";
          "Error: Processing failed: ollama is down"] |}).
Proof.
  intros s.
  assert (Hpath : "invoice.txt" ≠ "") by discriminate.
  split; [exact Hpath|]. split; [reflexivity|]. split; [reflexivity|].
  exact (process_document_extraction_failed Concrete.env default_settings s
           "invoice.txt" true true (Exception "ConnectionError" "ollama is down")
           Hpath eq_refl eq_refl eq_refl).
Defined.

(** Two distinct paths. *)
Lemma batch_process_documents_results_witness :
  let s := Concrete.started default_settings Concrete.all_up in
  NoDup ["invoice.txt"; "notes.xyz"] ∧
  ∃ results,
    (WorkflowMethods.batch_process_documents Concrete.env default_settings
       ["invoice.txt"; "notes.xyz"] false true s).1 = Return results ∧
    dict_keys results = ["invoice.txt"; "notes.xyz"].
Proof.
  intros s.
  assert (Hnd : NoDup ["invoice.txt"; "notes.xyz"])
    by (apply (bool_decide_unpack _); reflexivity).
  split; [exact Hnd|].
  destruct (batch_process_documents_results Concrete.env default_settings s
              ["invoice.txt"; "notes.xyz"] false true)
    as (results & Hres & _ & _ & Hkeys & _).
  exists results. split; [exact Hres | exact (Hkeys Hnd)].
Defined.

(** [openai] is not registered. *)
Lemma process_document_with_provider_unknown_witness :
  let s := Concrete.started default_settings Concrete.all_up in
  let r := DocumentIntelligenceAgent.process_document_with_provider
             Concrete.env default_settings "invoice.txt" (Some "openai")
             false "LAZY" "PAGINATE" s in
  "openai" ≠ "" ∧
  dict_get "openai" (providers (model_manager s)) = None ∧
  r.1 = Raise (ValueError "Cannot switch to provider: openai") ∧
  calls r.2 = calls s.
Proof.
  intros s r.
  assert (Hname : "openai" ≠ "") by discriminate.
  split; [exact Hname|]. split; [reflexivity|].
  exact (process_document_with_provider_unknown Concrete.env default_settings s
           "invoice.txt" "openai" false "LAZY" "PAGINATE" Hname eq_refl).
Defined.

(** [ollama] is active already. *)
Lemma process_document_with_provider_no_switch_witness :
  let s := Concrete.started default_settings Concrete.all_up in
  Some "ollama" = name_of (providers (model_manager s))
                    (active_provider (model_manager s)) ∧
  DocumentIntelligenceAgent.process_document_with_provider
    Concrete.env default_settings "invoice.txt" (Some "ollama")
    false "LAZY" "PAGINATE" s =
  DocumentIntelligenceAgent.process_document
    Concrete.env default_settings "invoice.txt" false "LAZY" "PAGINATE" s.
Proof.
  intros s. split; [reflexivity|].
  exact (process_document_with_provider_no_switch Concrete.env default_settings
           s "invoice.txt" (Some "ollama") false "LAZY" "PAGINATE"
           (or_intror (or_intror eq_refl))).
Defined.

(** The registry of a started process. *)
Lemma get_current_provider_info_active_witness :
  let s := Concrete.started default_settings Concrete.all_up in
  registry_ok (model_manager s) ∧
  AgentMethods.get_current_provider_info ConcreteMore.get_model_info s =
  (Return (InfoOf [("provider", "ollama"); ("status", "available")]), s).
Proof.
  intros s.
  assert (Hok : registry_ok (model_manager s)).
  { exact (init_registry_ok Concrete.env default_settings
             (Concrete.boot Concrete.all_up)). }
  split; [exact Hok|].
  exact (get_current_provider_info_active ConcreteMore.get_model_info s Hok).
Defined.

(** Both providers are benchmarked and [ollama] is active again. *)
Lemma benchmark_providers_restores_witness :
  let s := Concrete.started default_settings Concrete.all_up in
  registry_ok (model_manager s) ∧
  ∃ results s',
    AgentMethods.benchmark_providers Concrete.env default_settings
      ConcreteMore.get_model_info ConcreteMore.time_time ConcreteMore.time_sub
      "Hello, how are you?" s = (Return results, s') ∧
    dict_keys results = ["ollama"; "huggingface"] ∧
    model_manager s' = model_manager s.
Proof.
  intros s.
  assert (Hok : registry_ok (model_manager s)).
  { exact (init_registry_ok Concrete.env default_settings
             (Concrete.boot Concrete.all_up)). }
  split; [exact Hok|].
  exact (benchmark_providers_restores Concrete.env default_settings
           ConcreteMore.get_model_info ConcreteMore.time_time
           ConcreteMore.time_sub s "Hello, how are you?" Hok).
Defined.

(** Two distinct paths given to the agent. *)
Lemma agent_batch_process_documents_keys_witness :
  let s := Concrete.started default_settings Concrete.all_up in
  NoDup ["invoice.txt"; "notes.xyz"] ∧
  ∃ results,
    (AgentMethods.batch_process_documents Concrete.env default_settings
       ["invoice.txt"; "notes.xyz"] s).1 = Return results ∧
    dict_keys results = ["invoice.txt"; "notes.xyz"].
Proof.
  intros s.
  assert (Hnd : NoDup ["invoice.txt"; "notes.xyz"])
    by (apply (bool_decide_unpack _); reflexivity).
  split; [exact Hnd|].
  destruct (agent_batch_process_documents_keys Concrete.env default_settings s
              ["invoice.txt"; "notes.xyz"])
    as [(results & Hres & _ & _ & Hkeys) _].
  exists results. split; [exact Hres | exact (Hkeys Hnd)].
Defined.

(** Ollama is down at start-up, so Hugging Face is active and is its own
    fallback; when it fails later, it is called twice. *)
Lemma init_fallback_policy_witness :
  let s := Concrete.boot Concrete.ollama_down in
  let m := model_manager (UnifiedModelManager__init__ Concrete.env default_settings s).2 in
  let s' := Concrete.world_becomes Concrete.all_down
              (Concrete.started default_settings Concrete.ollama_down) in
  FALLBACK_PROVIDER default_settings ≠ MODEL_PROVIDER default_settings ∧
  model_manager s' = m ∧
  provider_generate Concrete.env 1 "hi" [] (world s') =
    (Raise (Exception "ConnectionError" "huggingface is down"), Concrete.all_down) ∧
  active_provider m = Some 1 ∧ fallback_provider m = Some 1 ∧
  calls (generate Concrete.env "hi" [] s').2 =
  calls s' ++ [CallGenerate 1 "hi" []; CallGenerate 1 "hi" []].
Proof.
  intros s m s'.
  assert (Hne : FALLBACK_PROVIDER default_settings ≠ MODEL_PROVIDER default_settings)
    by discriminate.
  destruct (proj2 (init_fallback_policy Concrete.env default_settings s)
              1 [] Hne eq_refl eq_refl) as (Hactive & Hfallback & Hretry).
  split; [exact Hne|]. split; [reflexivity|]. split; [reflexivity|].
  split; [exact Hactive|]. split; [exact Hfallback|].
  exact (Hretry s' "hi" [] (Exception "ConnectionError" "huggingface is down")
           Concrete.all_down eq_refl eq_refl).
Defined.

(** The registry of a started process after two switches. *)
Lemma reachable_registry_invariant_witness :
  let s := Concrete.started default_settings Concrete.all_up in
  let m := model_manager
             (switch_provider "ollama" (switch_provider "huggingface" s).2).2 in
  reachable Concrete.env default_settings m ∧
  registry_ok m ∧
  dict_keys (providers m) `sublist_of` ["ollama"; "huggingface"] ∧
  (∀ f, fallback_provider m = Some f →
        FALLBACK_PROVIDER default_settings ≠ MODEL_PROVIDER default_settings ∧
        dict_get (FALLBACK_PROVIDER default_settings) (providers m) = Some f).
Proof.
  intros s m.
  assert (Hreach : reachable Concrete.env default_settings m).
  { apply reachable_switch, reachable_switch.
    exact (reachable_init Concrete.env default_settings
             (Concrete.boot Concrete.all_up)). }
  split; [exact Hreach|].
  exact (reachable_registry_invariant Concrete.env default_settings m Hreach).
Defined.

(** Switching a started process to [huggingface]. *)
Lemma switch_provider_then_name_witness :
  let s := Concrete.started default_settings Concrete.all_up in
  let s' := (switch_provider "huggingface" s).2 in
  NoDup (dict_keys (providers (model_manager s))) ∧
  dict_get "huggingface" (providers (model_manager s)) = Some 1 ∧
  NoDup (providers (model_manager s)).*2 ∧
  get_active_provider_name s' = (Return (Some "huggingface"), s').
Proof.
  intros s s'.
  assert (Hkeys : NoDup (dict_keys (providers (model_manager s))))
    by (apply (bool_decide_unpack _); reflexivity).
  assert (Hvalues : NoDup (providers (model_manager s)).*2)
    by (apply (bool_decide_unpack _); reflexivity).
  split; [exact Hkeys|]. split; [reflexivity|]. split; [exact Hvalues|].
  destruct (switch_provider_then_name s "huggingface" 1 Hkeys eq_refl)
    as (name & Hname & _ & Hsame).
  rewrite <- (Hsame Hvalues). exact Hname.
Defined.

(** No provider came up: no active name and no available provider. *)
Lemma active_provider_name_none_iff_empty_witness :
  let s := Concrete.started default_settings Concrete.all_down in
  registry_ok (model_manager s) ∧
  (get_active_provider_name s).1 = Return None ∧
  (get_available_providers s).1 = Return [].
Proof.
  intros s.
  assert (Hok : registry_ok (model_manager s)).
  { exact (init_registry_ok Concrete.env default_settings
             (Concrete.boot Concrete.all_down)). }
  split; [exact Hok|]. split; [reflexivity|].
  exact (proj1 (proj1 (active_provider_name_none_iff_empty s Hok)) eq_refl).
Defined.

(** The information of a started process: for all providers, for
    [huggingface] and for [openai]. *)
Lemma get_provider_info_consistent_witness :
  let s := Concrete.started default_settings Concrete.all_up in
  NoDup (dict_keys (providers (model_manager s))) ∧
  "huggingface" ≠ "" ∧ "openai" ≠ "" ∧
  get_provider_info ConcreteMore.get_model_info None s =
  (Return (InfoAll
     [("ollama", [("provider", "ollama"); ("status", "available")]);
      ("huggingface", [("provider", "huggingface"); ("status", "available")])]), s) ∧
  get_provider_info ConcreteMore.get_model_info (Some "huggingface") s =
  (Return (InfoOf [("provider", "huggingface"); ("status", "available")]), s) ∧
  get_provider_info ConcreteMore.get_model_info (Some "openai") s =
  (Return (InfoOf [("status", "not_available"); ("provider", "openai")]), s).
Proof.
  intros s.
  assert (Hkeys : NoDup (dict_keys (providers (model_manager s))))
    by (apply (bool_decide_unpack _); reflexivity).
  assert (Hhf : "huggingface" ≠ "") by discriminate.
  assert (Hopenai : "openai" ≠ "") by discriminate.
  split; [exact Hkeys|]. split; [exact Hhf|]. split; [exact Hopenai|].
  destruct (get_provider_info_consistent ConcreteMore.get_model_info s Hkeys)
    as (Hall & _ & Hone).
  split; [exact Hall|].
  split; [exact (proj1 (Hone "huggingface" Hhf)) | exact (proj1 (Hone "openai" Hopenai))].
Defined.

(** [phi4] is served as [phi4:latest]. *)
Lemma ollama_available_then_info_available_witness :
  OllamaProvider.is_available ConcreteMore.ollama_backend ConcreteMore.phi4
    ConcreteMore.served = true ∧
  dict_get "status"
    (OllamaProvider.get_model_info ConcreteMore.ollama_backend ConcreteMore.phi4
       ConcreteMore.served) = Some "available".
Proof.
  split; [reflexivity|].
  exact (proj1 (ollama_available_then_info_available ConcreteMore.ollama_backend
                  ConcreteMore.phi4 ConcreteMore.served) eq_refl).
Defined.

(** A provider that loaded answers with the stripped text of the
    pipeline and is reported with its device and type; where the type
    cannot be read, it is available and reported with status [error]. *)
Lemma huggingface_loaded_all_or_nothing_witness :
  let self := (HuggingFaceProvider.__init__ ConcreteMore.hf_backend
                 "microsoft/Phi-4" "auto" true None None true).1 in
  let self' := (HuggingFaceProvider.__init__ ConcreteMore.hf_backend_no_dtype
                  "microsoft/Phi-4" "auto" true None None true).1 in
  HuggingFaceProvider.is_available self = true ∧
  is_Some (HuggingFaceProvider.pipeline self) ∧
  HuggingFaceProvider.get_model_info ConcreteMore.hf_backend true self =
  [("provider", "huggingface"); ("name", "microsoft/Phi-4"); ("device", "cpu");
   ("dtype", "torch.float32"); ("quantized", "True"); ("status", "available")] ∧
  HuggingFaceProvider.generate ConcreteMore.hf_backend self "hi" [] true =
  (Return "hi", true) ∧
  HuggingFaceProvider.is_available self' = true ∧
  HuggingFaceProvider.get_model_info ConcreteMore.hf_backend_no_dtype true self' =
  [("status", "error"); ("error", "parameters are on the meta device")].
Proof.
  intros self self'.
  assert (Hup : HuggingFaceProvider.is_available self = true) by reflexivity.
  assert (Hup' : HuggingFaceProvider.is_available self' = true) by reflexivity.
  destruct (huggingface_loaded_all_or_nothing ConcreteMore.hf_backend
              "microsoft/Phi-4" "auto" true None None true)
    as (_ & Hpipeline & _ & Hinfo & Hgenerate & _).
  destruct (huggingface_loaded_all_or_nothing ConcreteMore.hf_backend_no_dtype
              "microsoft/Phi-4" "auto" true None None true)
    as (_ & _ & _ & Hinfo' & _).
  split; [exact Hup|]. split; [exact (proj1 Hpipeline Hup)|].
  split; [|split; [|split; [exact Hup'|]]].
  - destruct (Hinfo Hup) as ([] & _ & Heq). exact Heq.
  - destruct (Hgenerate Hup) as (pi & tok & Hpi & Htok & Hrun).
    assert (Htok' : HuggingFaceProvider.eos_token_id tok = Some 2).
    { change (HuggingFaceProvider.tokenizer self) with
        (Some {| HuggingFaceProvider.pad_token := Some "<|endoftext|>";
                 HuggingFaceProvider.eos_token := Some "<|endoftext|>";
                 HuggingFaceProvider.eos_token_id := Some 2 |}) in Htok.
      injection Htok as <-. reflexivity. }
    exact (Hrun "hi" [] true _ [("generated_text", " hi")] [] " hi" true
             eq_refl
             (eq_ind_r (λ o, HuggingFaceProvider.run_pipeline ConcreteMore.hf_backend
                               pi "hi" _ o true = _) eq_refl Htok')
             eq_refl).
  - destruct (Hinfo' Hup') as ([] & _ & Heq). exact Heq.
Defined.
